(** * Glucose Buddy: the extraction, validation, confirmation and trend pipeline

    A shallow embedding of the backend variants of the repository that keep
    readings:

    - [Ws]      : [backend/main.py]                (WebSocket, single in-memory list)
    - [Complex] : [backend/main_complex.py]        (HTTP, in-memory dictionaries)
    - [Sqlite]  : [backend/main_working_saving.py] (HTTP, one SQLite table)

    together with the Python values they compute on: binary64 floats, dates,
    and the strings that f-strings build from them.  (The fourth variant,
    [backend/main_no_db.py], answers a chat message and keeps nothing.)  The
    language-model collaborators are external: what a call to one of them
    returned is an input of the handler that made the call. *)

From Stdlib Require Import ZArith String Ascii List Bool Lia DecimalString.
From Stdlib Require Import Floats.SpecFloat.
From stdpp Require Import gmap strings list fin_maps.

Local Open Scope Z_scope.

(* ===================================================================== *)
(** ** Python floats: IEEE 754 binary64 *)
(* ===================================================================== *)

Module PyFloat.

(** A float is a [spec_float] in the format below.  Those that Python can
    hold satisfy [valid_binary prec emax]; no statement of this file needs
    the restriction. *)
Definition float : Type := spec_float.

Definition prec : Z := 53.
Definition emax : Z := 1024.

(** [float(n)] for a Python int [n]: round to nearest, ties to even. *)
Definition of_int (n : Z) : float := binary_normalize prec emax n 0 false.

Definition add (x y : float) : float := SFadd prec emax x y.
Definition sub (x y : float) : float := SFsub prec emax x y.
Definition div (x y : float) : float := SFdiv prec emax x y.
Definition abs (x : float) : float := SFabs x.

(** The four order comparisons; each is false as soon as one side is a NaN. *)
Definition lt (x y : float) : bool :=
  match SFcompare x y with Some Lt => true | _ => false end.
Definition gt (x y : float) : bool :=
  match SFcompare x y with Some Gt => true | _ => false end.
Definition le (x y : float) : bool :=
  match SFcompare x y with Some (Lt | Eq) => true | _ => false end.
Definition ge (x y : float) : bool :=
  match SFcompare x y with Some (Gt | Eq) => true | _ => false end.

(** [sum(xs)]: the running total starts at the int [0] and the items are
    added from left to right.  (The compensated summation of CPython 3.12 and
    later is not modelled; it agrees with this one whenever every partial sum
    is exact, as it is for the whole-number readings used below.) *)
Definition sum (xs : list float) : float := fold_left add xs (of_int 0).

(** *** Decimal output *)

Definition string_of_nat_Z (n : Z) : string :=
  NilZero.string_of_uint (N.to_uint (Z.to_N n)).

(** The integer nearest to [n / d] (for [0 <= n], [0 < d]), ties to even. *)
Definition round_half_even (n d : Z) : Z :=
  let q := n / d in
  let r := n mod d in
  match 2 * r ?= d with
  | Lt => q
  | Gt => q + 1
  | Eq => if Z.even q then q else q + 1
  end.

(** [|x|] of a finite nonzero float as a fraction [num / den]. *)
Definition magnitude (m : positive) (e : Z) : Z * Z :=
  if 0 <=? e then (Z.pos m * 2 ^ e, 1) else (Z.pos m, 2 ^ (- e)).

(** [|x| * 10], rounded to an integer: the digits of [x] to one decimal. *)
Definition tenths (m : positive) (e : Z) : Z :=
  let '(n, d) := magnitude m e in round_half_even (10 * n) d.

Definition sign_str (s : bool) : string := if s then "-" else EmptyString.

(** [format(x, ".1f")], which is what [f"{x:.1f}"] inserts: the exact value
    of the float, correctly rounded to one digit after the point. *)
Definition format_1f (x : float) : string :=
  match x with
  | S754_nan => "nan"
  | S754_infinity s => sign_str s +:+ "inf"
  | S754_zero s => sign_str s +:+ "0.0"
  | S754_finite s m e =>
      let t := tenths m e in
      sign_str s +:+ string_of_nat_Z (t / 10) +:+ "." +:+ string_of_nat_Z (t mod 10)
  end.

(** The float nearest to [n * 10^p] (what reading a decimal literal gives). *)
Definition of_decimal (n : positive) (p : Z) : float :=
  if 0 <=? p then binary_normalize prec emax (Z.pos n * 10 ^ p) 0 false
  else SFdiv prec emax (S754_finite false n 0)
                       (S754_finite false (Z.to_pos (10 ^ (- p))) 0).

(** [10^k <= num / den], for any sign of [k]. *)
Definition pow10_le (k num den : Z) : bool :=
  if 0 <=? k then 10 ^ k * den <=? num else den <=? num * 10 ^ (- k).

(** The decimal exponent of [num / den]: the [k] with
    [10^k <= num / den < 10^(k+1)], found around an estimate from the
    binary logarithms. *)
Definition ilog10 (num den : Z) : Z :=
  let est := ((Z.log2 num - Z.log2 den) * 30103) / 100000 in
  if pow10_le (est + 2) num den then est + 2
  else if pow10_le (est + 1) num den then est + 1
  else if pow10_le est num den then est
  else if pow10_le (est - 1) num den then est - 1
  else est - 2.

(** The two [k]-digit decimals around [num / den], scaled by [10^p], and the
    one of them that reads back as [x]; when both do, the nearer (ties to
    even). *)
Definition shortest_at (x : float) (num den p : Z) : option Z :=
  let '(n, d) := if 0 <=? p then (num, den * 10 ^ p) else (num * 10 ^ (- p), den) in
  let lo := n / d in
  let r := n mod d in
  let hi := lo + 1 in
  let back (c : Z) : bool :=
    match c with
    | Z.pos c' =>
        match SFcompare (of_decimal c' p) x with
        | Some Eq => true
        | _ => false
        end
    | _ => false
    end in
  if r =? 0 then (if back lo then Some lo else None)
  else
    match back lo, back hi with
    | true, true =>
        Some (match 2 * r ?= d with
              | Lt => lo
              | Gt => hi
              | Eq => if Z.even lo then lo else hi
              end)
    | true, false => Some lo
    | false, true => Some hi
    | false, false => None
    end.

(** Try 1, 2, ... significant digits; [k] counts the digits tried so far. *)
Fixpoint shortest_from (fuel : nat) (x : float) (num den e10 k : Z) : Z * Z :=
  let p := e10 - k in
  match fuel with
  | O => (round_half_even (if 0 <=? p then num else num * 10 ^ (- p))
                          (if 0 <=? p then den * 10 ^ p else den), p)
  | S fuel' =>
      match shortest_at x num den p with
      | Some c => (c, p)
      | None => shortest_from fuel' x num den e10 (k + 1)
      end
  end.

Fixpoint strip_zeros (fuel : nat) (c p : Z) : Z * Z :=
  match fuel with
  | O => (c, p)
  | S fuel' => if (c mod 10 =? 0) && negb (c =? 0)
               then strip_zeros fuel' (c / 10) (p + 1) else (c, p)
  end.

(** The shortest digit string that reads back as the float, and the position
    of its decimal point: the value is [0.d1d2...dn * 10^decpt]. *)
Definition shortest_digits (m : positive) (e : Z) : string * Z :=
  let '(num, den) := magnitude m e in
  let e10 := ilog10 num den in
  let '(c, p) := shortest_from 17 (S754_finite false m e) num den e10 0 in
  let '(c, p) := strip_zeros 400 c p in
  let ds := string_of_nat_Z c in
  (ds, Z.of_nat (String.length ds) + p).

Fixpoint zeros (n : nat) : string :=
  match n with O => EmptyString | S n' => String "0" (zeros n') end.

Definition take (n : nat) (s : string) : string := substring 0 n s.
Definition drop (n : nat) (s : string) : string := substring n (String.length s - n) s.

(** [repr(x)], which is also [str(x)] and what [f"{x}"] inserts. *)
Definition repr (x : float) : string :=
  match x with
  | S754_nan => "nan"
  | S754_infinity s => sign_str s +:+ "inf"
  | S754_zero s => sign_str s +:+ "0.0"
  | S754_finite s m e =>
      let '(ds, decpt) := shortest_digits m e in
      let n := Z.of_nat (String.length ds) in
      sign_str s +:+
      (if (decpt <? -3) || (16 <? decpt) then
         let ex := decpt - 1 in
         take 1 ds +:+ (if 1 <? n then "." +:+ drop 1 ds else EmptyString)
         +:+ "e" +:+ (if ex <? 0 then "-" else "+")
         +:+ (if Z.abs ex <? 10 then "0" else EmptyString) +:+ string_of_nat_Z (Z.abs ex)
       else if decpt <=? 0 then
         "0." +:+ zeros (Z.to_nat (- decpt)) +:+ ds
       else if n <=? decpt then
         ds +:+ zeros (Z.to_nat (decpt - n)) +:+ ".0"
       else
         take (Z.to_nat decpt) ds +:+ "." +:+ drop (Z.to_nat decpt) ds)
  end.

(** [round(x, 1)]: the float nearest to the decimal that [format_1f] prints;
    infinities and NaN are returned as they are. *)
Definition round_1 (x : float) : float :=
  match x with
  | S754_finite s m e =>
      match tenths m e with
      | Z.pos t => let y := of_decimal t (-1) in if s then SFopp y else y
      | _ => S754_zero s
      end
  | _ => x
  end.

End PyFloat.

(* ===================================================================== *)
(** ** Python dates: [datetime.date] *)
(* ===================================================================== *)

Module PyDate.

Record date : Type := mk_date { year : Z; month : Z; day : Z }.

Definition is_leap (y : Z) : bool :=
  (y mod 4 =? 0) && (negb (y mod 100 =? 0) || (y mod 400 =? 0)).

Definition days_in_month (y m : Z) : Z :=
  if (m =? 2) && is_leap y then 29
  else nth (Z.to_nat m) [0; 31; 28; 31; 30; 31; 30; 31; 31; 30; 31; 30; 31] 0.

(** The dates that [datetime.date] can hold. *)
Definition valid (d : date) : bool :=
  (1 <=? year d) && (year d <=? 9999) && (1 <=? month d) && (month d <=? 12)
  && (1 <=? day d) && (day d <=? days_in_month (year d) (month d)).

Definition days_before_year (y : Z) : Z :=
  let y' := y - 1 in y' * 365 + y' / 4 - y' / 100 + y' / 400.

Definition days_before_month (y m : Z) : Z :=
  nth (Z.to_nat m) [0; 0; 31; 59; 90; 120; 151; 181; 212; 243; 273; 304; 334] 0
  + (if (2 <? m) && is_leap y then 1 else 0).

(** [d.toordinal()]: 1 for 0001-01-01. *)
Definition toordinal (d : date) : Z :=
  days_before_year (year d) + days_before_month (year d) (month d) + day d.

(** [(a - b).days] *)
Definition days_between (a b : date) : Z := toordinal a - toordinal b.

(** Dates compare as the triples (year, month, day). *)
Definition compare (a b : date) : comparison :=
  match year a ?= year b with
  | Eq => match month a ?= month b with
          | Eq => day a ?= day b
          | c => c
          end
  | c => c
  end.

Definition gt (a b : date) : bool :=
  match compare a b with Gt => true | _ => false end.
Definition le (a b : date) : bool :=
  match compare a b with Gt => false | _ => true end.

Definition pad (width : nat) (n : Z) : string :=
  let s := PyFloat.string_of_nat_Z n in
  PyFloat.zeros (width - String.length s) +:+ s.

(** [str(d)] and [d.isoformat()]: YYYY-MM-DD. *)
Definition isoformat (d : date) : string :=
  pad 4 (year d) +:+ "-" +:+ pad 2 (month d) +:+ "-" +:+ pad 2 (day d).

End PyDate.

(* ===================================================================== *)
(** ** What the variants share *)
(* ===================================================================== *)

(** [class MealStatus(str, Enum)] *)
Inductive MealStatus : Type := FASTING | PRANDIAL.

Definition MealStatus_value (s : MealStatus) : string :=
  match s with FASTING => "fasting" | PRANDIAL => "prandial" end.

(** [MealStatus(v)], as pydantic coerces a string field to the enum. *)
Definition MealStatus_of_value (v : string) : option MealStatus :=
  if String.eqb v "fasting" then Some FASTING
  else if String.eqb v "prandial" then Some PRANDIAL
  else None.

Definition MealStatus_eqb (a b : MealStatus) : bool :=
  match a, b with
  | FASTING, FASTING | PRANDIAL, PRANDIAL => true
  | _, _ => false
  end.

(** [class InvalidReading(BaseModel)] *)
Record InvalidReading : Type := { reason : string }.

(** Messages kept by the conversation agent; their content is opaque here. *)
Definition ModelMessage : Type := string.

(** What a call to a collaborator came back with. *)
Inductive AgentRun (A : Type) : Type :=
| Returned (result : A)
| Raised (exc : string).
Arguments Returned {A} result.
Arguments Raised {A} exc.

(** [result.data] and [result.all_messages()] of a conversation run. *)
Record ConversationResult : Type :=
  { data : string; all_messages : list ModelMessage }.

Definition newline : string := String (ascii_of_nat 10) EmptyString.

(** [sep.join(parts)] *)
Definition join (sep : string) (parts : list string) : string :=
  String.concat sep parts.

(** [needle in hay] *)
Definition contains (needle hay : string) : Prop :=
  exists pre post, hay = pre +:+ needle +:+ post.

(** The attributes that validation and trend analysis read off a reading.
    The variants declare [BloodSugarReading] separately; the functions below
    are the text that main.py and main_complex.py share word for word. *)
Class ReadingLike (R : Type) : Type :=
  { glucose_level_of : R -> PyFloat.float;
    date_of : R -> PyDate.date;
    meal_status_of : R -> MealStatus }.

(** [ctx.deps] *)
Record Deps (R : Type) : Type :=
  { today : PyDate.date; previous_readings : list R }.
Arguments today {R} _.
Arguments previous_readings {R} _.

Section Shared.
Context {R : Type} `{ReadingLike R}.

Definition out_of_range (reading : R) : bool :=
  PyFloat.lt (glucose_level_of reading) (PyFloat.of_int 30)
  || PyFloat.gt (glucose_level_of reading) (PyFloat.of_int 600).

Definition in_future (reading : R) (today : PyDate.date) : bool :=
  PyDate.gt (date_of reading) today.

Definition range_message (reading : R) : string :=
  "Blood sugar level " +:+ PyFloat.repr (glucose_level_of reading)
  +:+ " mg/dL is outside typical meter range (30-600 mg/dL)".

Definition future_message (reading : R) (today : PyDate.date) : string :=
  "Date cannot be in the future: " +:+ PyDate.isoformat (date_of reading)
  +:+ " > " +:+ PyDate.isoformat today.

(** The list [errors] that every copy of the validation builds: two
    independent [if] statements, each appending its own message. *)
Definition validation_errors (reading : R) (today : PyDate.date) : list string :=
  let errors := [] in
  let errors := if out_of_range reading
                then errors ++ [range_message reading] else errors in
  let errors := if in_future reading today
                then errors ++ [future_message reading today] else errors in
  errors.

(** main.py:116-135, main_complex.py:206-225 *)
Definition validate_blood_sugar (ctx : Deps R) (reading : R) : R + InvalidReading :=
  let errors := validation_errors reading (today ctx) in
  match errors with
  | _ :: _ => inr {| reason := join newline errors |}
  | [] => inl reading
  end.

(** main.py:166-184 *)
Definition validate_reading (reading : R) (today : PyDate.date) : bool * string :=
  let errors := validation_errors reading today in
  match errors with
  | _ :: _ => (false, join newline errors)
  | [] => (true, EmptyString)
  end.

Definition similar_to (new_reading : R) (readings : list R) : list R :=
  List.filter (fun r => MealStatus_eqb (meal_status_of r) (meal_status_of new_reading))
              readings.

Definition average (similar_readings : list R) : PyFloat.float :=
  PyFloat.div (PyFloat.sum (map glucose_level_of similar_readings))
              (PyFloat.of_int (Z.of_nat (length similar_readings))).

Definition first_reading_message : string := "This is your first recorded reading.".

Definition first_of_status_message (new_reading : R) : string :=
  "This is your first " +:+ MealStatus_value (meal_status_of new_reading) +:+ " reading.".

Definition consistent_message (new_reading : R) (avg : PyFloat.float) : string :=
  "This reading is consistent with your average "
  +:+ MealStatus_value (meal_status_of new_reading)
  +:+ " level of " +:+ PyFloat.format_1f avg +:+ " mg/dL.".

Definition higher_message (new_reading : R) (avg : PyFloat.float) : string :=
  "This reading is "
  +:+ PyFloat.format_1f (PyFloat.sub (glucose_level_of new_reading) avg)
  +:+ " mg/dL higher than your average "
  +:+ MealStatus_value (meal_status_of new_reading)
  +:+ " level of " +:+ PyFloat.format_1f avg +:+ " mg/dL.".

Definition lower_message (new_reading : R) (avg : PyFloat.float) : string :=
  "This reading is "
  +:+ PyFloat.format_1f (PyFloat.sub avg (glucose_level_of new_reading))
  +:+ " mg/dL lower than your average "
  +:+ MealStatus_value (meal_status_of new_reading)
  +:+ " level of " +:+ PyFloat.format_1f avg +:+ " mg/dL.".

(** The comparison of a reading with the average of the similar ones. *)
Definition compare_with_average (new_reading : R) (avg : PyFloat.float) : string :=
  if PyFloat.lt (PyFloat.abs (PyFloat.sub (glucose_level_of new_reading) avg))
                (PyFloat.of_int 10)
  then consistent_message new_reading avg
  else if PyFloat.gt (glucose_level_of new_reading) avg
  then higher_message new_reading avg
  else lower_message new_reading avg.

(** main.py:140-162, main_complex.py:229-251 *)
Definition analyze_trend (ctx : Deps R) (new_reading : R) : string :=
  match previous_readings ctx with
  | [] => first_reading_message
  | readings =>
      let similar_readings := similar_to new_reading readings in
      match similar_readings with
      | [] => first_of_status_message new_reading
      | _ =>
          let avg := average similar_readings in
          compare_with_average new_reading avg
      end
  end.

End Shared.

(* ===================================================================== *)
(** ** backend/main.py: the WebSocket variant *)
(* ===================================================================== *)

Module Ws.

(** [class BloodSugarReading(BaseModel)], main.py:43-55: no [id] field. *)
Record BloodSugarReading : Type :=
  { glucose_level : PyFloat.float;
    date : PyDate.date;
    meal_status : MealStatus;
    notes : option string }.

#[global] Instance BloodSugarReading_like : ReadingLike BloodSugarReading :=
  {| glucose_level_of := glucose_level;
     date_of := date;
     meal_status_of := meal_status |}.

(** Constructing the model runs pydantic's field validation: [ge=30, le=600]
    on [glucose_level].  [None] stands for the ValidationError it raises. *)
Definition BloodSugarReading_init (glucose_level : PyFloat.float) (date : PyDate.date)
    (meal_status : MealStatus) (notes : option string) : option BloodSugarReading :=
  if PyFloat.ge glucose_level (PyFloat.of_int 30)
     && PyFloat.le glucose_level (PyFloat.of_int 600)
  then Some {| glucose_level := glucose_level; date := date;
               meal_status := meal_status; notes := notes |}
  else None.

(** [class BloodSugarDatabase], main.py:188-197 *)
Record BloodSugarDatabase : Type := { readings : list BloodSugarReading }.

Definition add_reading (db : BloodSugarDatabase) (reading : BloodSugarReading)
  : BloodSugarDatabase * Z :=
  let readings' := readings db ++ [reading] in
  ({| readings := readings' |}, Z.of_nat (length readings')).

Definition get_readings (db : BloodSugarDatabase) : list BloodSugarReading :=
  readings db.

(** A connection is known by its socket object; a number stands for it. *)
Definition WebSocket : Type := nat.

(** [class ConnectionManager], main.py:250-264 *)
Record ConnectionManager : Type :=
  { active_connections : list WebSocket;
    message_histories : gmap nat (list ModelMessage);
    db : BloodSugarDatabase }.

Definition with_db (manager : ConnectionManager) (db' : BloodSugarDatabase)
  : ConnectionManager :=
  {| active_connections := active_connections manager;
     message_histories := message_histories manager;
     db := db' |}.

Definition with_history (manager : ConnectionManager) (websocket : WebSocket)
    (history : list ModelMessage) : ConnectionManager :=
  {| active_connections := active_connections manager;
     message_histories := <[websocket := history]> (message_histories manager);
     db := db manager |}.

(** [reading.dict()] with the date replaced by [str(date)]. *)
Record ReadingDict : Type :=
  { dict_glucose_level : PyFloat.float;
    dict_date : string;
    dict_meal_status : MealStatus;
    dict_notes : option string }.

Definition reading_dict (reading : BloodSugarReading) : ReadingDict :=
  {| dict_glucose_level := glucose_level reading;
     dict_date := PyDate.isoformat (date reading);
     dict_meal_status := meal_status reading;
     dict_notes := notes reading |}.

(** The frames the server sends (the [type] key of the JSON object). *)
Inductive Frame : Type :=
| message_frame (message : string)
| reading_extracted (reading : ReadingDict)
| history_update (readings : list ReadingDict).

(** [message_data["reading"]] of a confirm_reading frame.  [date_field] is
    what [datetime.date.fromisoformat] made of the string sent ([None]: it
    raised ValueError). *)
Record ReadingData : Type :=
  { glucose_level_field : PyFloat.float;
    date_field : option PyDate.date;
    meal_status_field : string }.

(** The frames the server receives, by their [action] key.  ([get_stats],
    which like [get_history] only reads the database, is left out.) *)
Inductive Action : Type :=
| message (user_message : string)
| confirm_reading (reading_data : ReadingData) (notes : string)
| get_history
| other_action.

(** One turn of the receive loop: the manager afterwards, the frames sent,
    and the exception that left the loop, if one did. *)
Record Turn : Type :=
  { manager_after : ConnectionManager;
    sent : list Frame;
    raised : option string }.

Definition send (manager : ConnectionManager) (frames : list Frame) : Turn :=
  {| manager_after := manager; sent := frames; raised := None |}.

Definition raise (manager : ConnectionManager) (exc : string) : Turn :=
  {| manager_after := manager; sent := []; raised := Some exc |}.

(** main.py:316-371.  [extraction] and [conversation] are what the two agents
    came back with; the conversation agent only runs when no reading was
    extracted. *)
Definition on_message (manager : ConnectionManager) (websocket : WebSocket)
    (today : PyDate.date)
    (extraction : AgentRun (BloodSugarReading + InvalidReading))
    (conversation : AgentRun ConversationResult) : Turn :=
  match extraction with
  | Raised exc => raise manager exc
  | Returned (inl reading) =>
      let errors := validation_errors reading today in
      match errors with
      | _ :: _ =>
          send manager
            [message_frame ("I couldn't validate your reading: " +:+ join "; " errors)]
      | [] => send manager [reading_extracted (reading_dict reading)]
      end
  | Returned (inr _) =>
      match conversation with
      | Raised exc => raise manager exc
      | Returned result =>
          send (with_history manager websocket (all_messages result))
               [message_frame (data result)]
      end
  end.

(** main.py:389-422, the trend analysis written out in the handler.
    [readings] already holds the reading just added. *)
Definition trend_after_add (readings : list BloodSugarReading)
    (reading : BloodSugarReading) : string :=
  if (length readings <=? 1)%nat then first_reading_message
  else
    let previous_readings := removelast readings in
    let similar_readings := similar_to reading previous_readings in
    match similar_readings with
    | [] => first_of_status_message reading
    | _ =>
        let avg := average similar_readings in
        compare_with_average reading avg
    end.

Definition saved_message (trend_analysis : string) : string :=
  "Great! I've saved your reading. " +:+ trend_analysis +:+ newline +:+ newline
  +:+ "Do you have any other readings to share or questions about your blood sugar?".

(** main.py:373-428.  The reading is rebuilt from the frame; nothing the
    server holds is consulted. *)
Definition on_confirm_reading (manager : ConnectionManager)
    (reading_data : ReadingData) (notes : string) : Turn :=
  match date_field reading_data with
  | None => raise manager "ValueError"
  | Some date =>
      match MealStatus_of_value (meal_status_field reading_data) with
      | None => raise manager "ValidationError"
      | Some meal_status =>
          match BloodSugarReading_init (glucose_level_field reading_data) date meal_status
                  (if String.eqb notes EmptyString then None else Some notes) with
          | None => raise manager "ValidationError"
          | Some reading =>
              let '(db', _) := add_reading (db manager) reading in
              let readings := get_readings db' in
              let trend_analysis := trend_after_add readings reading in
              send (with_db manager db') [message_frame (saved_message trend_analysis)]
          end
      end
  end.

Definition on_get_history (manager : ConnectionManager) : Turn :=
  send manager [history_update (map reading_dict (get_readings (db manager)))].

(** The body of the [while True] loop of [websocket_endpoint]. *)
Definition websocket_turn (manager : ConnectionManager) (websocket : WebSocket)
    (today : PyDate.date) (action : Action)
    (extraction : AgentRun (BloodSugarReading + InvalidReading))
    (conversation : AgentRun ConversationResult) : Turn :=
  match action with
  | message _ => on_message manager websocket today extraction conversation
  | confirm_reading reading_data notes => on_confirm_reading manager reading_data notes
  | get_history => on_get_history manager
  | other_action => send manager []
  end.

(** *** Statistics, connections, and what a server goes through *)

(** The dictionary that [get_statistics] returns; a key that is not set is
    [None]. *)
Record Statistics : Type :=
  { total_readings : Z;
    has_fasting : bool;
    has_prandial : bool;
    avg_fasting : option PyFloat.float;
    avg_prandial : option PyFloat.float }.

Definition with_status (status : MealStatus) (readings : list BloodSugarReading)
  : list BloodSugarReading :=
  List.filter (fun r => MealStatus_eqb (meal_status r) status) readings.

(** [BloodSugarDatabase.get_statistics], main.py:199-233 *)
Definition get_statistics (db : BloodSugarDatabase) : Statistics :=
  match readings db with
  | [] => {| total_readings := 0; has_fasting := false; has_prandial := false;
             avg_fasting := None; avg_prandial := None |}
  | _ =>
      let fasting_readings := with_status FASTING (readings db) in
      let prandial_readings := with_status PRANDIAL (readings db) in
      {| total_readings := Z.of_nat (length (readings db));
         has_fasting := 0 <? Z.of_nat (length fasting_readings);
         has_prandial := 0 <? Z.of_nat (length prandial_readings);
         avg_fasting :=
           match fasting_readings with
           | [] => None
           | _ => Some (PyFloat.round_1 (average fasting_readings))
           end;
         avg_prandial :=
           match prandial_readings with
           | [] => None
           | _ => Some (PyFloat.round_1 (average prandial_readings))
           end |}
  end.

(** [ConnectionManager.connect], main.py:256-259 *)
Definition connect (manager : ConnectionManager) (websocket : WebSocket)
  : ConnectionManager :=
  {| active_connections := active_connections manager ++ [websocket];
     message_histories := <[websocket := []]> (message_histories manager);
     db := db manager |}.

(** [l.remove(x)]: the list without the first [x]; [None] is the ValueError
    raised when there is none. *)
Fixpoint list_remove (x : WebSocket) (l : list WebSocket) : option (list WebSocket) :=
  match l with
  | [] => None
  | y :: l' =>
      if Nat.eqb y x then Some l'
      else match list_remove x l' with
           | Some l'' => Some (y :: l'')
           | None => None
           end
  end.

(** [ConnectionManager.disconnect], main.py:261-264 *)
Definition disconnect (manager : ConnectionManager) (websocket : WebSocket)
  : option ConnectionManager :=
  match list_remove websocket (active_connections manager) with
  | None => None
  | Some connections =>
      Some {| active_connections := connections;
              message_histories := delete websocket (message_histories manager);
              db := db manager |}
  end.

(** A frame received on some connection, with the date of the day and what
    the agents came back with while it was handled. *)
Record Received : Type :=
  { on_websocket : WebSocket;
    on_day : PyDate.date;
    action_received : Action;
    extraction_given : AgentRun (BloodSugarReading + InvalidReading);
    conversation_given : AgentRun ConversationResult }.

Definition is_confirm_reading (received : Received) : bool :=
  match action_received received with
  | confirm_reading _ _ => true
  | _ => false
  end.

(** The manager is shared by all connections: a turn that raises ends its
    own connection and leaves the manager to the others. *)
Definition serve (manager : ConnectionManager) (received : Received)
  : ConnectionManager :=
  manager_after
    (websocket_turn manager (on_websocket received) (on_day received)
       (action_received received) (extraction_given received)
       (conversation_given received)).

Definition serve_all (manager : ConnectionManager) (frames : list Received)
  : ConnectionManager :=
  fold_left serve frames manager.

End Ws.

(* ===================================================================== *)
(** ** What an HTTP handler answers *)
(* ===================================================================== *)

(** [Ok]: the handler returned; [HTTPException]: it raised one, which the
    client receives with that status; [Unhandled]: it raised another
    exception, which the server turns into 500 Internal Server Error. *)
Inductive Http (A : Type) : Type :=
| Ok (body : A)
| HTTPException (status_code : Z) (detail : string)
| Unhandled (exc : string).
Arguments Ok {A} body.
Arguments HTTPException {A} status_code detail.
Arguments Unhandled {A} exc.

Definition ascii_lower (c : ascii) : ascii :=
  let n := nat_of_ascii c in
  if ((65 <=? n) && (n <=? 90))%nat then ascii_of_nat (n + 32) else c.

(** [s.lower()] on the letters A-Z; every other byte is kept. *)
Fixpoint lower (s : string) : string :=
  match s with
  | EmptyString => EmptyString
  | String c s' => String (ascii_lower c) (lower s')
  end.

(* ===================================================================== *)
(** ** backend/main_complex.py: HTTP with in-memory dictionaries *)
(* ===================================================================== *)

Module Complex.

(** [class BloodSugarReading(BaseModel)], main_complex.py:55-68 *)
Record BloodSugarReading : Type :=
  { id : string;
    glucose_level : PyFloat.float;
    date : PyDate.date;
    meal_status : MealStatus;
    notes : option string }.

#[global] Instance BloodSugarReading_like : ReadingLike BloodSugarReading :=
  {| glucose_level_of := glucose_level;
     date_of := date;
     meal_status_of := meal_status |}.

(** Constructing the model: [id] falls back on the default factory
    [str(uuid.uuid4())] when the caller gives none ([uuid4] is the string that
    call produces), and [glucose_level] is checked against [ge=30, le=600].
    [None] stands for pydantic's ValidationError. *)
Definition BloodSugarReading_init (uuid4 : string) (id : option string)
    (glucose_level : PyFloat.float) (date : PyDate.date)
    (meal_status : MealStatus) (notes : option string) : option BloodSugarReading :=
  if PyFloat.ge glucose_level (PyFloat.of_int 30)
     && PyFloat.le glucose_level (PyFloat.of_int 600)
  then Some {| id := match id with Some given => given | None => uuid4 end;
               glucose_level := glucose_level; date := date;
               meal_status := meal_status; notes := notes |}
  else None.

(** [class Database], main_complex.py:116-145 *)
Record Database : Type :=
  { readings : gmap string (list BloodSugarReading);
    message_history : gmap string (list ModelMessage);
    pending_readings : gmap string BloodSugarReading }.

Definition empty_db : Database :=
  {| readings := ∅; message_history := ∅; pending_readings := ∅ |}.

Definition get_readings (db : Database) (user_id : string) : list BloodSugarReading :=
  default [] (readings db !! user_id).

Definition add_reading (db : Database) (user_id : string) (reading : BloodSugarReading)
  : Database * string :=
  ({| readings := <[user_id := get_readings db user_id ++ [reading]]> (readings db);
      message_history := message_history db;
      pending_readings := pending_readings db |},
   id reading).

Definition get_message_history (db : Database) (session_id : string)
  : list ModelMessage :=
  default [] (message_history db !! session_id).

Definition set_message_history (db : Database) (session_id : string)
    (history : list ModelMessage) : Database :=
  {| readings := readings db;
     message_history := <[session_id := history]> (message_history db);
     pending_readings := pending_readings db |}.

Definition set_pending_reading (db : Database) (session_id : string)
    (reading : BloodSugarReading) : Database :=
  {| readings := readings db;
     message_history := message_history db;
     pending_readings := <[session_id := reading]> (pending_readings db) |}.

Definition get_pending_reading (db : Database) (session_id : string)
  : option BloodSugarReading :=
  pending_readings db !! session_id.

Definition clear_pending_reading (db : Database) (session_id : string) : Database :=
  {| readings := readings db;
     message_history := message_history db;
     pending_readings := delete session_id (pending_readings db) |}.

Record ChatRequest : Type := { message : string; session_id : string }.

Record ChatResponse : Type :=
  { response : string;
    extracted_reading : option BloodSugarReading;
    needs_confirmation : bool }.

Record ConfirmReadingRequest : Type :=
  { confirm_session_id : string; reading_id : string; confirm : bool }.

Definition plain_response (text : string) : ChatResponse :=
  {| response := text; extracted_reading := None; needs_confirmation := false |}.

Definition is_exit_command (message : string) : bool :=
  let m := lower message in
  String.eqb m "exit" || String.eqb m "quit" || String.eqb m "bye".

Definition confirmation_prompt (extracted : BloodSugarReading) : string :=
  "I see you've shared a reading of " +:+ PyFloat.repr (glucose_level extracted)
  +:+ " mg/dL (" +:+ MealStatus_value (meal_status extracted) +:+ ") on "
  +:+ PyDate.isoformat (date extracted) +:+ ". Is this correct?".

(** [POST /chat], main_complex.py:271-317.  The extraction agent is only
    run when the session has no pending reading. *)
Definition chat (db : Database) (request : ChatRequest)
    (conversation : AgentRun ConversationResult)
    (extraction : AgentRun (BloodSugarReading + InvalidReading))
  : Database * Http ChatResponse :=
  if is_exit_command (message request) then
    (db, Ok (plain_response "Take care! Remember to check your blood sugar regularly."))
  else
    match conversation with
    | Raised exc => (db, Unhandled exc)
    | Returned result =>
        let db := set_message_history db (session_id request) (all_messages result) in
        match get_pending_reading db (session_id request) with
        | None =>
            match extraction with
            | Raised exc => (db, Unhandled exc)
            | Returned (inl extracted) =>
                (set_pending_reading db (session_id request) extracted,
                 Ok {| response := confirmation_prompt extracted;
                       extracted_reading := Some extracted;
                       needs_confirmation := true |})
            | Returned (inr _) => (db, Ok (plain_response (data result)))
            end
        | Some _ => (db, Ok (plain_response (data result)))
        end
    end.

(** [RunContext(deps=deps, usage=usage)], main_complex.py:339.  pydantic_ai
    declares [RunContext] as a dataclass whose field [model] has no default
    value, so a call that passes [deps] and [usage] alone raises TypeError,
    whatever the two are. *)
Definition RunContext_init (deps : Deps BloodSugarReading)
  : AgentRun (Deps BloodSugarReading) :=
  Raised "TypeError".

(** [POST /confirm-reading], main_complex.py:320-344.  With confirm=true the
    reading is saved and the pending slot cleared before the context of the
    trend analysis is built; the exception of that construction is caught
    nowhere, so the request ends there. *)
Definition confirm_reading (db : Database) (today : PyDate.date)
    (request : ConfirmReadingRequest) : Database * Http string :=
  let user_id := confirm_session_id request in
  match get_pending_reading db (confirm_session_id request) with
  | None => (db, HTTPException 404 "No pending reading found")
  | Some reading =>
      if confirm request then
        let '(db, _) := add_reading db user_id reading in
        let db := clear_pending_reading db (confirm_session_id request) in
        let deps := {| today := today; previous_readings := get_readings db user_id |} in
        match RunContext_init deps with
        | Raised exc => (db, Unhandled exc)
        | Returned ctx =>
            let trend := analyze_trend ctx reading in
            (db, Ok ("Great! I've saved your reading. " +:+ trend))
        end
      else
        (clear_pending_reading db (confirm_session_id request),
         Ok "No problem, let's try again. What was your reading?")
  end.

(** *** Statistics, and what a server goes through *)

(** [class ReadingStats(BaseModel)], main_complex.py:107-112 *)
Record ReadingStats : Type :=
  { average_fasting : option PyFloat.float;
    average_prandial : option PyFloat.float;
    total_readings : Z }.

Definition with_status (status : MealStatus) (readings : list BloodSugarReading)
  : list BloodSugarReading :=
  List.filter (fun r => MealStatus_eqb (meal_status r) status) readings.

(** [GET /stats/{user_id}], main_complex.py:352-378 *)
Definition get_stats (db : Database) (user_id : string) : ReadingStats :=
  let readings := get_readings db user_id in
  match readings with
  | [] => {| average_fasting := None; average_prandial := None; total_readings := 0 |}
  | _ =>
      let fasting_readings := with_status FASTING readings in
      let prandial_readings := with_status PRANDIAL readings in
      let avg_fasting :=
        match fasting_readings with
        | [] => None
        | _ => Some (average fasting_readings)
        end in
      let avg_prandial :=
        match prandial_readings with
        | [] => None
        | _ => Some (average prandial_readings)
        end in
      {| average_fasting := avg_fasting;
         average_prandial := avg_prandial;
         total_readings := Z.of_nat (length readings) |}
  end.

(** The requests a client can make, with what the collaborators and the
    clock gave while each was served. *)
Inductive Request : Type :=
| chat_request (request : ChatRequest)
    (conversation : AgentRun ConversationResult)
    (extraction : AgentRun (BloodSugarReading + InvalidReading))
| confirm_request (today : PyDate.date) (request : ConfirmReadingRequest).

Definition serve (db : Database) (r : Request) : Database :=
  match r with
  | chat_request request conversation extraction =>
      fst (chat db request conversation extraction)
  | confirm_request today request => fst (confirm_reading db today request)
  end.

Definition serve_all (db : Database) (rs : list Request) : Database :=
  fold_left serve rs db.

End Complex.

(* ===================================================================== *)
(** ** backend/main_working_saving.py: HTTP with one SQLite table *)
(* ===================================================================== *)

Module Sqlite.

(** [class BloodSugarReading(BaseModel)], main_working_saving.py:43-48:
    no constraint on [glucose_level], and an optional [id]. *)
Record BloodSugarReading : Type :=
  { id : option string;
    glucose_level : PyFloat.float;
    date : PyDate.date;
    meal_status : MealStatus;
    notes : option string }.

(** A row of the table [readings] (its [created_at] column is left out).
    [id] is the primary key; SQLite lets a TEXT primary key hold NULL. *)
Record Row : Type :=
  { row_id : option string;
    row_session_id : string;
    row_glucose_level : PyFloat.float;
    row_date : string;
    row_meal_status : string;
    row_notes : option string;
    row_confirmed : Z }.

(** The tables [users] (by its key column) and [readings]. *)
Record Database : Type := { users : list string; readings : list Row }.

Definition empty_db : Database := {| users := []; readings := [] |}.

(** [INSERT OR IGNORE INTO users (session_id) VALUES (?)] *)
Definition insert_user_or_ignore (db : Database) (session_id : string) : Database :=
  if existsb (String.eqb session_id) (users db) then db
  else {| users := users db ++ [session_id]; readings := readings db |}.

Definition has_id (id : string) (row : Row) : bool :=
  match row_id row with
  | Some i => String.eqb i id
  | None => false
  end.

(** What the column [glucose_level REAL NOT NULL] makes of a Python float.
    SQLite binds a NaN as NULL, which the column refuses ([None]); it keeps a
    zero as the integer 0, so that -0.0 is read back as 0.0; every other
    float is read back as it was written. *)
Definition real_column (x : PyFloat.float) : option PyFloat.float :=
  match x with
  | S754_nan => None
  | S754_zero _ => Some (S754_zero false)
  | _ => Some x
  end.

Definition set_glucose_level (row : Row) (level : PyFloat.float) : Row :=
  {| row_id := row_id row;
     row_session_id := row_session_id row;
     row_glucose_level := level;
     row_date := row_date row;
     row_meal_status := row_meal_status row;
     row_notes := row_notes row;
     row_confirmed := row_confirmed row |}.

(** [INSERT INTO readings (...) VALUES (...)] with the values of [row] as
    parameters.  [None] is the IntegrityError of a glucose level that is NULL
    or of a primary key that is already in the table. *)
Definition insert_reading (db : Database) (row : Row) : option Database :=
  let taken := match row_id row with
               | Some i => existsb (has_id i) (readings db)
               | None => false
               end in
  match real_column (row_glucose_level row) with
  | None => None
  | Some level =>
      if taken then None
      else Some {| users := users db;
                   readings := readings db ++ [set_glucose_level row level] |}
  end.

Definition set_confirmed (row : Row) : Row :=
  {| row_id := row_id row;
     row_session_id := row_session_id row;
     row_glucose_level := row_glucose_level row;
     row_date := row_date row;
     row_meal_status := row_meal_status row;
     row_notes := row_notes row;
     row_confirmed := 1 |}.

(** [UPDATE readings SET confirmed = 1 WHERE id = ? AND session_id = ?] *)
Definition update_confirmed (db : Database) (reading_id session_id : string)
  : Database :=
  {| users := users db;
     readings := map (fun row =>
                        if has_id reading_id row
                           && String.eqb (row_session_id row) session_id
                        then set_confirmed row else row)
                     (readings db) |}.

(** [DELETE FROM readings WHERE id = ?] *)
Definition delete_reading (db : Database) (reading_id : string) : Database :=
  {| users := users db;
     readings := List.filter (fun row => negb (has_id reading_id row)) (readings db) |}.

(** The rows that [GET /readings/{session_id}] selects (its ORDER BY is not
    modelled): the confirmed history of a session. *)
Definition confirmed_readings (db : Database) (session_id : string) : list Row :=
  List.filter (fun row => String.eqb (row_session_id row) session_id
                          && (row_confirmed row =? 1))
              (readings db).

(** The rows still waiting for their confirmation. *)
Definition pending_rows (db : Database) (session_id : string) : list Row :=
  List.filter (fun row => String.eqb (row_session_id row) session_id
                          && (row_confirmed row =? 0))
              (readings db).

Record ChatRequest : Type := { message : string; session_id : string }.

Record ChatResponse : Type :=
  { response : string;
    extracted_reading : option BloodSugarReading;
    needs_confirmation : bool }.

Record ConfirmReadingRequest : Type :=
  { confirm_session_id : string; reading_id : string; confirm : bool }.

(** main_working_saving.py:183-190: a date after today, or more than 90 days
    before it, is replaced by today. *)
Definition reading_date_for (extracted_date today : PyDate.date) : PyDate.date :=
  if PyDate.gt extracted_date today || (90 <? PyDate.days_between today extracted_date)
  then today else extracted_date.

(** The parameters of the INSERT of [chat], main_working_saving.py:194-206. *)
Definition pending_row (reading_id session_id : string) (extracted : BloodSugarReading)
    (reading_date : PyDate.date) : Row :=
  {| row_id := Some reading_id;
     row_session_id := session_id;
     row_glucose_level := glucose_level extracted;
     row_date := PyDate.isoformat reading_date;
     row_meal_status := MealStatus_value (meal_status extracted);
     row_notes := notes extracted;
     row_confirmed := 0 |}.

Section Handlers.

(** How an f-string renders a member of the str-mixin enum [MealStatus]:
    its value ([fasting]) up to Python 3.10, the name of the member
    ([MealStatus.FASTING]) from Python 3.11 on. *)
Variable format_MealStatus : MealStatus -> string.

(** For the four-digit years met here, [d.strftime('%Y-%m-%d')] is
    [d.isoformat()]. *)
Definition confirmation_prompt (extracted : BloodSugarReading)
    (reading_date : PyDate.date) : string :=
  "I see you've shared a reading of " +:+ PyFloat.repr (glucose_level extracted)
  +:+ " mg/dL (" +:+ format_MealStatus (meal_status extracted) +:+ ") on "
  +:+ PyDate.isoformat reading_date +:+ ". Is this correct?".

(** [POST /chat], main_working_saving.py:148-253.  [uuid4] is the string
    that [str(uuid.uuid4())] produces in this call. *)
Definition chat (db : Database) (today : PyDate.date) (uuid4 : string)
    (request : ChatRequest)
    (conversation : AgentRun ConversationResult)
    (extraction : AgentRun (BloodSugarReading + InvalidReading))
  : Database * Http ChatResponse :=
  let db := insert_user_or_ignore db (session_id request) in
  match conversation with
  | Raised exc => (db, HTTPException 500 exc)
  | Returned result =>
      match extraction with
      | Returned (inl extracted) =>
          let reading_id := uuid4 in
          let reading_date := reading_date_for (date extracted) today in
          let db :=
            match insert_reading db (pending_row reading_id (session_id request)
                                                 extracted reading_date) with
            | Some db' => db'
            | None => db
            end in
          let extracted_with_id :=
            {| id := Some reading_id;
               glucose_level := glucose_level extracted;
               date := reading_date;
               meal_status := meal_status extracted;
               notes := notes extracted |} in
          (db, Ok {| response := confirmation_prompt extracted reading_date;
                     extracted_reading := Some extracted_with_id;
                     needs_confirmation := true |})
      | Returned (inr _) | Raised _ =>
          (db, Ok {| response := data result;
                     extracted_reading := None;
                     needs_confirmation := false |})
      end
  end.

(** [POST /confirm-reading], main_working_saving.py:256-291 *)
Definition confirm_reading (db : Database) (request : ConfirmReadingRequest)
  : Database * Http string :=
  if confirm request then
    (update_confirmed db (reading_id request) (confirm_session_id request),
     Ok "Great! I've saved your reading.")
  else
    (delete_reading db (reading_id request),
     Ok "No problem, let's try again. What was your reading?").

(** The requests a client can make, with what the collaborators, the clock
    and the id generator gave while each was served. *)
Inductive Request : Type :=
| chat_request (today : PyDate.date) (uuid4 : string) (request : ChatRequest)
    (conversation : AgentRun ConversationResult)
    (extraction : AgentRun (BloodSugarReading + InvalidReading))
| confirm_request (request : ConfirmReadingRequest).

Definition serve (db : Database) (r : Request) : Database :=
  match r with
  | chat_request today uuid4 request conversation extraction =>
      fst (chat db today uuid4 request conversation extraction)
  | confirm_request request => fst (confirm_reading db request)
  end.

(** The database after a sequence of requests, served one after the other. *)
Definition serve_all (db : Database) (rs : list Request) : Database :=
  fold_left serve rs db.

End Handlers.

End Sqlite.

(* ===================================================================== *)
(** * Properties *)
(* ===================================================================== *)

(** ** Floats, dates and strings *)

Lemma finite_compare_antisym (ex ey : Z) (mx my : positive) :
  match ey ?= ex with
  | Eq => Pos.compare_cont Eq my mx
  | Lt => Lt
  | Gt => Gt
  end
  = CompOpp match ex ?= ey with
            | Eq => Pos.compare_cont Eq mx my
            | Lt => Lt
            | Gt => Gt
            end.
Proof.
  rewrite (Z.compare_antisym ex ey).
  destruct (ex ?= ey); simpl; try reflexivity.
  now rewrite (Pos.compare_cont_antisym mx my Eq).
Qed.

(** Swapping the sides of a comparison of floats reverses its result. *)
Lemma SFcompare_antisym (x y : spec_float) (c : comparison) :
  SFcompare x y = Some c -> SFcompare y x = Some (CompOpp c).
Proof.
  destruct x as [sx|sx| |sx mx ex], y as [sy|sy| |sy my ey]; simpl;
    try discriminate; intros [= <-]; f_equal;
    try (destruct sx; reflexivity);
    try (destruct sy; reflexivity);
    try (destruct sx, sy; reflexivity).
  destruct sx, sy; try reflexivity.
  - rewrite (Z.compare_antisym ex ey).
    destruct (ex ?= ey); simpl; try reflexivity.
    rewrite CompOpp_involutive. exact (Pos.compare_cont_antisym my mx Eq).
  - apply finite_compare_antisym.
Qed.

Lemma SFcompare_None_sym (x y : spec_float) :
  SFcompare x y = None -> SFcompare y x = None.
Proof.
  destruct (SFcompare y x) as [c|] eqn:E; [|reflexivity].
  apply SFcompare_antisym in E. congruence.
Qed.

(** [x > y] is [y < x], and [x >= y] is [y <= x]. *)
Lemma float_gt_lt (x y : PyFloat.float) : PyFloat.gt x y = PyFloat.lt y x.
Proof.
  unfold PyFloat.gt, PyFloat.lt.
  destruct (SFcompare x y) as [c|] eqn:E.
  - rewrite (SFcompare_antisym _ _ _ E). now destruct c.
  - now rewrite (SFcompare_None_sym _ _ E).
Qed.

Lemma float_ge_le (x y : PyFloat.float) : PyFloat.ge x y = PyFloat.le y x.
Proof.
  unfold PyFloat.ge, PyFloat.le.
  destruct (SFcompare x y) as [c|] eqn:E.
  - rewrite (SFcompare_antisym _ _ _ E). now destruct c.
  - now rewrite (SFcompare_None_sym _ _ E).
Qed.

Lemma float_le_not_lt (x y : PyFloat.float) :
  PyFloat.le x y = true -> PyFloat.lt y x = false.
Proof.
  rewrite <- float_ge_le. unfold PyFloat.ge, PyFloat.lt.
  now destruct (SFcompare y x) as [[| |]|].
Qed.

Lemma float_le_not_gt (x y : PyFloat.float) :
  PyFloat.le x y = true -> PyFloat.gt x y = false.
Proof.
  unfold PyFloat.le, PyFloat.gt. now destruct (SFcompare x y) as [[| |]|].
Qed.

Lemma float_lt_not_gt (x y : PyFloat.float) :
  PyFloat.lt x y = true -> PyFloat.gt x y = false.
Proof.
  unfold PyFloat.lt, PyFloat.gt. now destruct (SFcompare x y) as [[| |]|].
Qed.

(** [round_half_even n d] is within one half of [n / d]. *)
Lemma round_half_even_nearest (n d : Z) :
  0 < d -> Z.abs (2 * (d * PyFloat.round_half_even n d - n)) <= d.
Proof.
  intros Hd. unfold PyFloat.round_half_even.
  pose proof (Z.div_mod n d ltac:(lia)) as Hdm.
  pose proof (Z.mod_pos_bound n d Hd) as Hr.
  destruct (2 * (n mod d) ?= d) eqn:E.
  - apply Z.compare_eq in E. destruct (Z.even (n / d)); lia.
  - rewrite Z.compare_lt_iff in E. lia.
  - rewrite Z.compare_gt_iff in E. lia.
Qed.

Lemma magnitude_den_pos (m : positive) (e : Z) : 0 < snd (PyFloat.magnitude m e).
Proof.
  unfold PyFloat.magnitude. destruct (0 <=? e) eqn:E; simpl; [lia|].
  apply Z.pow_pos_nonneg; lia.
Qed.

(** The digits that [format_1f] prints are those of the tenth nearest to the
    value of the float. *)
Lemma tenths_nearest (m : positive) (e : Z) :
  let '(n, d) := PyFloat.magnitude m e in
  Z.abs (2 * (d * PyFloat.tenths m e - 10 * n)) <= d.
Proof.
  pose proof (magnitude_den_pos m e) as Hd. unfold PyFloat.tenths.
  destruct (PyFloat.magnitude m e) as [n d]. simpl in Hd.
  now apply round_half_even_nearest.
Qed.

Lemma date_le_not_gt (a b : PyDate.date) :
  PyDate.le a b = true -> PyDate.gt a b = false.
Proof.
  unfold PyDate.le, PyDate.gt. now destruct (PyDate.compare a b).
Qed.

(** *** The order of dates and their ordinals *)

Lemma days_before_year_succ (y : Z) :
  PyDate.days_before_year (y + 1)
  = PyDate.days_before_year y + 365 + (if PyDate.is_leap y then 1 else 0).
Proof.
  unfold PyDate.days_before_year, PyDate.is_leap.
  replace (y + 1 - 1) with y by lia.
  destruct (y mod 4 =? 0) eqn:E4, (y mod 100 =? 0) eqn:E100, (y mod 400 =? 0) eqn:E400;
    cbn [andb orb negb];
    rewrite ?Z.eqb_eq, ?Z.eqb_neq in *;
    Z.to_euclidean_division_equations; lia.
Qed.

Lemma days_before_year_mono (y1 y2 : Z) :
  y1 <= y2 -> PyDate.days_before_year y1 <= PyDate.days_before_year y2.
Proof.
  unfold PyDate.days_before_year. intros Hle.
  Z.to_euclidean_division_equations. lia.
Qed.

Lemma valid_bounds (d : PyDate.date) :
  PyDate.valid d = true ->
  1 <= PyDate.year d <= 9999 /\ 1 <= PyDate.month d <= 12
  /\ 1 <= PyDate.day d <= PyDate.days_in_month (PyDate.year d) (PyDate.month d).
Proof.
  unfold PyDate.valid. rewrite !andb_true_iff, !Z.leb_le. lia.
Qed.

Ltac month_cases m :=
  let H := fresh "Hm" in
  assert (H : m = 1 \/ m = 2 \/ m = 3 \/ m = 4 \/ m = 5 \/ m = 6 \/ m = 7
              \/ m = 8 \/ m = 9 \/ m = 10 \/ m = 11 \/ m = 12) by lia;
  destruct H as [H|[H|[H|[H|[H|[H|[H|[H|[H|[H|[H|H]]]]]]]]]]]; rewrite H in *.

Ltac eval_to_nat :=
  repeat match goal with
         | |- context [Z.to_nat (Z.pos ?k)] =>
             let v := eval vm_compute in (Z.to_nat (Z.pos k)) in
             change (Z.to_nat (Z.pos k)) with v
         | H : context [Z.to_nat (Z.pos ?k)] |- _ =>
             let v := eval vm_compute in (Z.to_nat (Z.pos k)) in
             change (Z.to_nat (Z.pos k)) with v in H
         end.

(** The day of the year of a date that exists lies within its year. *)
Lemma day_of_year_bounds (y m d : Z) :
  1 <= m <= 12 -> 1 <= d <= PyDate.days_in_month y m ->
  1 <= PyDate.days_before_month y m + d
       <= 365 + (if PyDate.is_leap y then 1 else 0).
Proof.
  intros Hm Hd. unfold PyDate.days_in_month, PyDate.days_before_month in *.
  month_cases m; eval_to_nat; cbn in Hd |- *; destruct (PyDate.is_leap y); cbn in Hd |- *; lia.
Qed.

(** Within a year, a later month starts after every day of an earlier one. *)
Lemma day_of_year_month_lt (y m1 d1 m2 d2 : Z) :
  1 <= m1 <= 12 -> 1 <= m2 <= 12 -> m1 < m2 ->
  1 <= d1 <= PyDate.days_in_month y m1 -> 1 <= d2 ->
  PyDate.days_before_month y m1 + d1 < PyDate.days_before_month y m2 + d2.
Proof.
  intros Hm1 Hm2 Hlt Hd1 Hd2.
  unfold PyDate.days_in_month, PyDate.days_before_month in *.
  month_cases m1; month_cases m2; try lia;
    eval_to_nat; cbn in Hd1 |- *; destruct (PyDate.is_leap y); cbn in Hd1 |- *; lia.
Qed.

Lemma toordinal_year_lt (a b : PyDate.date) :
  PyDate.valid a = true -> PyDate.valid b = true ->
  PyDate.year a < PyDate.year b -> PyDate.toordinal a < PyDate.toordinal b.
Proof.
  intros Ha Hb Hlt.
  destruct (valid_bounds a Ha) as (_ & Hma & Hda).
  destruct (valid_bounds b Hb) as (_ & Hmb & Hdb).
  pose proof (day_of_year_bounds _ _ _ Hma Hda) as Hoa.
  pose proof (day_of_year_bounds _ _ _ Hmb Hdb) as Hob.
  pose proof (days_before_year_succ (PyDate.year a)) as Hsucc.
  pose proof (days_before_year_mono (PyDate.year a + 1) (PyDate.year b) ltac:(lia)).
  unfold PyDate.toordinal. lia.
Qed.

(** On the dates that exist, the order of dates is the order of their
    ordinals. *)
Lemma compare_toordinal (a b : PyDate.date) :
  PyDate.valid a = true -> PyDate.valid b = true ->
  PyDate.compare a b = (PyDate.toordinal a ?= PyDate.toordinal b).
Proof.
  intros Ha Hb. symmetry. unfold PyDate.compare.
  destruct (PyDate.year a ?= PyDate.year b) eqn:Hy.
  - apply Z.compare_eq in Hy.
    destruct (valid_bounds a Ha) as (_ & Hma & Hda).
    destruct (valid_bounds b Hb) as (_ & Hmb & Hdb).
    rewrite Hy in Hda. unfold PyDate.toordinal. rewrite Hy.
    destruct (PyDate.month a ?= PyDate.month b) eqn:Hm.
    + apply Z.compare_eq in Hm. rewrite Hm.
      destruct (PyDate.day a ?= PyDate.day b) eqn:Hd.
      * apply Z.compare_eq in Hd. rewrite Hd. apply Z.compare_refl.
      * rewrite Z.compare_lt_iff in *. lia.
      * rewrite Z.compare_gt_iff in *. lia.
    + rewrite Z.compare_lt_iff in *.
      pose proof (day_of_year_month_lt (PyDate.year b) _ _ _ (PyDate.day b)
                    Hma Hmb Hm Hda ltac:(lia)). lia.
    + rewrite Z.compare_gt_iff in *.
      pose proof (day_of_year_month_lt (PyDate.year b) _ _ _ (PyDate.day a)
                    Hmb Hma Hm Hdb ltac:(lia)). lia.
  - rewrite Z.compare_lt_iff in *. now apply toordinal_year_lt.
  - rewrite Z.compare_gt_iff in *. now apply toordinal_year_lt.
Qed.

(** *** Strings *)

Lemma append_assoc (a b c : string) : (a +:+ b) +:+ c = a +:+ b +:+ c.
Proof.
  induction a as [|x a IH]; [reflexivity|].
  change (String x ((a +:+ b) +:+ c) = String x (a +:+ b +:+ c)).
  now rewrite IH.
Qed.

Lemma append_nil_r (a : string) : a +:+ EmptyString = a.
Proof.
  induction a as [|x a IH]; [reflexivity|].
  change (String x (a +:+ EmptyString) = String x a).
  now rewrite IH.
Qed.

Lemma contains_middle (pre needle post : string) :
  contains needle (pre +:+ needle +:+ post).
Proof. now exists pre, post. Qed.

Lemma contains_end (pre needle : string) : contains needle (pre +:+ needle).
Proof. exists pre, EmptyString. now rewrite append_nil_r. Qed.

Lemma contains_app_r (needle a b : string) :
  contains needle b -> contains needle (a +:+ b).
Proof.
  intros (pre & post & ->). exists (a +:+ pre), post. now rewrite append_assoc.
Qed.

Lemma contains_app_l (needle a b : string) :
  contains needle a -> contains needle (a +:+ b).
Proof.
  intros (pre & post & ->). exists pre, (post +:+ b).
  now rewrite !append_assoc.
Qed.

(** ** Validation *)

Section ValidationFacts.
Context {R : Type} `{ReadingLike R}.

(** Each check contributes its message whatever the other one found. *)
Lemma validation_errors_cases (reading : R) (today : PyDate.date) :
  validation_errors reading today
  = (if out_of_range reading then [range_message reading] else [])
    ++ (if in_future reading today then [future_message reading today] else []).
Proof.
  unfold validation_errors.
  now destruct (out_of_range reading), (in_future reading today).
Qed.

Lemma in_range_not_out_of_range (reading : R) :
  PyFloat.le (PyFloat.of_int 30) (glucose_level_of reading) = true ->
  PyFloat.le (glucose_level_of reading) (PyFloat.of_int 600) = true ->
  out_of_range reading = false.
Proof.
  intros Hlo Hhi. unfold out_of_range.
  now rewrite (float_le_not_lt _ _ Hlo), (float_le_not_gt _ _ Hhi).
Qed.

Lemma range_message_contains_value (reading : R) :
  contains (PyFloat.repr (glucose_level_of reading)) (range_message reading).
Proof. apply contains_middle. Qed.

Lemma range_message_contains_bound (reading : R) :
  contains "30-600" (range_message reading).
Proof.
  unfold range_message. do 2 apply contains_app_r.
  now exists " mg/dL is outside typical meter range (", " mg/dL)".
Qed.

Lemma future_message_contains_date (reading : R) (today : PyDate.date) :
  contains (PyDate.isoformat (date_of reading)) (future_message reading today).
Proof. apply contains_middle. Qed.

Lemma future_message_contains_today (reading : R) (today : PyDate.date) :
  contains (PyDate.isoformat today) (future_message reading today).
Proof. unfold future_message. do 2 apply contains_app_r. apply contains_end. Qed.

(** C5: for every candidate reading with 30 <= value <= 600 and a date that
    is not after today, validation succeeds and hands the candidate back
    unchanged: [validate_reading] answers [True] with an empty message and
    [validate_blood_sugar] returns the very reading it was given. *)
Theorem validate_accepts_in_range (ctx : Deps R) (reading : R) :
  PyFloat.le (PyFloat.of_int 30) (glucose_level_of reading) = true ->
  PyFloat.le (glucose_level_of reading) (PyFloat.of_int 600) = true ->
  PyDate.le (date_of reading) (today ctx) = true ->
  validate_reading reading (today ctx) = (true, EmptyString)
  /\ validate_blood_sugar ctx reading = inl reading.
Proof.
  intros Hlo Hhi Hdate.
  unfold validate_reading, validate_blood_sugar.
  rewrite validation_errors_cases.
  rewrite (in_range_not_out_of_range _ Hlo Hhi).
  unfold in_future. rewrite (date_le_not_gt _ _ Hdate).
  now split.
Qed.

End ValidationFacts.

(** A reading of 100 mg/dL taken today passes. *)
Lemma validate_accepts_in_range_witness :
  let today := PyDate.mk_date 2026 11 4 in
  let reading := {| Ws.glucose_level := PyFloat.of_int 100; Ws.date := today;
                    Ws.meal_status := FASTING; Ws.notes := None |} in
  let ctx := {| today := today; previous_readings := [] |} in
  validate_reading reading today = (true, EmptyString)
  /\ validate_blood_sugar ctx reading = inl reading.
Proof.
  intros today reading ctx.
  apply (validate_accepts_in_range ctx reading); reflexivity.
Defined.

(** The bounds are inclusive: 30.0 and 600.0 pass, 29.9 and 600.1 do not. *)
Example validate_reading_at_the_bounds :
  let today := PyDate.mk_date 2026 11 4 in
  let reading glucose_level :=
    {| Ws.glucose_level := glucose_level; Ws.date := today;
       Ws.meal_status := PRANDIAL; Ws.notes := None |} in
  validate_reading (reading (PyFloat.of_int 30)) today = (true, EmptyString)
  /\ validate_reading (reading (PyFloat.of_int 600)) today = (true, EmptyString)
  /\ validate_reading (reading (PyFloat.of_decimal 299 (-1))) today
     = (false,
        "Blood sugar level 29.9 mg/dL is outside typical meter range (30-600 mg/dL)")
  /\ validate_reading (reading (PyFloat.of_decimal 6001 (-1))) today
     = (false,
        "Blood sugar level 600.1 mg/dL is outside typical meter range (30-600 mg/dL)").
Proof. vm_compute. repeat split; reflexivity. Qed.

(** The same holds of the constructor of main_complex.py. *)
Lemma complex_init_in_range (uuid4 : string) (id : option string)
    (glucose_level : PyFloat.float) (date : PyDate.date) (meal_status : MealStatus)
    (notes : option string) (reading : Complex.BloodSugarReading) :
  Complex.BloodSugarReading_init uuid4 id glucose_level date meal_status notes
  = Some reading ->
  out_of_range reading = false.
Proof.
  unfold Complex.BloodSugarReading_init.
  destruct (PyFloat.ge glucose_level (PyFloat.of_int 30)) eqn:Hge; [|discriminate].
  destruct (PyFloat.le glucose_level (PyFloat.of_int 600)) eqn:Hle; [|discriminate].
  intros [= <-]. rewrite float_ge_le in Hge.
  now apply in_range_not_out_of_range.
Qed.

(** And of the constructor of main.py. *)
Lemma ws_init_in_range (glucose_level : PyFloat.float) (date : PyDate.date)
    (meal_status : MealStatus) (notes : option string)
    (reading : Ws.BloodSugarReading) :
  Ws.BloodSugarReading_init glucose_level date meal_status notes = Some reading ->
  PyFloat.le (PyFloat.of_int 30) (Ws.glucose_level reading) = true
  /\ PyFloat.le (Ws.glucose_level reading) (PyFloat.of_int 600) = true.
Proof.
  unfold Ws.BloodSugarReading_init.
  destruct (PyFloat.ge glucose_level (PyFloat.of_int 30)) eqn:Hge; [|discriminate].
  destruct (PyFloat.le glucose_level (PyFloat.of_int 600)) eqn:Hle; [|discriminate].
  intros [= <-]. rewrite float_ge_le in Hge. now split.
Qed.

(** So the handler of a chat message, which is handed constructed readings
    only, has at most the date to report, and then sends the one message
    after its introduction. *)
Lemma ws_on_message_rejects_date (glucose_level : PyFloat.float) (date : PyDate.date)
    (meal_status : MealStatus) (notes : option string)
    (reading : Ws.BloodSugarReading) (today : PyDate.date) :
  Ws.BloodSugarReading_init glucose_level date meal_status notes = Some reading ->
  validation_errors reading today <> [] ->
  validation_errors reading today = [future_message reading today]
  /\ forall manager websocket conversation,
       Ws.on_message manager websocket today (Returned (inl reading)) conversation
       = Ws.send manager
           [Ws.message_frame ("I couldn't validate your reading: "
                              +:+ future_message reading today)].
Proof.
  intros Hinit Hfails.
  destruct (ws_init_in_range _ _ _ _ _ Hinit) as [Hlo Hhi].
  assert (Herrors : validation_errors reading today = [future_message reading today]).
  { assert (Hin : out_of_range reading = false)
      by now apply in_range_not_out_of_range.
    rewrite validation_errors_cases in Hfails |- *.
    rewrite Hin in Hfails |- *.
    destruct (in_future reading today); [reflexivity | now elim Hfails]. }
  split; [exact Herrors|].
  intros manager websocket conversation. unfold Ws.on_message.
  now rewrite Herrors.
Qed.

(** C8: main.py's model checks [ge=30, le=600] when a reading is constructed,
    so every constructed reading has 30 <= glucose_level <= 600; the
    validator's out-of-range branch is therefore never taken for it, and the
    only failure the handler of a chat message can report for an extracted
    reading is the date that lies in the future. *)
Theorem constructed_reading_fails_only_on_date
    (glucose_level : PyFloat.float) (date : PyDate.date) (meal_status : MealStatus)
    (notes : option string) (reading : Ws.BloodSugarReading) (today : PyDate.date) :
  Ws.BloodSugarReading_init glucose_level date meal_status notes = Some reading ->
  PyFloat.le (PyFloat.of_int 30) (Ws.glucose_level reading) = true
  /\ PyFloat.le (Ws.glucose_level reading) (PyFloat.of_int 600) = true
  /\ out_of_range reading = false
  /\ validation_errors reading today
     = (if PyDate.gt (Ws.date reading) today
        then [future_message reading today] else [])
  /\ validate_reading reading today
     = (if PyDate.gt (Ws.date reading) today
        then (false, future_message reading today) else (true, EmptyString))
  /\ forall manager websocket conversation,
       Ws.on_message manager websocket today (Returned (inl reading)) conversation
       = Ws.send manager
           (if PyDate.gt (Ws.date reading) today
            then [Ws.message_frame ("I couldn't validate your reading: "
                                    +:+ future_message reading today)]
            else [Ws.reading_extracted (Ws.reading_dict reading)]).
Proof.
  unfold Ws.BloodSugarReading_init.
  destruct (PyFloat.ge glucose_level (PyFloat.of_int 30)) eqn:Hge; [|discriminate].
  destruct (PyFloat.le glucose_level (PyFloat.of_int 600)) eqn:Hle; [|discriminate].
  intros [= <-]. cbn [Ws.glucose_level Ws.date].
  rewrite float_ge_le in Hge.
  assert (Hin : out_of_range
                  {| Ws.glucose_level := glucose_level; Ws.date := date;
                     Ws.meal_status := meal_status; Ws.notes := notes |} = false)
    by now apply in_range_not_out_of_range.
  assert (Herr : forall r : Ws.BloodSugarReading,
             out_of_range r = false ->
             validation_errors r today
             = if PyDate.gt (Ws.date r) today then [future_message r today] else []).
  { intros r Hr. rewrite validation_errors_cases, Hr. unfold in_future. cbn.
    now destruct (PyDate.gt (Ws.date r) today). }
  repeat split; try assumption.
  - now apply Herr.
  - unfold validate_reading. rewrite (Herr _ Hin). cbn [Ws.date].
    now destruct (PyDate.gt date today).
  - intros manager websocket conversation. unfold Ws.on_message.
    rewrite (Herr _ Hin). cbn [Ws.date].
    now destruct (PyDate.gt date today).
Qed.

(** A reading of 100 mg/dL dated tomorrow is constructed without error and is
    turned down for its date alone. *)
Lemma constructed_reading_fails_only_on_date_witness :
  let today := PyDate.mk_date 2026 11 4 in
  let tomorrow := PyDate.mk_date 2026 11 5 in
  let reading := {| Ws.glucose_level := PyFloat.of_int 100; Ws.date := tomorrow;
                    Ws.meal_status := FASTING; Ws.notes := None |} in
  Ws.BloodSugarReading_init (PyFloat.of_int 100) tomorrow FASTING None = Some reading
  /\ validate_reading reading today
     = (false, "Date cannot be in the future: 2026-11-05 > 2026-11-04").
Proof.
  intros today tomorrow reading.
  split; [reflexivity|].
  exact (proj1 (proj2 (proj2 (proj2 (proj2
    (constructed_reading_fails_only_on_date
       (PyFloat.of_int 100) tomorrow FASTING None reading today eq_refl)))))).
Defined.

(** ** Trend analysis *)

Section TrendFacts.
Context {R : Type} `{ReadingLike R}.

Lemma analyze_trend_similar (ctx : Deps R) (new_reading : R) :
  similar_to new_reading (previous_readings ctx) <> [] ->
  analyze_trend ctx new_reading
  = compare_with_average new_reading
      (average (similar_to new_reading (previous_readings ctx))).
Proof.
  intros Hne. unfold analyze_trend.
  destruct (previous_readings ctx) as [|r0 rs] eqn:Hprev.
  - now elim Hne.
  - now destruct (similar_to new_reading (r0 :: rs)).
Qed.

Lemma analyze_trend_no_similar (ctx : Deps R) (new_reading : R) :
  similar_to new_reading (previous_readings ctx) = [] ->
  analyze_trend ctx new_reading
  = match previous_readings ctx with
    | [] => first_reading_message
    | _ => first_of_status_message new_reading
    end.
Proof.
  intros He. unfold analyze_trend.
  destruct (previous_readings ctx) as [|r0 rs]; [reflexivity|].
  now rewrite He.
Qed.

(** C6: for every candidate and every history whose readings of the same
    meal status are not empty, let [avg] be their mean: the sum of their
    levels, added up from the left, divided by their number.  When
    |value - avg| < 10 the answer is the "consistent with your average"
    message; otherwise, when value > avg it is "higher than your average" by
    value - avg, and when value < avg it is "lower than your average" by
    avg - value.  Differences and averages are printed with [format_1f], whose
    digits are those of the nearest tenth. *)
Theorem analyze_trend_dead_zone (ctx : Deps R) (new_reading : R) :
  List.filter (fun r => MealStatus_eqb (meal_status_of r) (meal_status_of new_reading))
              (previous_readings ctx) <> [] ->
  let same_status :=
    List.filter (fun r => MealStatus_eqb (meal_status_of r) (meal_status_of new_reading))
                (previous_readings ctx) in
  let total := fold_left PyFloat.add (map glucose_level_of same_status)
                         (PyFloat.of_int 0) in
  let avg := PyFloat.div total (PyFloat.of_int (Z.of_nat (length same_status))) in
  let value := glucose_level_of new_reading in
  let status := MealStatus_value (meal_status_of new_reading) in
  let inside := PyFloat.lt (PyFloat.abs (PyFloat.sub value avg)) (PyFloat.of_int 10) in
  (inside = true ->
   analyze_trend ctx new_reading
   = "This reading is consistent with your average " +:+ status
     +:+ " level of " +:+ PyFloat.format_1f avg +:+ " mg/dL.")
  /\ (inside = false -> PyFloat.gt value avg = true ->
      analyze_trend ctx new_reading
      = "This reading is " +:+ PyFloat.format_1f (PyFloat.sub value avg)
        +:+ " mg/dL higher than your average " +:+ status
        +:+ " level of " +:+ PyFloat.format_1f avg +:+ " mg/dL.")
  /\ (inside = false -> PyFloat.lt value avg = true ->
      analyze_trend ctx new_reading
      = "This reading is " +:+ PyFloat.format_1f (PyFloat.sub avg value)
        +:+ " mg/dL lower than your average " +:+ status
        +:+ " level of " +:+ PyFloat.format_1f avg +:+ " mg/dL.")
  /\ (forall s m e,
        PyFloat.format_1f (S754_finite s m e)
        = PyFloat.sign_str s +:+ PyFloat.string_of_nat_Z (PyFloat.tenths m e / 10)
          +:+ "." +:+ PyFloat.string_of_nat_Z (PyFloat.tenths m e mod 10)
        /\ Z.abs (2 * (snd (PyFloat.magnitude m e) * PyFloat.tenths m e
                       - 10 * fst (PyFloat.magnitude m e)))
           <= snd (PyFloat.magnitude m e)).
Proof.
  intros Hne same_status total avg value status inside.
  rewrite (analyze_trend_similar ctx new_reading Hne).
  change (average (similar_to new_reading (previous_readings ctx))) with avg.
  unfold compare_with_average. fold value. fold inside.
  repeat split.
  - now intros ->.
  - intros -> ->. reflexivity.
  - intros -> Hlt. now rewrite (float_lt_not_gt _ _ Hlt).
  - pose proof (tenths_nearest m e) as Hn.
    now destruct (PyFloat.magnitude m e).
Qed.

End TrendFacts.

(** The boundary of the dead zone.  Against the fasting readings 90 and 110,
    whose mean is 100, a reading of 109 is consistent with the average, one
    of 110 is higher by 10.0 and one of 90 lower by 10.0.  Against the fasting
    readings 100, 100 and 101, whose mean is 100.33..., a reading of 110 is
    consistent with an average of 100.3, one of 111 is 10.7 higher and one of
    90 is 10.3 lower.  The prandial reading of 150 counts in neither. *)
Lemma analyze_trend_dead_zone_witness :
  let day := PyDate.mk_date 2026 11 4 in
  let fasting glucose :=
    {| Ws.glucose_level := PyFloat.of_int glucose; Ws.date := day;
       Ws.meal_status := FASTING; Ws.notes := None |} in
  let prandial glucose :=
    {| Ws.glucose_level := PyFloat.of_int glucose; Ws.date := day;
       Ws.meal_status := PRANDIAL; Ws.notes := None |} in
  let ctx := {| today := day;
                previous_readings := [fasting 90; prandial 150; fasting 110] |} in
  let ctx' := {| today := day;
                 previous_readings := [fasting 100; prandial 150; fasting 100;
                                       fasting 101] |} in
  (analyze_trend ctx (fasting 109)
   = "This reading is consistent with your average fasting level of 100.0 mg/dL."
   /\ analyze_trend ctx (fasting 110)
      = "This reading is 10.0 mg/dL higher than your average fasting level of 100.0 mg/dL."
   /\ analyze_trend ctx (fasting 90)
      = "This reading is 10.0 mg/dL lower than your average fasting level of 100.0 mg/dL.")
  /\ (analyze_trend ctx' (fasting 110)
      = "This reading is consistent with your average fasting level of 100.3 mg/dL."
      /\ analyze_trend ctx' (fasting 111)
         = "This reading is 10.7 mg/dL higher than your average fasting level of 100.3 mg/dL."
      /\ analyze_trend ctx' (fasting 90)
         = "This reading is 10.3 mg/dL lower than your average fasting level of 100.3 mg/dL.").
Proof.
  intros day fasting prandial ctx ctx'.
  assert (Hne : forall g,
             List.filter (fun r => MealStatus_eqb (meal_status_of r)
                                                  (meal_status_of (fasting g)))
                         (previous_readings ctx) <> [])
    by (intros g; discriminate).
  assert (Hne' : forall g,
             List.filter (fun r => MealStatus_eqb (meal_status_of r)
                                                  (meal_status_of (fasting g)))
                         (previous_readings ctx') <> [])
    by (intros g; discriminate).
  split; (split; [|split]).
  - exact (proj1 (analyze_trend_dead_zone ctx (fasting 109) (Hne 109)) eq_refl).
  - exact (proj1 (proj2 (analyze_trend_dead_zone ctx (fasting 110) (Hne 110)))
             eq_refl eq_refl).
  - exact (proj1 (proj2 (proj2 (analyze_trend_dead_zone ctx (fasting 90) (Hne 90))))
             eq_refl eq_refl).
  - exact (proj1 (analyze_trend_dead_zone ctx' (fasting 110) (Hne' 110)) eq_refl).
  - exact (proj1 (proj2 (analyze_trend_dead_zone ctx' (fasting 111) (Hne' 111)))
             eq_refl eq_refl).
  - exact (proj1 (proj2 (proj2 (analyze_trend_dead_zone ctx' (fasting 90) (Hne' 90))))
             eq_refl eq_refl).
Defined.

(** ** Confirmation: what is committed, and the trend reported with it *)

(** The analysis written out in main.py's handler is [analyze_trend] run on
    the readings as they were before the one just added. *)
Lemma ws_trend_after_add (readings : list Ws.BloodSugarReading)
    (reading : Ws.BloodSugarReading) (today : PyDate.date) :
  Ws.trend_after_add (readings ++ [reading]) reading
  = analyze_trend {| today := today; previous_readings := readings |} reading.
Proof.
  unfold Ws.trend_after_add, analyze_trend. cbn [previous_readings].
  rewrite removelast_last.
  destruct readings as [|r0 rs]; [reflexivity|].
  cbn [app length]. rewrite length_app. cbn [length].
  now rewrite Nat.add_1_r.
Qed.

(** main.py, confirm_reading: a well-formed frame is committed as it came,
    whatever the server sent or holds, and the trend is taken against the
    readings that were there before. *)
Lemma ws_confirm_reading_commits (manager : Ws.ConnectionManager)
    (reading_data : Ws.ReadingData) (notes : string) (date : PyDate.date)
    (meal_status : MealStatus) (reading : Ws.BloodSugarReading) (today : PyDate.date) :
  Ws.date_field reading_data = Some date ->
  MealStatus_of_value (Ws.meal_status_field reading_data) = Some meal_status ->
  Ws.BloodSugarReading_init (Ws.glucose_level_field reading_data) date meal_status
    (if String.eqb notes EmptyString then None else Some notes) = Some reading ->
  Ws.on_confirm_reading manager reading_data notes
  = Ws.send
      (Ws.with_db manager
         {| Ws.readings := Ws.readings (Ws.db manager) ++ [reading] |})
      [Ws.message_frame
         (Ws.saved_message
            (analyze_trend
               {| today := today;
                  previous_readings := Ws.readings (Ws.db manager) |}
               reading))].
Proof.
  intros Hdate Hstatus Hinit. unfold Ws.on_confirm_reading.
  rewrite Hdate, Hstatus, Hinit. cbn [Ws.add_reading Ws.get_readings Ws.readings].
  now rewrite (ws_trend_after_add _ _ today).
Qed.

Lemma complex_get_readings_add (db : Complex.Database) (user_id : string)
    (reading : Complex.BloodSugarReading) :
  Complex.get_readings (fst (Complex.add_reading db user_id reading)) user_id
  = Complex.get_readings db user_id ++ [reading].
Proof.
  unfold Complex.get_readings at 1. cbn [Complex.add_reading fst Complex.readings].
  now rewrite lookup_insert_eq.
Qed.

(** main_complex.py, confirm_reading with confirm=true: the pending reading is
    appended to the history and the slot is cleared; the request then ends in
    the TypeError of the [RunContext] call, before [analyze_trend] is
    entered. *)
Lemma complex_confirm_reading_commits (db : Complex.Database) (today : PyDate.date)
    (request : Complex.ConfirmReadingRequest) (reading : Complex.BloodSugarReading) :
  Complex.get_pending_reading db (Complex.confirm_session_id request) = Some reading ->
  Complex.confirm request = true ->
  let user_id := Complex.confirm_session_id request in
  Complex.confirm_reading db today request
  = (Complex.clear_pending_reading (fst (Complex.add_reading db user_id reading)) user_id,
     Unhandled "TypeError").
Proof.
  intros Hpending Hconfirm user_id. unfold Complex.confirm_reading.
  rewrite Hpending, Hconfirm. reflexivity.
Qed.

Lemma complex_clear_pending_readings (db : Complex.Database) (session_id user_id : string) :
  Complex.get_readings (Complex.clear_pending_reading db session_id) user_id
  = Complex.get_readings db user_id.
Proof. reflexivity. Qed.

(** C1 (the code of main_complex.py departs from it).  In main_complex.py
    every confirmation (confirm=true) of a pending reading saves the reading
    and clears the slot, and then fails: the answer is the unhandled TypeError
    of the [RunContext] call, so neither the acknowledgement nor any trend is
    returned, against whatever history.  main.py does what the claim says:
    for every frame it accepts, the trend it sends is [analyze_trend] on the
    readings as they were before the commit. *)
Theorem complex_confirm_commits_then_raises :
  (forall db today request reading,
      Complex.get_pending_reading db (Complex.confirm_session_id request)
      = Some reading ->
      Complex.confirm request = true ->
      let user_id := Complex.confirm_session_id request in
      let after := Complex.confirm_reading db today request in
      snd after = Unhandled "TypeError"
      /\ (forall trend,
            snd after <> Ok ("Great! I've saved your reading. " +:+ trend))
      /\ Complex.get_readings (fst after) user_id
         = Complex.get_readings db user_id ++ [reading]
      /\ Complex.get_pending_reading (fst after) user_id = None)
  /\ (forall manager reading_data notes date meal_status reading today,
        Ws.date_field reading_data = Some date ->
        MealStatus_of_value (Ws.meal_status_field reading_data) = Some meal_status ->
        Ws.BloodSugarReading_init (Ws.glucose_level_field reading_data) date
          meal_status (if String.eqb notes EmptyString then None else Some notes)
        = Some reading ->
        let turn := Ws.on_confirm_reading manager reading_data notes in
        Ws.readings (Ws.db (Ws.manager_after turn))
        = Ws.readings (Ws.db manager) ++ [reading]
        /\ Ws.sent turn
           = [Ws.message_frame
                (Ws.saved_message
                   (analyze_trend
                      {| today := today;
                         previous_readings := Ws.readings (Ws.db manager) |}
                      reading))]).
Proof.
  split.
  - intros db today request reading Hpending Hconfirm user_id after. subst after.
    rewrite (complex_confirm_reading_commits db today request reading Hpending Hconfirm).
    cbn [fst snd]. split; [reflexivity|]. split; [discriminate|]. split.
    + rewrite complex_clear_pending_readings.
      apply (complex_get_readings_add db _ reading).
    + apply lookup_delete_eq.
  - intros manager reading_data notes date meal_status reading today
           Hdate Hstatus Hinit turn. subst turn.
    rewrite (ws_confirm_reading_commits manager reading_data notes date meal_status
               reading today Hdate Hstatus Hinit).
    now split.
Qed.

(** The first reading a session confirms, 100 mg/dL fasting: main_complex.py
    saves it and answers with the error; main.py, sent the same reading,
    saves it and answers that it is the first recorded reading. *)
Lemma complex_confirm_commits_then_raises_witness :
  let today := PyDate.mk_date 2026 11 4 in
  let reading :=
    {| Complex.id := "r-1"; Complex.glucose_level := PyFloat.of_int 100;
       Complex.date := today; Complex.meal_status := FASTING;
       Complex.notes := None |} in
  let db := Complex.set_pending_reading Complex.empty_db "alice" reading in
  let request :=
    {| Complex.confirm_session_id := "alice"; Complex.reading_id := "r-1";
       Complex.confirm := true |} in
  let manager :=
    {| Ws.active_connections := [0%nat]; Ws.message_histories := ∅;
       Ws.db := {| Ws.readings := [] |} |} in
  let reading_data :=
    {| Ws.glucose_level_field := PyFloat.of_int 100; Ws.date_field := Some today;
       Ws.meal_status_field := "fasting" |} in
  (snd (Complex.confirm_reading db today request) = Unhandled "TypeError"
   /\ Complex.get_readings (fst (Complex.confirm_reading db today request)) "alice"
      = [reading])
  /\ Ws.sent (Ws.on_confirm_reading manager reading_data EmptyString)
     = [Ws.message_frame (Ws.saved_message "This is your first recorded reading.")].
Proof.
  intros today reading db request manager reading_data.
  destruct complex_confirm_commits_then_raises as [Hcomplex Hws].
  split.
  - destruct (Hcomplex db today request reading eq_refl eq_refl)
      as (Hanswer & _ & Hreadings & _).
    split; [exact Hanswer | exact Hreadings].
  - exact (proj2 (Hws manager reading_data EmptyString today FASTING
                    {| Ws.glucose_level := PyFloat.of_int 100; Ws.date := today;
                       Ws.meal_status := FASTING; Ws.notes := None |}
                    today eq_refl eq_refl eq_refl)).
Defined.

(** C7 (as amended): in main_complex.py, which keeps the pending reading on
    the server, every confirmation request for a session that has no pending
    reading is answered with HTTP 404 "No pending reading found", and the
    database, the confirmed history with it, is left as it was. *)
Theorem complex_confirm_without_pending (db : Complex.Database) (today : PyDate.date)
    (request : Complex.ConfirmReadingRequest) :
  Complex.get_pending_reading db (Complex.confirm_session_id request) = None ->
  Complex.confirm_reading db today request
  = (db, HTTPException 404 "No pending reading found").
Proof.
  intros Hnone. unfold Complex.confirm_reading. now rewrite Hnone.
Qed.

(** A confirmation sent to a server that has seen no chat message yet. *)
Lemma complex_confirm_without_pending_witness :
  let request :=
    {| Complex.confirm_session_id := "alice"; Complex.reading_id := "r-1";
       Complex.confirm := true |} in
  Complex.get_pending_reading Complex.empty_db "alice" = None
  /\ Complex.confirm_reading Complex.empty_db (PyDate.mk_date 2026 11 4) request
     = (Complex.empty_db, HTTPException 404 "No pending reading found").
Proof.
  intros request. split; [reflexivity|].
  apply (complex_confirm_without_pending Complex.empty_db _ request). reflexivity.
Defined.

(** C7 as stated fails on main.py: on a connection that has extracted nothing,
    a confirm_reading frame is committed and acknowledged; no error is
    reported and the history grows. *)
Lemma ws_confirm_without_extraction_commits :
  let today := PyDate.mk_date 2026 11 4 in
  let manager :=
    {| Ws.active_connections := [0%nat]; Ws.message_histories := ∅;
       Ws.db := {| Ws.readings := [] |} |} in
  let reading_data :=
    {| Ws.glucose_level_field := PyFloat.of_int 100; Ws.date_field := Some today;
       Ws.meal_status_field := "fasting" |} in
  let turn := Ws.websocket_turn manager 0%nat today
                (Ws.confirm_reading reading_data EmptyString)
                (Raised "not run") (Raised "not run") in
  Ws.raised turn = None
  /\ Ws.readings (Ws.db (Ws.manager_after turn))
     = [{| Ws.glucose_level := PyFloat.of_int 100; Ws.date := today;
           Ws.meal_status := FASTING; Ws.notes := None |}]
  /\ ~ (Ws.raised turn <> None
        /\ Ws.readings (Ws.db (Ws.manager_after turn)) = Ws.readings (Ws.db manager)).
Proof.
  vm_compute. repeat split; try reflexivity.
  intros [Herr _]. now apply Herr.
Qed.

(** C9: main.py rebuilds the reading to commit from the confirm_reading frame
    alone and never compares its date with today: every frame that parses and
    passes the model's range check is appended to the history and
    acknowledged, whatever the server extracted before and whatever today is.
    Hence a reading dated after today can be committed without any error. *)
Theorem ws_confirm_reading_trusts_client_payload :
  (forall manager websocket today reading_data notes date meal_status reading
          extraction conversation,
      Ws.date_field reading_data = Some date ->
      MealStatus_of_value (Ws.meal_status_field reading_data) = Some meal_status ->
      Ws.BloodSugarReading_init (Ws.glucose_level_field reading_data) date meal_status
        (if String.eqb notes EmptyString then None else Some notes) = Some reading ->
      let turn := Ws.websocket_turn manager websocket today
                    (Ws.confirm_reading reading_data notes) extraction conversation in
      Ws.raised turn = None
      /\ Ws.date reading = date
      /\ Ws.glucose_level reading = Ws.glucose_level_field reading_data
      /\ Ws.readings (Ws.db (Ws.manager_after turn))
         = Ws.readings (Ws.db manager) ++ [reading]
      /\ Ws.sent turn
         = [Ws.message_frame
              (Ws.saved_message
                 (analyze_trend
                    {| today := today;
                       previous_readings := Ws.readings (Ws.db manager) |}
                    reading))])
  /\ (exists manager websocket today reading_data notes reading extraction conversation,
         let turn := Ws.websocket_turn manager websocket today
                       (Ws.confirm_reading reading_data notes) extraction conversation in
         Ws.date_field reading_data = Some (Ws.date reading)
         /\ PyDate.gt (Ws.date reading) today = true
         /\ Ws.raised turn = None
         /\ Ws.readings (Ws.db (Ws.manager_after turn))
            = Ws.readings (Ws.db manager) ++ [reading]).
Proof.
  split.
  - intros manager websocket today reading_data notes date meal_status reading
           extraction conversation Hdate Hstatus Hinit turn.
    subst turn. cbn [Ws.websocket_turn].
    rewrite (ws_confirm_reading_commits manager reading_data notes date meal_status
               reading today Hdate Hstatus Hinit).
    unfold Ws.BloodSugarReading_init in Hinit.
    destruct (_ && _) in Hinit; [|discriminate].
    injection Hinit as <-. now repeat split.
  - exists {| Ws.active_connections := [0%nat]; Ws.message_histories := ∅;
              Ws.db := {| Ws.readings := [] |} |}, 0%nat, (PyDate.mk_date 2026 11 4),
           {| Ws.glucose_level_field := PyFloat.of_int 100;
              Ws.date_field := Some (PyDate.mk_date 2027 1 1);
              Ws.meal_status_field := "fasting" |}, EmptyString,
           {| Ws.glucose_level := PyFloat.of_int 100;
              Ws.date := PyDate.mk_date 2027 1 1;
              Ws.meal_status := FASTING; Ws.notes := None |},
           (Raised "not run"), (Raised "not run").
    vm_compute. now repeat split.
Qed.

(** A frame dated 2027-01-01, confirmed on 2026-11-04 after two earlier
    readings: it is appended and acknowledged. *)
Lemma ws_confirm_reading_trusts_client_payload_witness :
  let today := PyDate.mk_date 2026 11 4 in
  let reading glucose date :=
    {| Ws.glucose_level := PyFloat.of_int glucose; Ws.date := date;
       Ws.meal_status := FASTING; Ws.notes := Some "after a run" |} in
  let history := [reading 90 (PyDate.mk_date 2026 11 2);
                  reading 110 (PyDate.mk_date 2026 11 3)] in
  let manager :=
    {| Ws.active_connections := [0%nat]; Ws.message_histories := ∅;
       Ws.db := {| Ws.readings := history |} |} in
  let reading_data :=
    {| Ws.glucose_level_field := PyFloat.of_int 120;
       Ws.date_field := Some (PyDate.mk_date 2027 1 1);
       Ws.meal_status_field := "fasting" |} in
  let turn := Ws.websocket_turn manager 0%nat today
                (Ws.confirm_reading reading_data "after a run")
                (Raised "not run") (Raised "not run") in
  PyDate.gt (PyDate.mk_date 2027 1 1) today = true
  /\ Ws.raised turn = None
  /\ Ws.readings (Ws.db (Ws.manager_after turn))
     = history ++ [reading 120 (PyDate.mk_date 2027 1 1)].
Proof.
  intros today reading history manager reading_data turn.
  split; [reflexivity|].
  pose proof (proj1 ws_confirm_reading_trusts_client_payload
                manager 0%nat today reading_data "after a run"
                (PyDate.mk_date 2027 1 1) FASTING
                (reading 120 (PyDate.mk_date 2027 1 1))
                (Raised "not run") (Raised "not run")
                eq_refl eq_refl eq_refl) as (Hraised & _ & _ & Hreadings & _).
  split; [exact Hraised | exact Hreadings].
Defined.

(** ** The pending reading of main_complex.py *)

Lemma complex_set_pending_overwrites (db : Complex.Database) (session_id : string)
    (reading : Complex.BloodSugarReading) :
  Complex.get_pending_reading (Complex.set_pending_reading db session_id reading)
    session_id
  = Some reading.
Proof. apply lookup_insert_eq. Qed.

Lemma complex_set_pending_other (db : Complex.Database) (session_id other : string)
    (reading : Complex.BloodSugarReading) :
  session_id <> other ->
  Complex.get_pending_reading (Complex.set_pending_reading db session_id reading) other
  = Complex.get_pending_reading db other.
Proof. intros Hne. now apply lookup_insert_ne. Qed.

(** C3 (as amended): while a session of main_complex.py has a pending reading,
    a further chat message is answered by the conversation agent alone.  The
    extraction agent is not run, so whatever it would have extracted changes
    nothing; the pending reading and the confirmed history stay as they
    were, and the answer asks for no confirmation.  [set_pending_reading]
    itself overwrites the one slot a session has, so candidates never stack;
    it is reached only when nothing is pending. *)
Theorem complex_chat_keeps_pending_reading (db : Complex.Database)
    (request : Complex.ChatRequest) (conversation : AgentRun ConversationResult)
    (extraction : AgentRun (Complex.BloodSugarReading + InvalidReading))
    (pending : Complex.BloodSugarReading) :
  Complex.get_pending_reading db (Complex.session_id request) = Some pending ->
  Complex.chat db request conversation extraction
  = Complex.chat db request conversation (Raised "not run")
  /\ Complex.get_pending_reading
       (fst (Complex.chat db request conversation extraction))
       (Complex.session_id request)
     = Some pending
  /\ Complex.readings (fst (Complex.chat db request conversation extraction))
     = Complex.readings db
  /\ (forall body,
        snd (Complex.chat db request conversation extraction) = Ok body ->
        Complex.needs_confirmation body = false
        /\ Complex.extracted_reading body = None)
  /\ (forall reading,
        Complex.get_pending_reading
          (Complex.set_pending_reading db (Complex.session_id request) reading)
          (Complex.session_id request)
        = Some reading).
Proof.
  intros Hpending. unfold Complex.chat.
  assert (Hset : forall reading,
             Complex.get_pending_reading
               (Complex.set_pending_reading db (Complex.session_id request) reading)
               (Complex.session_id request) = Some reading)
    by (intros reading; apply complex_set_pending_overwrites).
  destruct (Complex.is_exit_command (Complex.message request)).
  { split; [reflexivity|]. split; [exact Hpending|]. split; [reflexivity|].
    split; [|exact Hset]. intros body [= <-]. now split. }
  destruct conversation as [result|exc].
  2:{ split; [reflexivity|]. split; [exact Hpending|]. split; [reflexivity|].
      split; [|exact Hset]. intros body [=]. }
  assert (Hsame : Complex.get_pending_reading
                    (Complex.set_message_history db (Complex.session_id request)
                       (all_messages result))
                    (Complex.session_id request) = Some pending) by exact Hpending.
  rewrite Hsame.
  split; [reflexivity|]. split; [exact Hpending|]. split; [reflexivity|].
  split; [|exact Hset]. intros body [= <-]. now split.
Qed.

(** A second message that carries a new value, sent while 100 mg/dL is
    waiting to be confirmed. *)
Lemma complex_chat_keeps_pending_reading_witness :
  let day := PyDate.mk_date 2026 11 4 in
  let reading id glucose :=
    {| Complex.id := id; Complex.glucose_level := PyFloat.of_int glucose;
       Complex.date := day; Complex.meal_status := FASTING;
       Complex.notes := None |} in
  let db := Complex.set_pending_reading Complex.empty_db "alice" (reading "r-1" 100) in
  let request := {| Complex.message := "sorry, it was 140"; Complex.session_id := "alice" |} in
  let conversation := Returned {| data := "Thanks for the update."; all_messages := ["m1"] |} in
  Complex.get_pending_reading
    (fst (Complex.chat db request conversation (Returned (inl (reading "r-2" 140)))))
    "alice"
  = Some (reading "r-1" 100).
Proof.
  intros day reading db request conversation.
  exact (proj1 (proj2 (complex_chat_keeps_pending_reading db request conversation
                         (Returned (inl (reading "r-2" 140))) (reading "r-1" 100)
                         eq_refl))).
Defined.

(** C3 as stated fails: the reading extracted from the second message does
    not replace the pending one; the answer is the conversational reply. *)
Lemma complex_chat_does_not_overwrite_pending :
  let day := PyDate.mk_date 2026 11 4 in
  let reading id glucose :=
    {| Complex.id := id; Complex.glucose_level := PyFloat.of_int glucose;
       Complex.date := day; Complex.meal_status := FASTING;
       Complex.notes := None |} in
  let db := Complex.set_pending_reading Complex.empty_db "alice" (reading "r-1" 100) in
  let request := {| Complex.message := "sorry, it was 140"; Complex.session_id := "alice" |} in
  let conversation := Returned {| data := "Thanks for the update."; all_messages := ["m1"] |} in
  let after := Complex.chat db request conversation (Returned (inl (reading "r-2" 140))) in
  Complex.get_pending_reading (fst after) "alice" = Some (reading "r-1" 100)
  /\ snd after = Ok (Complex.plain_response "Thanks for the update.")
  /\ ~ (Complex.get_pending_reading (fst after) "alice" = Some (reading "r-2" 140)).
Proof.
  vm_compute. repeat split; try reflexivity. discriminate.
Qed.

(** ** Identifiers of readings *)

Lemma sqlite_insert_reading_rows (db db' : Sqlite.Database) (row : Sqlite.Row) :
  Sqlite.insert_reading db row = Some db' ->
  exists level,
    Sqlite.real_column (Sqlite.row_glucose_level row) = Some level
    /\ Sqlite.users db' = Sqlite.users db
    /\ Sqlite.readings db' = Sqlite.readings db ++ [Sqlite.set_glucose_level row level].
Proof.
  unfold Sqlite.insert_reading.
  destruct (Sqlite.real_column (Sqlite.row_glucose_level row)) as [level|];
    [|discriminate].
  destruct (match Sqlite.row_id row with
            | Some i => existsb (Sqlite.has_id i) (Sqlite.readings db)
            | None => false
            end); [discriminate|].
  intros [= <-]. now exists level.
Qed.

Lemma sqlite_insert_user_rows (db : Sqlite.Database) (session_id : string) :
  Sqlite.readings (Sqlite.insert_user_or_ignore db session_id) = Sqlite.readings db.
Proof.
  unfold Sqlite.insert_user_or_ignore.
  now destruct (existsb (String.eqb session_id) (Sqlite.users db)).
Qed.

(** What [chat] does to the table: nothing, or one more row, which is the
    pending row of the reading just extracted under the id just generated,
    with the level as the column keeps it. *)
Lemma sqlite_chat_rows (format_MealStatus : MealStatus -> string)
    (db : Sqlite.Database) (today : PyDate.date) (uuid4 : string)
    (request : Sqlite.ChatRequest) (conversation : AgentRun ConversationResult)
    (extraction : AgentRun (Sqlite.BloodSugarReading + InvalidReading)) :
  let db' := fst (Sqlite.chat format_MealStatus db today uuid4 request
                    conversation extraction) in
  Sqlite.readings db' = Sqlite.readings db
  \/ exists extracted level,
       extraction = Returned (inl extracted)
       /\ Sqlite.real_column (Sqlite.glucose_level extracted) = Some level
       /\ Sqlite.readings db'
          = Sqlite.readings db
            ++ [Sqlite.set_glucose_level
                  (Sqlite.pending_row uuid4 (Sqlite.session_id request) extracted
                     (Sqlite.reading_date_for (Sqlite.date extracted) today))
                  level].
Proof.
  unfold Sqlite.chat.
  destruct conversation as [result|exc]; cbn [fst];
    [|left; apply sqlite_insert_user_rows].
  destruct extraction as [[extracted|invalid]|exc]; cbn [fst];
    try (left; apply sqlite_insert_user_rows).
  destruct (Sqlite.insert_reading _ _) as [db'|] eqn:Hins.
  - right. apply sqlite_insert_reading_rows in Hins as (level & Hlevel & _ & Hrows).
    exists extracted, level. split; [reflexivity|]. split; [exact Hlevel|].
    rewrite Hrows. now rewrite sqlite_insert_user_rows.
  - left. apply sqlite_insert_user_rows.
Qed.

(** The column refuses the NaN alone, and changes the zeros alone. *)
Lemma sqlite_real_column_cases (x : PyFloat.float) :
  (Sqlite.real_column x = None <-> x = S754_nan)
  /\ (forall level, Sqlite.real_column x = Some level ->
        level = x \/ (x = S754_zero true /\ level = S754_zero false)).
Proof.
  split; [split|].
  - destruct x; cbn; congruence.
  - now intros ->.
  - intros level. destruct x as [[|]| | |]; cbn; intros [= <-]; auto.
Qed.

(** The table after a chat message from which a reading was extracted. *)
Lemma sqlite_chat_readings (format_MealStatus : MealStatus -> string)
    (db : Sqlite.Database) (today : PyDate.date) (uuid4 : string)
    (request : Sqlite.ChatRequest) (result : ConversationResult)
    (extracted : Sqlite.BloodSugarReading) :
  Sqlite.readings
    (fst (Sqlite.chat format_MealStatus db today uuid4 request (Returned result)
            (Returned (inl extracted))))
  = match Sqlite.real_column (Sqlite.glucose_level extracted) with
    | Some level =>
        if existsb (Sqlite.has_id uuid4) (Sqlite.readings db)
        then Sqlite.readings db
        else Sqlite.readings db
             ++ [Sqlite.set_glucose_level
                   (Sqlite.pending_row uuid4 (Sqlite.session_id request) extracted
                      (Sqlite.reading_date_for (Sqlite.date extracted) today))
                   level]
    | None => Sqlite.readings db
    end.
Proof.
  unfold Sqlite.chat, Sqlite.insert_reading.
  cbn [fst Sqlite.row_id Sqlite.row_glucose_level Sqlite.pending_row].
  rewrite sqlite_insert_user_rows.
  destruct (Sqlite.real_column (Sqlite.glucose_level extracted)) as [level|];
    [|apply sqlite_insert_user_rows].
  destruct (existsb (Sqlite.has_id uuid4) (Sqlite.readings db));
    [apply sqlite_insert_user_rows|].
  reflexivity.
Qed.

Lemma sqlite_real_column_not_nan (x : PyFloat.float) :
  x <> S754_nan ->
  Sqlite.real_column x
  = Some match x with S754_zero _ => S754_zero false | level => level end.
Proof. intros Hx. now destruct x. Qed.

Lemma sqlite_chat_users (format_MealStatus : MealStatus -> string)
    (db : Sqlite.Database) (today : PyDate.date) (uuid4 : string)
    (request : Sqlite.ChatRequest) (conversation : AgentRun ConversationResult)
    (extraction : AgentRun (Sqlite.BloodSugarReading + InvalidReading)) :
  Sqlite.users (fst (Sqlite.chat format_MealStatus db today uuid4 request
                       conversation extraction))
  = Sqlite.users (Sqlite.insert_user_or_ignore db (Sqlite.session_id request)).
Proof.
  unfold Sqlite.chat.
  destruct conversation as [result|exc]; [|reflexivity].
  destruct extraction as [[extracted|invalid]|exc]; try reflexivity.
  cbn [fst]. destruct (Sqlite.insert_reading _ _) as [db'|] eqn:Hins; [|reflexivity].
  now apply sqlite_insert_reading_rows in Hins as (level & _ & Husers & _).
Qed.

(** Confirming a reading changes the [confirmed] column only. *)
Lemma sqlite_update_confirmed_ids (db : Sqlite.Database) (reading_id session_id : string) :
  map Sqlite.row_id (Sqlite.readings (Sqlite.update_confirmed db reading_id session_id))
  = map Sqlite.row_id (Sqlite.readings db).
Proof.
  unfold Sqlite.update_confirmed. cbn [Sqlite.readings].
  induction (Sqlite.readings db) as [|row rows IH]; [reflexivity|].
  cbn [map]. rewrite IH. f_equal.
  now destruct (Sqlite.has_id reading_id row && _).
Qed.

Lemma sqlite_serve_keeps_ids (format_MealStatus : MealStatus -> string)
    (db : Sqlite.Database) (r : Sqlite.Request) :
  Forall (fun row => Sqlite.row_id row <> None) (Sqlite.readings db) ->
  Forall (fun row => Sqlite.row_id row <> None)
         (Sqlite.readings (Sqlite.serve format_MealStatus db r)).
Proof.
  intros Hall. destruct r as [today uuid4 request conversation extraction|request];
    cbn [Sqlite.serve].
  - destruct (sqlite_chat_rows format_MealStatus db today uuid4 request
                conversation extraction) as [-> | (extracted & level & _ & _ & ->)];
      [assumption|].
    apply Forall_app. split; [assumption|].
    constructor; [discriminate | constructor].
  - unfold Sqlite.confirm_reading. destruct (Sqlite.confirm request); cbn [fst].
    + unfold Sqlite.update_confirmed. cbn [Sqlite.readings].
      induction Hall as [|row rows Hrow _ IH]; [constructor|].
      cbn [map]. constructor; [|exact IH].
      now destruct (Sqlite.has_id _ row && _).
    + unfold Sqlite.delete_reading. cbn [Sqlite.readings].
      induction Hall as [|row rows Hrow _ IH]; [constructor|].
      cbn [List.filter]. destruct (negb _); [constructor|]; assumption.
Qed.

(** Whatever requests were served since the table was created, each of its
    rows has an id. *)
Lemma sqlite_rows_have_ids (format_MealStatus : MealStatus -> string)
    (rs : list Sqlite.Request) (db : Sqlite.Database) :
  Forall (fun row => Sqlite.row_id row <> None) (Sqlite.readings db) ->
  Forall (fun row => Sqlite.row_id row <> None)
         (Sqlite.readings (Sqlite.serve_all format_MealStatus db rs)).
Proof.
  revert db. induction rs as [|r rs IH]; intros db Hall; [exact Hall|].
  cbn [Sqlite.serve_all fold_left]. apply IH.
  now apply sqlite_serve_keeps_ids.
Qed.

Lemma complex_confirm_appends_pending (db : Complex.Database) (today : PyDate.date)
    (request : Complex.ConfirmReadingRequest) (reading : Complex.BloodSugarReading) :
  Complex.get_pending_reading db (Complex.confirm_session_id request) = Some reading ->
  Complex.confirm request = true ->
  Complex.get_readings (fst (Complex.confirm_reading db today request))
    (Complex.confirm_session_id request)
  = Complex.get_readings db (Complex.confirm_session_id request) ++ [reading].
Proof.
  intros Hpending Hconfirm.
  rewrite (complex_confirm_reading_commits db today request reading Hpending Hconfirm).
  cbn [fst]. apply (complex_get_readings_add db _ reading).
Qed.

(** C2 (as amended): a reading gets its id when it is extracted, before any
    confirmation.  In main_complex.py the model's default factory assigns it
    when the reading is constructed, and confirming appends that very reading,
    id included, to the history.  In main_working_saving.py [chat] generates
    the id, stores the pending row under it and echoes it back; confirming
    changes no id.  No reading lacking an id is ever persisted to the
    confirmed history. *)
Theorem ids_are_assigned_at_extraction :
  (forall uuid4 given glucose_level date meal_status notes reading,
      Complex.BloodSugarReading_init uuid4 given glucose_level date meal_status notes
      = Some reading ->
      Complex.id reading = match given with Some id => id | None => uuid4 end)
  /\ (forall db today request reading,
        Complex.get_pending_reading db (Complex.confirm_session_id request)
        = Some reading ->
        Complex.confirm request = true ->
        Complex.get_readings (fst (Complex.confirm_reading db today request))
          (Complex.confirm_session_id request)
        = Complex.get_readings db (Complex.confirm_session_id request) ++ [reading])
  /\ (forall format_MealStatus db today uuid4 request result extracted,
        let after := Sqlite.chat format_MealStatus db today uuid4 request
                       (Returned result) (Returned (inl extracted)) in
        (exists body,
            snd after = Ok body
            /\ Sqlite.needs_confirmation body = true
            /\ option_map Sqlite.id (Sqlite.extracted_reading body)
               = Some (Some uuid4))
        /\ (Sqlite.readings (fst after) = Sqlite.readings db
            \/ exists row,
                 Sqlite.readings (fst after) = Sqlite.readings db ++ [row]
                 /\ Sqlite.row_id row = Some uuid4
                 /\ Sqlite.row_confirmed row = 0))
  /\ (forall db request,
        Sqlite.confirm request = true ->
        map Sqlite.row_id (Sqlite.readings (fst (Sqlite.confirm_reading db request)))
        = map Sqlite.row_id (Sqlite.readings db))
  /\ (forall format_MealStatus rs session_id row,
        In row (Sqlite.confirmed_readings
                  (Sqlite.serve_all format_MealStatus Sqlite.empty_db rs) session_id) ->
        Sqlite.row_id row <> None).
Proof.
  split; [|split; [|split; [|split]]].
  - intros uuid4 given glucose_level date meal_status notes reading.
    unfold Complex.BloodSugarReading_init.
    destruct (_ && _); [|discriminate]. now intros [= <-].
  - exact complex_confirm_appends_pending.
  - intros format_MealStatus db today uuid4 request result extracted after. split.
    + eexists. subst after. cbn [Sqlite.chat snd]. now repeat split.
    + destruct (sqlite_chat_rows format_MealStatus db today uuid4 request
                  (Returned result) (Returned (inl extracted)))
        as [Hsame | (extracted' & level & _ & _ & Hrows)]; [now left|].
      right. eexists. split; [exact Hrows|]. now split.
  - intros db request Hconfirm. unfold Sqlite.confirm_reading.
    rewrite Hconfirm. cbn [fst]. apply sqlite_update_confirmed_ids.
  - intros format_MealStatus rs session_id row Hin.
    unfold Sqlite.confirmed_readings in Hin. apply List.filter_In in Hin.
    destruct Hin as [Hin _].
    pose proof (sqlite_rows_have_ids format_MealStatus rs Sqlite.empty_db
                  ltac:(constructor)) as Hall.
    rewrite List.Forall_forall in Hall. now apply Hall.
Qed.

(** A reading of 100 mg/dL extracted from the first message of a session: the
    answer that asks for confirmation already carries the id. *)
Lemma ids_are_assigned_at_extraction_witness :
  let today := PyDate.mk_date 2026 11 4 in
  let extracted :=
    {| Sqlite.id := None; Sqlite.glucose_level := PyFloat.of_int 100;
       Sqlite.date := today; Sqlite.meal_status := FASTING; Sqlite.notes := None |} in
  let request := {| Sqlite.message := "100 fasting today"; Sqlite.session_id := "alice" |} in
  let result := {| data := "Good morning!"; all_messages := ["m1"] |} in
  let after := Sqlite.chat MealStatus_value Sqlite.empty_db today "id-1" request
                 (Returned result) (Returned (inl extracted)) in
  exists body,
    snd after = Ok body
    /\ Sqlite.needs_confirmation body = true
    /\ option_map Sqlite.id (Sqlite.extracted_reading body) = Some (Some "id-1").
Proof.
  intros today extracted request result after.
  exact (proj1 (proj1 (proj2 (proj2 ids_are_assigned_at_extraction))
                  MealStatus_value Sqlite.empty_db today "id-1" request result
                  extracted)).
Defined.

(** C2 as stated fails: after the chat message alone, with nothing confirmed,
    the pending row and the echoed reading both have their id. *)
Lemma sqlite_chat_assigns_id_before_confirmation :
  let today := PyDate.mk_date 2026 11 4 in
  let extracted :=
    {| Sqlite.id := None; Sqlite.glucose_level := PyFloat.of_int 100;
       Sqlite.date := today; Sqlite.meal_status := FASTING; Sqlite.notes := None |} in
  let request := {| Sqlite.message := "100 fasting today"; Sqlite.session_id := "alice" |} in
  let result := {| data := "Good morning!"; all_messages := ["m1"] |} in
  let after := Sqlite.chat MealStatus_value Sqlite.empty_db today "id-1" request
                 (Returned result) (Returned (inl extracted)) in
  Sqlite.confirmed_readings (fst after) "alice" = []
  /\ map Sqlite.row_id (Sqlite.pending_rows (fst after) "alice") = [Some "id-1"]
  /\ snd after
     = Ok {| Sqlite.response :=
               "I see you've shared a reading of 100.0 mg/dL (fasting) on 2026-11-04. Is this correct?";
             Sqlite.extracted_reading :=
               Some {| Sqlite.id := Some "id-1";
                       Sqlite.glucose_level := PyFloat.of_int 100;
                       Sqlite.date := today; Sqlite.meal_status := FASTING;
                       Sqlite.notes := None |};
             Sqlite.needs_confirmation := true |}
  /\ ~ (forall row, In row (Sqlite.pending_rows (fst after) "alice") ->
                    Sqlite.row_id row = None).
Proof.
  vm_compute. repeat split; try reflexivity.
  intros Hnone. specialize (Hnone _ (or_introl eq_refl)). discriminate.
Qed.

(** ** What a failed validation reports *)

Lemma join_two (sep a b : string) : join sep [a; b] = a +:+ sep +:+ b.
Proof. reflexivity. Qed.

Lemma validate_blood_sugar_on {R : Type} `{ReadingLike R} (day : PyDate.date)
    (previous : list R) (reading : R) :
  validate_blood_sugar {| today := day; previous_readings := previous |} reading
  = match validation_errors reading day with
    | _ :: _ => inr {| reason := join newline (validation_errors reading day) |}
    | [] => inl reading
    end.
Proof. reflexivity. Qed.

(** C4: whenever validation of a candidate fails, both checks were evaluated,
    each adding its message whatever the other found, and the reason that
    [validate_reading] and [validate_blood_sugar] return is the messages
    joined by newlines.  The range message contains the offending value and
    the bounds, the date message contains both dates.  The user of main.py
    reads the frame of the chat handler, which makes the same two checks on
    the reading the extraction agent returned: a reading that the model's
    constructor built has one message to report, and the frame is the
    handler's introduction followed by the validator's reason, character for
    character. *)
Theorem validation_reports_all_violations (reading : Ws.BloodSugarReading)
    (today : PyDate.date) :
  validation_errors reading today <> [] ->
  let errors :=
    (if out_of_range reading then [range_message reading] else [])
    ++ (if in_future reading today then [future_message reading today] else []) in
  validation_errors reading today = errors
  /\ validate_reading reading today = (false, join newline errors)
  /\ (forall previous,
        validate_blood_sugar {| today := today; previous_readings := previous |} reading
        = inr {| reason := join newline errors |})
  /\ (forall glucose_level date meal_status notes,
        Ws.BloodSugarReading_init glucose_level date meal_status notes = Some reading ->
        forall manager websocket conversation,
          Ws.on_message manager websocket today (Returned (inl reading)) conversation
          = Ws.send manager
              [Ws.message_frame
                 ("I couldn't validate your reading: "
                  +:+ snd (validate_reading reading today))])
  /\ (out_of_range reading = true ->
      contains (PyFloat.repr (Ws.glucose_level reading)) (join newline errors)
      /\ contains "30-600" (join newline errors))
  /\ (in_future reading today = true ->
      contains (PyDate.isoformat (Ws.date reading)) (join newline errors)
      /\ contains (PyDate.isoformat today) (join newline errors)).
Proof.
  intros Hfails errors.
  pose proof (validation_errors_cases reading today) as Hcases. fold errors in Hcases.
  assert (Hne : errors <> []) by now rewrite <- Hcases.
  split; [exact Hcases|].
  split; [|split; [|split; [|split]]].
  - unfold validate_reading. rewrite Hcases. now destruct errors.
  - intros previous. rewrite validate_blood_sugar_on, Hcases. now destruct errors.
  - intros glucose_level date meal_status notes Hinit manager websocket conversation.
    destruct (ws_on_message_rejects_date _ _ _ _ _ today Hinit Hfails)
      as [Hone Hframe].
    rewrite Hframe. unfold validate_reading. now rewrite Hone.
  - intros Hrange. subst errors. rewrite Hrange.
    pose proof (range_message_contains_value reading) as Hv.
    pose proof (range_message_contains_bound reading) as Hb.
    destruct (in_future reading today); cbn [app].
    + rewrite join_two. split; now apply contains_app_l.
    + now split.
  - intros Hfuture. subst errors. rewrite Hfuture.
    pose proof (future_message_contains_date reading today) as Hd.
    pose proof (future_message_contains_today reading today) as Ht.
    destruct (out_of_range reading); cbn [app].
    + rewrite join_two. split; now do 2 apply contains_app_r.
    + now split.
Qed.

(** A record that breaks both rules: both messages are reported, one to a
    line.  And a reading of 100 mg/dL that the extraction agent dates
    tomorrow: the frame the user is sent. *)
Lemma validation_reports_all_violations_witness :
  let today := PyDate.mk_date 2026 11 4 in
  let tomorrow := PyDate.mk_date 2026 11 5 in
  let broken :=
    {| Ws.glucose_level := PyFloat.of_int 700; Ws.date := tomorrow;
       Ws.meal_status := FASTING; Ws.notes := None |} in
  let extracted :=
    {| Ws.glucose_level := PyFloat.of_int 100; Ws.date := tomorrow;
       Ws.meal_status := FASTING; Ws.notes := None |} in
  let manager :=
    {| Ws.active_connections := [0%nat]; Ws.message_histories := ∅;
       Ws.db := {| Ws.readings := [] |} |} in
  (validation_errors broken today <> []
   /\ validate_reading broken today
      = (false,
         "Blood sugar level 700.0 mg/dL is outside typical meter range (30-600 mg/dL)"
         +:+ newline +:+ "Date cannot be in the future: 2026-11-05 > 2026-11-04"))
  /\ (Ws.BloodSugarReading_init (PyFloat.of_int 100) tomorrow FASTING None
      = Some extracted
      /\ Ws.sent (Ws.on_message manager 0%nat today (Returned (inl extracted))
                    (Raised "not run"))
         = [Ws.message_frame
              "I couldn't validate your reading: Date cannot be in the future: 2026-11-05 > 2026-11-04"]).
Proof.
  intros today tomorrow broken extracted manager.
  assert (Hbroken : validation_errors broken today <> []) by discriminate.
  assert (Hextracted : validation_errors extracted today <> []) by discriminate.
  split; split.
  - exact Hbroken.
  - exact (proj1 (proj2 (validation_reports_all_violations broken today Hbroken))).
  - reflexivity.
  - rewrite (proj1 (proj2 (proj2 (proj2
               (validation_reports_all_violations extracted today Hextracted))))
               (PyFloat.of_int 100) tomorrow FASTING None eq_refl
               manager 0%nat (Raised "not run")).
    reflexivity.
Defined.

(** ** The date of a reading in main_working_saving.py *)

Lemma sqlite_reading_date_replaced (extracted_date today : PyDate.date) :
  PyDate.gt extracted_date today = true
  \/ 90 < PyDate.days_between today extracted_date ->
  Sqlite.reading_date_for extracted_date today = today.
Proof.
  intros [Hfuture | Hold]; unfold Sqlite.reading_date_for.
  - now rewrite Hfuture.
  - apply Z.ltb_lt in Hold. rewrite Hold. now rewrite orb_true_r.
Qed.

Lemma sqlite_reading_date_kept (extracted_date today : PyDate.date) :
  PyDate.gt extracted_date today = false ->
  PyDate.days_between today extracted_date <= 90 ->
  Sqlite.reading_date_for extracted_date today = extracted_date.
Proof.
  intros Hnot Hrecent. unfold Sqlite.reading_date_for. rewrite Hnot.
  apply Z.ltb_ge in Hrecent. now rewrite Hrecent.
Qed.

(** For dates that exist, the two tests exclude each other, and the dates
    kept are those from today back to 90 days before it. *)
Lemma sqlite_reading_date_window (extracted_date today : PyDate.date) :
  PyDate.valid extracted_date = true -> PyDate.valid today = true ->
  Sqlite.reading_date_for extracted_date today
  = if (0 <=? PyDate.days_between today extracted_date)
       && (PyDate.days_between today extracted_date <=? 90)
    then extracted_date else today.
Proof.
  intros Hd Ht. unfold Sqlite.reading_date_for, PyDate.gt, PyDate.days_between.
  rewrite (compare_toordinal _ _ Hd Ht).
  destruct (PyDate.toordinal extracted_date ?= PyDate.toordinal today) eqn:Hc.
  - apply Z.compare_eq in Hc. rewrite Hc, Z.sub_diag. reflexivity.
  - rewrite Z.compare_lt_iff in Hc.
    destruct (90 <? _) eqn:H90; cbn [orb].
    + apply Z.ltb_lt in H90.
      replace (_ <=? 90) with false by (symmetry; apply Z.leb_gt; lia).
      now rewrite andb_false_r.
    + apply Z.ltb_ge in H90.
      replace (0 <=? _) with true by (symmetry; apply Z.leb_le; lia).
      replace (_ <=? 90) with true by (symmetry; apply Z.leb_le; lia).
      reflexivity.
  - rewrite Z.compare_gt_iff in Hc. cbn [orb].
    replace (0 <=? _) with false by (symmetry; apply Z.leb_gt; lia).
    reflexivity.
Qed.

(** C10: in main_working_saving.py, an extracted reading whose date is after
    today, or more than 90 days before today, is given today's date: that is
    the date bound to the INSERT of the pending row and the date of the
    reading echoed back for confirmation, and the answer is the ordinary
    request for confirmation, not a rejection.  The row is in the table
    afterwards unless the INSERT failed, which it does when the generated id
    is already a key or the level is a NaN. *)
Theorem sqlite_chat_replaces_implausible_date
    (format_MealStatus : MealStatus -> string) (db : Sqlite.Database)
    (today : PyDate.date) (uuid4 : string) (request : Sqlite.ChatRequest)
    (result : ConversationResult) (extracted : Sqlite.BloodSugarReading) :
  PyDate.gt (Sqlite.date extracted) today = true
  \/ 90 < PyDate.days_between today (Sqlite.date extracted) ->
  let after := Sqlite.chat format_MealStatus db today uuid4 request
                 (Returned result) (Returned (inl extracted)) in
  let row := Sqlite.pending_row uuid4 (Sqlite.session_id request) extracted today in
  snd after
  = Ok {| Sqlite.response :=
            Sqlite.confirmation_prompt format_MealStatus extracted today;
          Sqlite.extracted_reading :=
            Some {| Sqlite.id := Some uuid4;
                    Sqlite.glucose_level := Sqlite.glucose_level extracted;
                    Sqlite.date := today;
                    Sqlite.meal_status := Sqlite.meal_status extracted;
                    Sqlite.notes := Sqlite.notes extracted |};
          Sqlite.needs_confirmation := true |}
  /\ (forall level,
        Sqlite.row_date (Sqlite.set_glucose_level row level) = PyDate.isoformat today)
  /\ Sqlite.readings (fst after)
     = (if existsb (Sqlite.has_id uuid4) (Sqlite.readings db)
        then Sqlite.readings db
        else match Sqlite.glucose_level extracted with
             | S754_nan => Sqlite.readings db
             | S754_zero _ =>
                 Sqlite.readings db ++ [Sqlite.set_glucose_level row (S754_zero false)]
             | level => Sqlite.readings db ++ [Sqlite.set_glucose_level row level]
             end)
  /\ (forall added,
        In added (Sqlite.readings (fst after)) ->
        In added (Sqlite.readings db)
        \/ Sqlite.row_date added = PyDate.isoformat today).
Proof.
  intros Hdate after row.
  assert (Hrows : Sqlite.readings (fst after)
                  = (if existsb (Sqlite.has_id uuid4) (Sqlite.readings db)
                     then Sqlite.readings db
                     else match Sqlite.glucose_level extracted with
                          | S754_nan => Sqlite.readings db
                          | S754_zero _ =>
                              Sqlite.readings db
                              ++ [Sqlite.set_glucose_level row (S754_zero false)]
                          | level =>
                              Sqlite.readings db ++ [Sqlite.set_glucose_level row level]
                          end)).
  { subst after row. rewrite sqlite_chat_readings.
    rewrite (sqlite_reading_date_replaced _ _ Hdate).
    destruct (existsb (Sqlite.has_id uuid4) (Sqlite.readings db));
      now destruct (Sqlite.glucose_level extracted). }
  split; [|split; [reflexivity|split; [exact Hrows|]]].
  - subst after. unfold Sqlite.chat.
    rewrite (sqlite_reading_date_replaced _ _ Hdate). reflexivity.
  - intros added. rewrite Hrows.
    destruct (existsb (Sqlite.has_id uuid4) (Sqlite.readings db)); [now left|].
    destruct (Sqlite.glucose_level extracted); [| |now left|];
      (rewrite List.in_app_iff; intros [Hin | [<- | []]]; [now left | now right]).
Qed.

(** On 2026-11-04, a reading said to be of 2026-11-05 and one said to be of
    2026-08-05 (91 days earlier) are both stored and echoed as of
    2026-11-04. *)
Lemma sqlite_chat_replaces_implausible_date_witness :
  let today := PyDate.mk_date 2026 11 4 in
  let extracted date :=
    {| Sqlite.id := None; Sqlite.glucose_level := PyFloat.of_int 100;
       Sqlite.date := date; Sqlite.meal_status := FASTING; Sqlite.notes := None |} in
  let request := {| Sqlite.message := "100 fasting"; Sqlite.session_id := "alice" |} in
  let result := {| data := "Good morning!"; all_messages := ["m1"] |} in
  let after date := Sqlite.chat MealStatus_value Sqlite.empty_db today "id-1" request
                      (Returned result) (Returned (inl (extracted date))) in
  PyDate.gt (PyDate.mk_date 2026 11 5) today = true
  /\ map Sqlite.row_date (Sqlite.readings (fst (after (PyDate.mk_date 2026 11 5))))
     = ["2026-11-04"]
  /\ PyDate.days_between today (PyDate.mk_date 2026 8 5) = 91
  /\ map Sqlite.row_date (Sqlite.readings (fst (after (PyDate.mk_date 2026 8 5))))
     = ["2026-11-04"].
Proof.
  intros today extracted request result after.
  split; [reflexivity|]. split; [|split; [reflexivity|]].
  - unfold after.
    rewrite (proj1 (proj2 (proj2
               (sqlite_chat_replaces_implausible_date MealStatus_value
                  Sqlite.empty_db today "id-1" request result
                  (extracted (PyDate.mk_date 2026 11 5))
                  (or_introl eq_refl))))).
    reflexivity.
  - unfold after.
    rewrite (proj1 (proj2 (proj2
               (sqlite_chat_replaces_implausible_date MealStatus_value
                  Sqlite.empty_db today "id-1" request result
                  (extracted (PyDate.mk_date 2026 8 5))
                  (or_intror eq_refl))))).
    reflexivity.
Defined.

(* ===================================================================== *)
(** * Further properties of the code *)
(* ===================================================================== *)

(** ** The validators *)

Lemma SFcompare_None_iff (x y : spec_float) :
  SFcompare x y = None <-> x = S754_nan \/ y = S754_nan.
Proof.
  split.
  - destruct x as [sx|sx| |sx mx ex], y as [sy|sy| |sy my ey]; cbn;
      try discriminate; auto.
  - intros [-> | ->]; [reflexivity | now destruct x].
Qed.

Section ValidatorAcceptance.
Context {R : Type} `{ReadingLike R}.

(** X1: the validators accept a reading exactly when its date is not after
    today and its level is between 30 and 600 or is not a number at all: both
    tests are comparisons, and every comparison with NaN is false.  (The
    constructors of main.py and main_complex.py turn NaN down, their bounds
    being stated the other way round.) *)
Theorem validators_accept_iff (reading : R) (today : PyDate.date) :
  (validate_reading reading today = (true, EmptyString)
   <-> PyDate.le (date_of reading) today = true
       /\ (glucose_level_of reading = S754_nan
           \/ PyFloat.le (PyFloat.of_int 30) (glucose_level_of reading) = true
              /\ PyFloat.le (glucose_level_of reading) (PyFloat.of_int 600) = true))
  /\ (fst (validate_reading reading today) = true
      <-> validate_reading reading today = (true, EmptyString))
  /\ (forall previous,
         validate_blood_sugar {| today := today; previous_readings := previous |} reading
         = inl reading
         <-> validate_reading reading today = (true, EmptyString)).
Proof.
  assert (Hshape : validate_reading reading today = (true, EmptyString)
                   <-> validation_errors reading today = []).
  { unfold validate_reading. destruct (validation_errors reading today); split;
      intros Heq; try reflexivity; discriminate. }
  split; [|split].
  - rewrite Hshape, validation_errors_cases.
    unfold out_of_range, in_future, PyDate.le, PyDate.gt.
    rewrite <- (float_ge_le (glucose_level_of reading) (PyFloat.of_int 30)).
    unfold PyFloat.lt, PyFloat.gt, PyFloat.ge, PyFloat.le.
    destruct (SFcompare (glucose_level_of reading) (PyFloat.of_int 30))
      as [c30|] eqn:E30.
    + destruct (SFcompare (glucose_level_of reading) (PyFloat.of_int 600))
        as [c600|] eqn:E600.
      * assert (Hnum : glucose_level_of reading <> S754_nan).
        { intros Hnan. rewrite Hnan in E30. discriminate. }
        destruct c30, c600, (PyDate.compare (date_of reading) today); cbn;
          split; try discriminate; try tauto; intuition discriminate.
      * apply SFcompare_None_iff in E600 as [Hnan | Hnan]; [|discriminate].
        rewrite Hnan in E30. discriminate.
    + apply SFcompare_None_iff in E30 as [Hnan | Hnan]; [|discriminate].
      rewrite Hnan. cbn.
      destruct (PyDate.compare (date_of reading) today); cbn;
        split; try discriminate; try tauto; intuition discriminate.
  - unfold validate_reading. destruct (validation_errors reading today); cbn;
      split; intros Heq; try reflexivity; discriminate.
  - intros previous. rewrite validate_blood_sugar_on, Hshape.
    destruct (validation_errors reading today); split; intros Heq;
      try reflexivity; discriminate.
Qed.

End ValidatorAcceptance.

(** A level that is not a number passes the validator and fails the
    constructor. *)
Lemma validators_accept_iff_witness :
  let today := PyDate.mk_date 2026 11 4 in
  let reading := {| Ws.glucose_level := S754_nan; Ws.date := today;
                    Ws.meal_status := FASTING; Ws.notes := None |} in
  validate_reading reading today = (true, EmptyString)
  /\ Ws.BloodSugarReading_init S754_nan today FASTING None = None.
Proof.
  intros today reading. split; [|reflexivity].
  apply (proj1 (validators_accept_iff reading today)).
  split; [reflexivity | now left].
Defined.

(** ** main.py: the stored readings *)

(** What one frame does to the stored readings: nothing, or, for a
    confirm_reading frame, one reading more at the end. *)
Lemma ws_serve_readings (manager : Ws.ConnectionManager) (received : Ws.Received) :
  exists added,
    Ws.readings (Ws.db (Ws.serve manager received))
    = Ws.readings (Ws.db manager) ++ added
    /\ (length added <= if Ws.is_confirm_reading received then 1 else 0)%nat
    /\ Forall (fun r => PyFloat.le (PyFloat.of_int 30) (Ws.glucose_level r) = true
                        /\ PyFloat.le (Ws.glucose_level r) (PyFloat.of_int 600) = true)
              added.
Proof.
  unfold Ws.serve, Ws.is_confirm_reading, Ws.websocket_turn.
  assert (Hnone : exists added : list Ws.BloodSugarReading,
             Ws.readings (Ws.db manager) = Ws.readings (Ws.db manager) ++ added
             /\ (length added <= 0)%nat
             /\ Forall (fun r => PyFloat.le (PyFloat.of_int 30) (Ws.glucose_level r) = true
                                 /\ PyFloat.le (Ws.glucose_level r) (PyFloat.of_int 600)
                                    = true) added).
  { exists []. rewrite app_nil_r. repeat split; [cbn; lia | constructor]. }
  destruct (Ws.action_received received) as [user_message|reading_data notes| |].
  - unfold Ws.on_message.
    destruct (Ws.extraction_given received) as [[reading|invalid]|exc]; cbn;
      try exact Hnone.
    + now destruct (validation_errors reading (Ws.on_day received)).
    + now destruct (Ws.conversation_given received).
  - unfold Ws.on_confirm_reading.
    destruct (Ws.date_field reading_data) as [date|];
      [|destruct Hnone as (a & ? & ? & ?); exists a; cbn; repeat split; auto; lia].
    destruct (MealStatus_of_value _) as [meal_status|];
      [|destruct Hnone as (a & ? & ? & ?); exists a; cbn; repeat split; auto; lia].
    destruct (Ws.BloodSugarReading_init _ _ _ _) as [reading|] eqn:Hinit;
      [|destruct Hnone as (a & ? & ? & ?); exists a; cbn; repeat split; auto; lia].
    exists [reading]. cbn. repeat split; [lia|].
    constructor; [|constructor]. exact (ws_init_in_range _ _ _ _ _ Hinit).
  - exact Hnone.
  - exact Hnone.
Qed.

Lemma ws_serve_all_readings (frames : list Ws.Received) (manager : Ws.ConnectionManager) :
  exists added,
    Ws.readings (Ws.db (Ws.serve_all manager frames))
    = Ws.readings (Ws.db manager) ++ added
    /\ (length added <= length (List.filter Ws.is_confirm_reading frames))%nat
    /\ Forall (fun r => PyFloat.le (PyFloat.of_int 30) (Ws.glucose_level r) = true
                        /\ PyFloat.le (Ws.glucose_level r) (PyFloat.of_int 600) = true)
              added.
Proof.
  revert manager. induction frames as [|received frames IH]; intros manager.
  - exists []. cbn. rewrite app_nil_r. repeat split; [lia | constructor].
  - cbn [Ws.serve_all fold_left].
    destruct (ws_serve_readings manager received) as (a1 & Hs1 & Hl1 & Hf1).
    destruct (IH (Ws.serve manager received)) as (a2 & Hs2 & Hl2 & Hf2).
    exists (a1 ++ a2). split; [|split].
    + unfold Ws.serve_all in Hs2. rewrite Hs2, Hs1. now rewrite <- app_assoc.
    + rewrite length_app. cbn [List.filter].
      destruct (Ws.is_confirm_reading received); cbn [length]; lia.
    + apply Forall_app. now split.
Qed.

(** X2: whatever frames arrive on whatever connections, the server of
    main.py only ever appends to its list of readings: the list it had is a
    prefix of the list it has, nothing is removed, replaced or reordered, and
    it grows by at most one reading for each confirm_reading frame (chat
    messages, rejections and history requests add none). *)
Theorem ws_history_is_append_only (manager : Ws.ConnectionManager)
    (frames : list Ws.Received) :
  exists added,
    Ws.readings (Ws.db (Ws.serve_all manager frames))
    = Ws.readings (Ws.db manager) ++ added
    /\ (length added <= length (List.filter Ws.is_confirm_reading frames))%nat.
Proof.
  destruct (ws_serve_all_readings frames manager) as (added & Hs & Hl & _).
  now exists added.
Qed.

(** X3: every reading stored by main.py has a level between 30 and 600,
    provided those it started with had: the only way into the list is the
    model's constructor.  (Nothing of the kind holds of the dates, see C9.) *)
Theorem ws_stored_readings_in_range (manager : Ws.ConnectionManager)
    (frames : list Ws.Received) :
  Forall (fun r => PyFloat.le (PyFloat.of_int 30) (Ws.glucose_level r) = true
                   /\ PyFloat.le (Ws.glucose_level r) (PyFloat.of_int 600) = true)
         (Ws.readings (Ws.db manager)) ->
  Forall (fun r => PyFloat.le (PyFloat.of_int 30) (Ws.glucose_level r) = true
                   /\ PyFloat.le (Ws.glucose_level r) (PyFloat.of_int 600) = true)
         (Ws.readings (Ws.db (Ws.serve_all manager frames))).
Proof.
  intros Hstart.
  destruct (ws_serve_all_readings frames manager) as (added & -> & _ & Hadded).
  apply Forall_app. now split.
Qed.

(** A frame of 700 mg/dL and one of 120 mg/dL, confirmed on a server that
    holds one reading: the first is refused, the second is stored. *)
Lemma ws_stored_readings_in_range_witness :
  let day := PyDate.mk_date 2026 11 4 in
  let manager :=
    {| Ws.active_connections := [0%nat]; Ws.message_histories := ∅;
       Ws.db := {| Ws.readings :=
                     [{| Ws.glucose_level := PyFloat.of_int 95; Ws.date := day;
                         Ws.meal_status := FASTING; Ws.notes := None |}] |} |} in
  let confirm glucose :=
    {| Ws.on_websocket := 0%nat; Ws.on_day := day;
       Ws.action_received :=
         Ws.confirm_reading
           {| Ws.glucose_level_field := PyFloat.of_int glucose;
              Ws.date_field := Some day; Ws.meal_status_field := "prandial" |}
           EmptyString;
       Ws.extraction_given := Raised "not run";
       Ws.conversation_given := Raised "not run" |} in
  Forall (fun r => PyFloat.le (PyFloat.of_int 30) (Ws.glucose_level r) = true
                   /\ PyFloat.le (Ws.glucose_level r) (PyFloat.of_int 600) = true)
         (Ws.readings (Ws.db (Ws.serve_all manager [confirm 700; confirm 120]))).
Proof.
  intros day manager confirm.
  apply (ws_stored_readings_in_range manager [confirm 700; confirm 120]).
  constructor; [now split | constructor].
Defined.

(** X4: a confirm_reading frame is refused exactly when its date does not
    parse, its meal status is not one of the two values, or its level is
    outside 30..600; a refused frame sends nothing and leaves the manager as
    it was, and an accepted one makes the list of readings one longer. *)
Theorem ws_confirm_reading_raises_iff (manager : Ws.ConnectionManager)
    (reading_data : Ws.ReadingData) (notes : string) :
  let turn := Ws.on_confirm_reading manager reading_data notes in
  (Ws.raised turn <> None
   <-> Ws.date_field reading_data = None
       \/ MealStatus_of_value (Ws.meal_status_field reading_data) = None
       \/ PyFloat.ge (Ws.glucose_level_field reading_data) (PyFloat.of_int 30)
          && PyFloat.le (Ws.glucose_level_field reading_data) (PyFloat.of_int 600)
          = false)
  /\ (Ws.raised turn <> None -> Ws.manager_after turn = manager /\ Ws.sent turn = [])
  /\ (Ws.raised turn = None ->
      length (Ws.readings (Ws.db (Ws.manager_after turn)))
      = S (length (Ws.readings (Ws.db manager)))).
Proof.
  unfold Ws.on_confirm_reading, Ws.BloodSugarReading_init.
  destruct (Ws.date_field reading_data) as [date|]; cbn.
  2:{ split; [split; [now left | discriminate]|].
      split; [now split | discriminate]. }
  destruct (MealStatus_of_value (Ws.meal_status_field reading_data)) as [status|]; cbn.
  2:{ split; [split; [now right; left | discriminate]|].
      split; [now split | discriminate]. }
  destruct (PyFloat.ge _ _ && PyFloat.le _ _); cbn.
  - split; [split|split].
    + intros Hne. now elim Hne.
    + intros [Hd | [Hs | Hr]]; discriminate.
    + intros Hne. now elim Hne.
    + intros _. rewrite length_app. cbn. lia.
  - split; [split; [now right; right | discriminate]|].
    split; [now split | discriminate].
Qed.

(** ** main.py: statistics *)

Lemma ws_status_partition (readings : list Ws.BloodSugarReading) :
  length readings
  = (length (Ws.with_status FASTING readings)
     + length (Ws.with_status PRANDIAL readings))%nat.
Proof.
  unfold Ws.with_status. induction readings as [|r rs IH]; [reflexivity|].
  cbn [List.filter length]. destruct (Ws.meal_status r); cbn; lia.
Qed.

Lemma ws_similar_is_with_status (new_reading : Ws.BloodSugarReading)
    (readings : list Ws.BloodSugarReading) :
  similar_to new_reading readings
  = Ws.with_status (Ws.meal_status new_reading) readings.
Proof. reflexivity. Qed.

(** X5: the statistics of main.py fit the history and the trend analysis:
    the total is the number of fasting readings plus the number of prandial
    ones; an average is reported for a meal status exactly when the status
    has a reading; and it is then, rounded to one decimal, the very average
    that a new reading of that status is compared with. *)
Theorem ws_statistics_agree_with_trend (db : Ws.BloodSugarDatabase) :
  let stats := Ws.get_statistics db in
  Ws.total_readings stats = Z.of_nat (length (Ws.readings db))
  /\ Ws.total_readings stats
     = Z.of_nat (length (Ws.with_status FASTING (Ws.readings db)))
       + Z.of_nat (length (Ws.with_status PRANDIAL (Ws.readings db)))
  /\ (Ws.has_fasting stats = true <-> Ws.avg_fasting stats <> None)
  /\ (Ws.has_prandial stats = true <-> Ws.avg_prandial stats <> None)
  /\ (forall new_reading,
         similar_to new_reading (Ws.readings db) <> [] ->
         match Ws.meal_status new_reading with
         | FASTING => Ws.avg_fasting stats
         | PRANDIAL => Ws.avg_prandial stats
         end
         = Some (PyFloat.round_1 (average (similar_to new_reading (Ws.readings db))))).
Proof.
  intros stats. subst stats. unfold Ws.get_statistics.
  pose proof (ws_status_partition (Ws.readings db)) as Hpart.
  destruct (Ws.readings db) as [|r0 rs] eqn:Hreadings.
  - cbn. split; [reflexivity|]. split; [reflexivity|].
    split; [split; [discriminate | intros Hne; now elim Hne]|].
    split; [split; [discriminate | intros Hne; now elim Hne]|].
    intros new_reading Hne. now elim Hne.
  - rewrite <- Hreadings in *. cbn [Ws.total_readings Ws.has_fasting Ws.has_prandial
                                    Ws.avg_fasting Ws.avg_prandial].
    split; [reflexivity|]. split; [lia|].
    split; [|split].
    + destruct (Ws.with_status FASTING (Ws.readings db)); cbn [length]; split.
      * intros Hlt. apply Z.ltb_lt in Hlt. lia.
      * intros Hne. now elim Hne.
      * discriminate.
      * intros _. apply Z.ltb_lt. lia.
    + destruct (Ws.with_status PRANDIAL (Ws.readings db)); cbn [length]; split.
      * intros Hlt. apply Z.ltb_lt in Hlt. lia.
      * intros Hne. now elim Hne.
      * discriminate.
      * intros _. apply Z.ltb_lt. lia.
    + intros new_reading. rewrite ws_similar_is_with_status.
      destruct (Ws.meal_status new_reading); intros Hne.
      * destruct (Ws.with_status FASTING (Ws.readings db)); congruence.
      * destruct (Ws.with_status PRANDIAL (Ws.readings db)); congruence.
Qed.

(** The history of the statistics round trip: 90 and 110 fasting, 150 after
    a meal. *)
Lemma ws_statistics_agree_with_trend_witness :
  let day := PyDate.mk_date 2026 11 4 in
  let reading glucose status :=
    {| Ws.glucose_level := PyFloat.of_int glucose; Ws.date := day;
       Ws.meal_status := status; Ws.notes := None |} in
  let db := {| Ws.readings := [reading 90 FASTING; reading 110 FASTING;
                               reading 150 PRANDIAL] |} in
  Ws.total_readings (Ws.get_statistics db) = 3
  /\ Ws.avg_fasting (Ws.get_statistics db) = Some (PyFloat.of_int 100)
  /\ Ws.avg_prandial (Ws.get_statistics db) = Some (PyFloat.of_int 150).
Proof.
  intros day reading db.
  pose proof (ws_statistics_agree_with_trend db) as (Htotal & _ & _ & _ & Havg).
  split; [exact Htotal|]. split.
  - exact (Havg (reading 100 FASTING) ltac:(discriminate)).
  - exact (Havg (reading 100 PRANDIAL) ltac:(discriminate)).
Defined.

(** ** main.py: connections *)

Lemma ws_list_remove_last (websocket : Ws.WebSocket) (connections : list Ws.WebSocket) :
  ~ In websocket connections ->
  Ws.list_remove websocket (connections ++ [websocket]) = Some connections.
Proof.
  induction connections as [|c cs IH]; intros Hnot; cbn.
  - now rewrite Nat.eqb_refl.
  - destruct (Nat.eqb c websocket) eqn:E.
    + apply Nat.eqb_eq in E. elim Hnot. now left.
    + rewrite IH; [reflexivity|]. intros Hin. apply Hnot. now right.
Qed.

Lemma ws_list_remove_absent (websocket : Ws.WebSocket) (connections : list Ws.WebSocket) :
  ~ In websocket connections -> Ws.list_remove websocket connections = None.
Proof.
  induction connections as [|c cs IH]; intros Hnot; cbn; [reflexivity|].
  destruct (Nat.eqb c websocket) eqn:E.
  - apply Nat.eqb_eq in E. elim Hnot. now left.
  - rewrite IH; [reflexivity|]. intros Hin. apply Hnot. now right.
Qed.

(** X6: a connection that comes and goes takes its conversation with it and
    nothing else: after connect and disconnect the open connections and the
    database, the confirmed readings with it, are what they were, the
    connection has no message history left, and the histories of the other
    connections are untouched.  Disconnecting a connection that is not open
    raises (list.remove). *)
Theorem ws_disconnect_after_connect (manager : Ws.ConnectionManager)
    (websocket : Ws.WebSocket) :
  ~ In websocket (Ws.active_connections manager) ->
  Ws.disconnect manager websocket = None
  /\ exists manager',
       Ws.disconnect (Ws.connect manager websocket) websocket = Some manager'
       /\ Ws.active_connections manager' = Ws.active_connections manager
       /\ Ws.db manager' = Ws.db manager
       /\ Ws.message_histories manager' !! websocket = None
       /\ forall other, other <> websocket ->
            Ws.message_histories manager' !! other
            = Ws.message_histories manager !! other.
Proof.
  intros Hnot. split.
  - unfold Ws.disconnect. now rewrite (ws_list_remove_absent _ _ Hnot).
  - unfold Ws.disconnect, Ws.connect. cbn [Ws.active_connections].
    rewrite (ws_list_remove_last _ _ Hnot).
    eexists. split; [reflexivity|]. cbn.
    split; [reflexivity|]. split; [reflexivity|]. split.
    + apply lookup_delete_eq.
    + intros other Hother.
      rewrite lookup_delete_ne by congruence.
      now rewrite lookup_insert_ne by congruence.
Qed.

(** Connection 2 joins a server on which connection 1 has talked and one
    reading is stored, and leaves again. *)
Lemma ws_disconnect_after_connect_witness :
  let manager :=
    {| Ws.active_connections := [1%nat];
       Ws.message_histories := {[ 1%nat := ["hello"] ]};
       Ws.db := {| Ws.readings :=
                     [{| Ws.glucose_level := PyFloat.of_int 95;
                         Ws.date := PyDate.mk_date 2026 11 4;
                         Ws.meal_status := FASTING; Ws.notes := None |}] |} |} in
  exists manager',
    Ws.disconnect (Ws.connect manager 2%nat) 2%nat = Some manager'
    /\ Ws.active_connections manager' = [1%nat]
    /\ Ws.db manager' = Ws.db manager.
Proof.
  intros manager.
  destruct (proj2 (ws_disconnect_after_connect manager 2%nat
                     ltac:(intros [Heq | []]; discriminate)))
    as (manager' & Hdis & Hactive & Hdb & _).
  exists manager'. now repeat split.
Defined.

(** X7: a chat message touches nothing but the message history of its own
    connection, and that only when the conversation agent answered: the
    database and the histories of the other connections stay as they were;
    when a reading was extracted, valid or not, the conversation agent is not
    consulted and the manager is left untouched; when none was extracted,
    the history of the connection becomes the one the agent returned. *)
Theorem ws_message_touches_only_its_history (manager : Ws.ConnectionManager)
    (websocket : Ws.WebSocket) (today : PyDate.date)
    (extraction : AgentRun (Ws.BloodSugarReading + InvalidReading))
    (conversation : AgentRun ConversationResult) :
  let turn := Ws.on_message manager websocket today extraction conversation in
  Ws.db (Ws.manager_after turn) = Ws.db manager
  /\ Ws.active_connections (Ws.manager_after turn) = Ws.active_connections manager
  /\ (forall other, other <> websocket ->
        Ws.message_histories (Ws.manager_after turn) !! other
        = Ws.message_histories manager !! other)
  /\ (forall reading, extraction = Returned (inl reading) ->
        Ws.manager_after turn = manager
        /\ turn = Ws.on_message manager websocket today extraction (Raised "not run"))
  /\ (forall invalid result,
        extraction = Returned (inr invalid) -> conversation = Returned result ->
        Ws.message_histories (Ws.manager_after turn) !! websocket
        = Some (all_messages result)
        /\ Ws.sent turn = [Ws.message_frame (data result)]).
Proof.
  intros turn. subst turn. unfold Ws.on_message.
  destruct extraction as [[reading|invalid]|exc].
  - destruct (validation_errors reading today); cbn;
      (split; [reflexivity|]; split; [reflexivity|]; split; [reflexivity|];
       split; [now intros r _ | intros i r [=]]).
  - destruct conversation as [result|exc]; cbn.
    + split; [reflexivity|]. split; [reflexivity|]. split.
      * intros other Hother. now rewrite lookup_insert_ne by congruence.
      * split; [intros r [=]|]. intros i r _ [= <-].
        split; [apply lookup_insert_eq | reflexivity].
    + split; [reflexivity|]. split; [reflexivity|]. split; [reflexivity|].
      split; [intros r [=] | intros i r _ [=]].
  - cbn. split; [reflexivity|]. split; [reflexivity|]. split; [reflexivity|].
    split; [intros r [=] | intros i r [=]].
Qed.

(** ** main_complex.py: from a chat message to the history *)

Lemma complex_clear_pending_gone (db : Complex.Database) (session_id : string) :
  Complex.get_pending_reading (Complex.clear_pending_reading db session_id) session_id
  = None.
Proof. apply lookup_delete_eq. Qed.

Lemma complex_confirm_without_pending_again (db : Complex.Database)
    (today : PyDate.date) (request : Complex.ConfirmReadingRequest) :
  Complex.get_pending_reading db (Complex.confirm_session_id request) = None ->
  snd (Complex.confirm_reading db today request)
  = HTTPException 404 "No pending reading found".
Proof.
  intros Hnone. unfold Complex.confirm_reading. now rewrite Hnone.
Qed.

(** X8: in main_complex.py a reading goes from the chat message to the
    history in two steps, and nothing on the way looks at its date or at the
    id the client names.  When nothing is pending and the message is no exit
    command, a reading the extraction agent returns becomes the pending one
    and is echoed with a request for confirmation, the history being
    unchanged; confirming then appends exactly that reading to the history
    and clears the slot; confirming once more is answered with 404. *)
Theorem complex_chat_then_confirm (db : Complex.Database) (request : Complex.ChatRequest)
    (result : ConversationResult) (extracted : Complex.BloodSugarReading)
    (today : PyDate.date) (reading_id : string) :
  Complex.is_exit_command (Complex.message request) = false ->
  Complex.get_pending_reading db (Complex.session_id request) = None ->
  let session := Complex.session_id request in
  let after_chat :=
    Complex.chat db request (Returned result) (Returned (inl extracted)) in
  let confirmation :=
    {| Complex.confirm_session_id := session; Complex.reading_id := reading_id;
       Complex.confirm := true |} in
  let after_confirm := Complex.confirm_reading (fst after_chat) today confirmation in
  snd after_chat
  = Ok {| Complex.response := Complex.confirmation_prompt extracted;
          Complex.extracted_reading := Some extracted;
          Complex.needs_confirmation := true |}
  /\ Complex.get_pending_reading (fst after_chat) session = Some extracted
  /\ Complex.readings (fst after_chat) = Complex.readings db
  /\ Complex.get_readings (fst after_confirm) session
     = Complex.get_readings db session ++ [extracted]
  /\ Complex.get_pending_reading (fst after_confirm) session = None
  /\ snd (Complex.confirm_reading (fst after_confirm) today confirmation)
     = HTTPException 404 "No pending reading found".
Proof.
  intros Hexit Hnone session after_chat confirmation after_confirm.
  assert (Hchat : after_chat
                  = (Complex.set_pending_reading
                       (Complex.set_message_history db session (all_messages result))
                       session extracted,
                     Ok {| Complex.response := Complex.confirmation_prompt extracted;
                           Complex.extracted_reading := Some extracted;
                           Complex.needs_confirmation := true |})).
  { subst after_chat. unfold Complex.chat. rewrite Hexit.
    assert (Hsame : Complex.get_pending_reading
                      (Complex.set_message_history db (Complex.session_id request)
                         (all_messages result))
                      (Complex.session_id request) = None) by exact Hnone.
    now rewrite Hsame. }
  assert (Hpending : Complex.get_pending_reading (fst after_chat) session
                     = Some extracted).
  { rewrite Hchat. cbn [fst]. apply complex_set_pending_overwrites. }
  assert (Hgone : Complex.get_pending_reading (fst after_confirm) session = None).
  { subst after_confirm.
    rewrite (complex_confirm_reading_commits (fst after_chat) today confirmation
               extracted Hpending eq_refl).
    cbn [fst]. apply complex_clear_pending_gone. }
  split; [now rewrite Hchat|]. split; [exact Hpending|].
  split; [now rewrite Hchat|]. split; [|split; [exact Hgone|]].
  - pose proof (complex_confirm_appends_pending (fst after_chat) today confirmation
                  extracted Hpending eq_refl) as Happ.
    etransitivity; [exact Happ|]. f_equal. now rewrite Hchat.
  - now apply complex_confirm_without_pending_again.
Qed.

(** A reading dated in 2027 is extracted on 2026-11-04, confirmed under an id
    that is not its own, and ends up in the history. *)
Lemma complex_chat_then_confirm_witness :
  let today := PyDate.mk_date 2026 11 4 in
  let extracted :=
    {| Complex.id := "r-1"; Complex.glucose_level := PyFloat.of_int 120;
       Complex.date := PyDate.mk_date 2027 1 1; Complex.meal_status := PRANDIAL;
       Complex.notes := None |} in
  let request := {| Complex.message := "120 after lunch"; Complex.session_id := "alice" |} in
  let result := {| data := "Noted."; all_messages := ["m1"] |} in
  let after_chat :=
    Complex.chat Complex.empty_db request (Returned result) (Returned (inl extracted)) in
  let confirmation :=
    {| Complex.confirm_session_id := "alice"; Complex.reading_id := "another id";
       Complex.confirm := true |} in
  Complex.get_readings
    (fst (Complex.confirm_reading (fst after_chat) today confirmation)) "alice"
  = [extracted].
Proof.
  intros today extracted request result after_chat confirmation.
  exact (proj1 (proj2 (proj2 (proj2
           (complex_chat_then_confirm Complex.empty_db request result extracted today
              "another id" eq_refl eq_refl))))).
Defined.

(** X9: rejecting (confirm=false) discards the pending reading of the session
    and nothing else: the confirmed readings, the message histories and the
    pending readings of the other sessions are as before, and the user is
    asked to try again. *)
Theorem complex_reject_discards_pending (db : Complex.Database) (today : PyDate.date)
    (request : Complex.ConfirmReadingRequest) (pending : Complex.BloodSugarReading) :
  Complex.get_pending_reading db (Complex.confirm_session_id request) = Some pending ->
  Complex.confirm request = false ->
  let after := Complex.confirm_reading db today request in
  snd after = Ok "No problem, let's try again. What was your reading?"
  /\ Complex.readings (fst after) = Complex.readings db
  /\ Complex.message_history (fst after) = Complex.message_history db
  /\ Complex.get_pending_reading (fst after) (Complex.confirm_session_id request) = None
  /\ forall other, other <> Complex.confirm_session_id request ->
       Complex.get_pending_reading (fst after) other
       = Complex.get_pending_reading db other.
Proof.
  intros Hpending Hconfirm after. subst after. unfold Complex.confirm_reading.
  rewrite Hpending, Hconfirm. cbn [fst snd].
  split; [reflexivity|]. split; [reflexivity|]. split; [reflexivity|].
  split; [apply complex_clear_pending_gone|].
  intros other Hother. unfold Complex.get_pending_reading, Complex.clear_pending_reading.
  cbn. now rewrite lookup_delete_ne by congruence.
Qed.

Lemma complex_reject_discards_pending_witness :
  let reading :=
    {| Complex.id := "r-1"; Complex.glucose_level := PyFloat.of_int 120;
       Complex.date := PyDate.mk_date 2026 11 4; Complex.meal_status := PRANDIAL;
       Complex.notes := None |} in
  let db := Complex.set_pending_reading Complex.empty_db "alice" reading in
  let request :=
    {| Complex.confirm_session_id := "alice"; Complex.reading_id := "r-1";
       Complex.confirm := false |} in
  Complex.get_pending_reading
    (fst (Complex.confirm_reading db (PyDate.mk_date 2026 11 4) request)) "alice"
  = None.
Proof.
  intros reading db request.
  exact (proj1 (proj2 (proj2 (proj2
           (complex_reject_discards_pending db (PyDate.mk_date 2026 11 4) request
              reading eq_refl eq_refl))))).
Defined.

(** ** main_complex.py: sessions *)

Lemma complex_chat_other_session (db : Complex.Database) (request : Complex.ChatRequest)
    (conversation : AgentRun ConversationResult)
    (extraction : AgentRun (Complex.BloodSugarReading + InvalidReading))
    (other : string) :
  Complex.session_id request <> other ->
  let after := fst (Complex.chat db request conversation extraction) in
  Complex.readings after = Complex.readings db
  /\ Complex.get_pending_reading after other = Complex.get_pending_reading db other
  /\ Complex.get_message_history after other = Complex.get_message_history db other.
Proof.
  intros Hother after. subst after. unfold Complex.chat.
  destruct (Complex.is_exit_command _); [now repeat split|].
  destruct conversation as [result|exc]; [|now repeat split].
  assert (Hhist : Complex.get_message_history
                    (Complex.set_message_history db (Complex.session_id request)
                       (all_messages result)) other
                  = Complex.get_message_history db other).
  { unfold Complex.get_message_history, Complex.set_message_history. cbn.
    now rewrite lookup_insert_ne. }
  destruct (Complex.get_pending_reading _ _); [now repeat split|].
  destruct extraction as [[extracted|invalid]|exc]; cbn [fst];
    try (now repeat split).
  split; [reflexivity|]. split; [|exact Hhist].
  unfold Complex.get_pending_reading, Complex.set_pending_reading. cbn.
  now rewrite lookup_insert_ne.
Qed.

Lemma complex_confirm_other_session (db : Complex.Database) (today : PyDate.date)
    (request : Complex.ConfirmReadingRequest) (other : string) :
  Complex.confirm_session_id request <> other ->
  let after := fst (Complex.confirm_reading db today request) in
  Complex.get_readings after other = Complex.get_readings db other
  /\ Complex.get_pending_reading after other = Complex.get_pending_reading db other
  /\ Complex.get_message_history after other = Complex.get_message_history db other.
Proof.
  intros Hother after. subst after. unfold Complex.confirm_reading.
  destruct (Complex.get_pending_reading db _) as [reading|]; [|now repeat split].
  destruct (Complex.confirm request); cbn [fst].
  - unfold Complex.get_readings, Complex.get_pending_reading,
      Complex.get_message_history, Complex.clear_pending_reading, Complex.add_reading.
    cbn. rewrite lookup_insert_ne by exact Hother.
    now rewrite lookup_delete_ne by exact Hother.
  - unfold Complex.get_readings, Complex.get_pending_reading,
      Complex.get_message_history, Complex.clear_pending_reading.
    cbn. now rewrite lookup_delete_ne by exact Hother.
Qed.

(** X10: the sessions of main_complex.py do not see each other: whatever
    request is served for one session, and however it ends, the confirmed
    readings, the pending reading and the message history of every other
    session are what they were. *)
Theorem complex_sessions_are_isolated (db : Complex.Database) (r : Complex.Request)
    (other : string) :
  match r with
  | Complex.chat_request request _ _ => Complex.session_id request
  | Complex.confirm_request _ request => Complex.confirm_session_id request
  end <> other ->
  Complex.get_readings (Complex.serve db r) other = Complex.get_readings db other
  /\ Complex.get_pending_reading (Complex.serve db r) other
     = Complex.get_pending_reading db other
  /\ Complex.get_message_history (Complex.serve db r) other
     = Complex.get_message_history db other.
Proof.
  destruct r as [request conversation extraction|today request]; intros Hother;
    cbn [Complex.serve].
  - destruct (complex_chat_other_session db request conversation extraction other
                Hother) as (Hr & Hp & Hm).
    unfold Complex.get_readings. now rewrite Hr.
  - now apply complex_confirm_other_session.
Qed.

(** Alice confirms her reading while Bob's is waiting. *)
Lemma complex_sessions_are_isolated_witness :
  let reading id glucose :=
    {| Complex.id := id; Complex.glucose_level := PyFloat.of_int glucose;
       Complex.date := PyDate.mk_date 2026 11 4; Complex.meal_status := FASTING;
       Complex.notes := None |} in
  let db := Complex.set_pending_reading
              (Complex.set_pending_reading Complex.empty_db "alice" (reading "r-1" 100))
              "bob" (reading "r-2" 140) in
  let r := Complex.confirm_request (PyDate.mk_date 2026 11 4)
             {| Complex.confirm_session_id := "alice"; Complex.reading_id := "r-1";
                Complex.confirm := true |} in
  Complex.get_readings (Complex.serve db r) "bob" = []
  /\ Complex.get_pending_reading (Complex.serve db r) "bob" = Some (reading "r-2" 140).
Proof.
  intros reading db r.
  destruct (complex_sessions_are_isolated db r "bob" ltac:(discriminate))
    as (Hr & Hp & _).
  split; [exact Hr | exact Hp].
Defined.

(** X11: a failure of the extraction agent leaves a half-done turn behind.
    The request fails with the agent's exception, but the message history of
    the session has already been replaced by the one the conversation agent
    returned; readings and pending readings are untouched.  A failure of the
    conversation agent, which runs first, changes nothing at all. *)
Theorem complex_extraction_failure_keeps_new_history (db : Complex.Database)
    (request : Complex.ChatRequest) (result : ConversationResult) (exc : string)
    (extraction : AgentRun (Complex.BloodSugarReading + InvalidReading)) :
  Complex.is_exit_command (Complex.message request) = false ->
  Complex.get_pending_reading db (Complex.session_id request) = None ->
  let after := Complex.chat db request (Returned result) (Raised exc) in
  snd after = Unhandled exc
  /\ Complex.get_message_history (fst after) (Complex.session_id request)
     = all_messages result
  /\ Complex.readings (fst after) = Complex.readings db
  /\ Complex.pending_readings (fst after) = Complex.pending_readings db
  /\ Complex.chat db request (Raised exc) extraction = (db, Unhandled exc).
Proof.
  intros Hexit Hnone after. subst after. unfold Complex.chat. rewrite Hexit.
  assert (Hsame : Complex.get_pending_reading
                    (Complex.set_message_history db (Complex.session_id request)
                       (all_messages result))
                    (Complex.session_id request) = None) by exact Hnone.
  rewrite Hsame. cbn [fst snd].
  split; [reflexivity|]. split; [|now repeat split].
  unfold Complex.get_message_history, Complex.set_message_history. cbn.
  now rewrite lookup_insert_eq.
Qed.

Lemma complex_extraction_failure_keeps_new_history_witness :
  let request := {| Complex.message := "hello"; Complex.session_id := "alice" |} in
  let result := {| data := "Hi!"; all_messages := ["hello"; "Hi!"] |} in
  let after := Complex.chat Complex.empty_db request (Returned result)
                 (Raised "UsageLimitExceeded") in
  snd after = Unhandled "UsageLimitExceeded"
  /\ Complex.get_message_history (fst after) "alice" = ["hello"; "Hi!"].
Proof.
  intros request result after.
  destruct (complex_extraction_failure_keeps_new_history Complex.empty_db request
              result "UsageLimitExceeded" (Raised "UsageLimitExceeded")
              eq_refl eq_refl) as (Hanswer & Hhistory & _).
  split; [exact Hanswer | exact Hhistory].
Defined.

(** ** main_complex.py: statistics and the growth of the history *)

Lemma complex_status_partition (readings : list Complex.BloodSugarReading) :
  length readings
  = (length (Complex.with_status FASTING readings)
     + length (Complex.with_status PRANDIAL readings))%nat.
Proof.
  unfold Complex.with_status. induction readings as [|r rs IH]; [reflexivity|].
  cbn [List.filter length]. destruct (Complex.meal_status r); cbn; lia.
Qed.

(** X12: the statistics of main_complex.py fit the history and the trend
    analysis.  A user the server has never stored a reading for gets a total
    of 0 and no averages; otherwise the total is the number of fasting plus
    the number of prandial readings, an average is given for a meal status
    exactly when the status has a reading, and it is then (unrounded) the
    average that a new reading of that status is compared with. *)
Theorem complex_stats_agree_with_trend (db : Complex.Database) (user_id : string) :
  let stats := Complex.get_stats db user_id in
  let readings := Complex.get_readings db user_id in
  (Complex.readings db !! user_id = None ->
   stats = {| Complex.average_fasting := None; Complex.average_prandial := None;
              Complex.total_readings := 0 |})
  /\ Complex.total_readings stats
     = Z.of_nat (length (Complex.with_status FASTING readings))
       + Z.of_nat (length (Complex.with_status PRANDIAL readings))
  /\ (Complex.average_fasting stats = None
      <-> Complex.with_status FASTING readings = [])
  /\ (Complex.average_prandial stats = None
      <-> Complex.with_status PRANDIAL readings = [])
  /\ (forall new_reading,
         similar_to new_reading readings <> [] ->
         match Complex.meal_status new_reading with
         | FASTING => Complex.average_fasting stats
         | PRANDIAL => Complex.average_prandial stats
         end
         = Some (average (similar_to new_reading readings))).
Proof.
  intros stats readings. subst stats. unfold Complex.get_stats. fold readings.
  pose proof (complex_status_partition readings) as Hpart.
  split.
  { intros Hmissing. subst readings. unfold Complex.get_readings. now rewrite Hmissing. }
  destruct readings as [|r0 rs] eqn:Hreadings.
  - cbn. split; [reflexivity|]. split; [now split|]. split; [now split|].
    intros new_reading Hne. now elim Hne.
  - rewrite <- Hreadings in *.
    cbn [Complex.total_readings Complex.average_fasting Complex.average_prandial].
    split; [lia|]. split; [|split].
    + destruct (Complex.with_status FASTING readings); split; congruence.
    + destruct (Complex.with_status PRANDIAL readings); split; congruence.
    + intros new_reading.
      change (similar_to new_reading readings)
        with (Complex.with_status (Complex.meal_status new_reading) readings).
      destruct (Complex.meal_status new_reading); intros Hne.
      * destruct (Complex.with_status FASTING readings); congruence.
      * destruct (Complex.with_status PRANDIAL readings); congruence.
Qed.

Lemma complex_stats_agree_with_trend_witness :
  let reading id glucose status :=
    {| Complex.id := id; Complex.glucose_level := PyFloat.of_int glucose;
       Complex.date := PyDate.mk_date 2026 11 4; Complex.meal_status := status;
       Complex.notes := None |} in
  let db :=
    fst (Complex.add_reading
           (fst (Complex.add_reading
                   (fst (Complex.add_reading Complex.empty_db "alice"
                           (reading "r-1" 90 FASTING)))
                   "alice" (reading "r-2" 110 FASTING)))
           "alice" (reading "r-3" 150 PRANDIAL)) in
  Complex.get_stats db "alice"
  = {| Complex.average_fasting := Some (PyFloat.of_int 100);
       Complex.average_prandial := Some (PyFloat.of_int 150);
       Complex.total_readings := 3 |}
  /\ Complex.get_stats db "bob"
     = {| Complex.average_fasting := None; Complex.average_prandial := None;
          Complex.total_readings := 0 |}.
Proof.
  intros reading db. split; [reflexivity|].
  exact (proj1 (complex_stats_agree_with_trend db "bob") eq_refl).
Defined.

Lemma complex_serve_readings (db : Complex.Database) (r : Complex.Request)
    (user_id : string) :
  exists added,
    Complex.get_readings (Complex.serve db r) user_id
    = Complex.get_readings db user_id ++ added
    /\ (length added
        <= match r with
           | Complex.confirm_request _ request =>
               if Complex.confirm request then 1 else 0
           | _ => 0
           end)%nat.
Proof.
  destruct r as [request conversation extraction|today request]; cbn [Complex.serve].
  - exists []. rewrite app_nil_r. split; [|cbn; lia].
    unfold Complex.get_readings, Complex.chat.
    destruct (Complex.is_exit_command _); [reflexivity|].
    destruct conversation as [result|exc]; [|reflexivity].
    destruct (Complex.get_pending_reading _ _); [reflexivity|].
    now destruct extraction as [[extracted|invalid]|exc].
  - unfold Complex.confirm_reading.
    destruct (Complex.get_pending_reading db _) as [reading|].
    2:{ exists []. rewrite app_nil_r. split; [reflexivity | cbn; lia]. }
    destruct (Complex.confirm request); cbn [fst].
    2:{ exists []. rewrite app_nil_r. split; [reflexivity | cbn; lia]. }
    destruct (decide (Complex.confirm_session_id request = user_id)) as [<- | Hne].
    + exists [reading]. split; [|cbn; lia].
      apply (complex_get_readings_add db _ reading).
    + exists []. rewrite app_nil_r. split; [|cbn; lia].
      unfold Complex.get_readings, Complex.clear_pending_reading, Complex.add_reading.
      cbn. now rewrite lookup_insert_ne.
Qed.

(** X13: whatever requests main_complex.py serves, the history of a user
    only grows at its end: what was there stays, in its order, and at most
    one reading is added for each request that confirms (confirm=true); chat
    messages and rejections add none. *)
Theorem complex_history_is_append_only (db : Complex.Database)
    (rs : list Complex.Request) (user_id : string) :
  exists added,
    Complex.get_readings (Complex.serve_all db rs) user_id
    = Complex.get_readings db user_id ++ added
    /\ (length added
        <= length (List.filter
                     (fun r => match r with
                               | Complex.confirm_request _ request =>
                                   Complex.confirm request
                               | _ => false
                               end) rs))%nat.
Proof.
  revert db. induction rs as [|r rs IH]; intros db.
  - exists []. cbn. rewrite app_nil_r. split; [reflexivity | lia].
  - cbn [Complex.serve_all fold_left].
    destruct (complex_serve_readings db r user_id) as (a1 & Hs1 & Hl1).
    destruct (IH (Complex.serve db r)) as (a2 & Hs2 & Hl2).
    exists (a1 ++ a2). split.
    + unfold Complex.serve_all in Hs2. rewrite Hs2, Hs1. now rewrite <- app_assoc.
    + rewrite length_app. cbn [List.filter].
      destruct r as [request conversation extraction|today request];
        [cbn in Hl1 |- *; lia|].
      destruct (Complex.confirm request); cbn [length] in *; lia.
Qed.

(** ** main_working_saving.py: the table of readings *)

Lemma nodup_snoc {A : Type} (l : list A) (x : A) :
  List.NoDup l -> ~ In x l -> List.NoDup (l ++ [x]).
Proof.
  induction l as [|y l IH]; intros Hnd Hnot; cbn.
  - constructor; [intros [] | constructor].
  - apply List.NoDup_cons_iff in Hnd as [Hy Hnd].
    apply List.NoDup_cons_iff. split.
    + rewrite List.in_app_iff. intros [Hin | [-> | []]]; [now apply Hy|].
      apply Hnot. now left.
    + apply IH; [exact Hnd|]. intros Hin. apply Hnot. now right.
Qed.

Lemma nodup_map_filter {A B : Type} (f : A -> B) (p : A -> bool) (l : list A) :
  List.NoDup (map f l) -> List.NoDup (map f (List.filter p l)).
Proof.
  induction l as [|y l IH]; intros Hnd; cbn; [constructor|].
  cbn in Hnd. apply List.NoDup_cons_iff in Hnd as [Hy Hnd].
  destruct (p y); cbn; [|now apply IH].
  apply List.NoDup_cons_iff. split; [|now apply IH].
  intros Hin. apply Hy. apply List.in_map_iff in Hin as (z & Hz & Hin).
  apply List.in_map_iff. exists z. split; [exact Hz|].
  now apply List.filter_In in Hin as [Hin _].
Qed.

Lemma sqlite_has_id_iff (id : string) (row : Sqlite.Row) :
  Sqlite.has_id id row = true <-> Sqlite.row_id row = Some id.
Proof.
  unfold Sqlite.has_id. destruct (Sqlite.row_id row) as [i|]; [|now split].
  rewrite String.eqb_eq. split; congruence.
Qed.

Lemma sqlite_fresh_id (id : string) (rows : list Sqlite.Row) :
  existsb (Sqlite.has_id id) rows = false <-> ~ In (Some id) (map Sqlite.row_id rows).
Proof.
  rewrite <- not_true_iff_false, List.existsb_exists, List.in_map_iff.
  split; intros Hnot (row & H1 & H2); apply Hnot; exists row.
  - split; [exact H2 | now apply sqlite_has_id_iff].
  - split; [now apply sqlite_has_id_iff | exact H1].
Qed.

Lemma sqlite_fresh_id_rows (id : string) (rows : list Sqlite.Row) :
  existsb (Sqlite.has_id id) rows = false ->
  forall row, In row rows -> Sqlite.has_id id row = false.
Proof.
  intros Hfresh row Hin. apply not_true_iff_false. intros Hhas.
  apply not_true_iff_false in Hfresh. apply Hfresh.
  apply List.existsb_exists. now exists row.
Qed.

Lemma sqlite_serve_keeps_keys (format_MealStatus : MealStatus -> string)
    (db : Sqlite.Database) (r : Sqlite.Request) :
  List.NoDup (map Sqlite.row_id (Sqlite.readings db)) /\ List.NoDup (Sqlite.users db) ->
  List.NoDup (map Sqlite.row_id (Sqlite.readings (Sqlite.serve format_MealStatus db r)))
  /\ List.NoDup (Sqlite.users (Sqlite.serve format_MealStatus db r)).
Proof.
  intros [Hrows Husers].
  assert (Huser : forall session_id,
             List.NoDup (Sqlite.users (Sqlite.insert_user_or_ignore db session_id))).
  { intros session_id. unfold Sqlite.insert_user_or_ignore.
    destruct (existsb (String.eqb session_id) (Sqlite.users db)) eqn:E; [exact Husers|].
    cbn. apply nodup_snoc; [exact Husers|]. intros Hin.
    apply not_true_iff_false in E. apply E. apply List.existsb_exists.
    exists session_id. split; [exact Hin | apply String.eqb_refl]. }
  destruct r as [today uuid4 request conversation extraction|request];
    cbn [Sqlite.serve].
  - split; [|rewrite sqlite_chat_users; apply Huser].
    destruct conversation as [result|exc];
      [|unfold Sqlite.chat; cbn [fst]; now rewrite sqlite_insert_user_rows].
    destruct extraction as [[extracted|invalid]|exc];
      try (unfold Sqlite.chat; cbn [fst]; now rewrite sqlite_insert_user_rows).
    rewrite sqlite_chat_readings.
    destruct (Sqlite.real_column _) as [level|]; [|exact Hrows].
    destruct (existsb (Sqlite.has_id uuid4) (Sqlite.readings db)) eqn:Hfresh;
      [exact Hrows|].
    rewrite map_app. cbn [map Sqlite.row_id Sqlite.set_glucose_level Sqlite.pending_row].
    apply nodup_snoc; [exact Hrows|]. now apply sqlite_fresh_id.
  - unfold Sqlite.confirm_reading. destruct (Sqlite.confirm request); cbn [fst].
    + split; [|exact Husers]. now rewrite sqlite_update_confirmed_ids.
    + split; [|exact Husers]. unfold Sqlite.delete_reading. cbn [Sqlite.readings].
      now apply nodup_map_filter.
Qed.

(** X14: the keys of main_working_saving.py stay keys.  Whatever requests
    are served from the empty tables on, no two rows of [readings] have the
    same id and no session is in [users] twice, even when the id generator
    repeats itself: a reading whose id is taken is not stored. *)
Theorem sqlite_keys_stay_unique (format_MealStatus : MealStatus -> string)
    (rs : list Sqlite.Request) :
  List.NoDup (map Sqlite.row_id
                (Sqlite.readings (Sqlite.serve_all format_MealStatus Sqlite.empty_db rs)))
  /\ List.NoDup (Sqlite.users (Sqlite.serve_all format_MealStatus Sqlite.empty_db rs)).
Proof.
  assert (Hgen : forall db,
             List.NoDup (map Sqlite.row_id (Sqlite.readings db))
             /\ List.NoDup (Sqlite.users db) ->
             List.NoDup (map Sqlite.row_id
                           (Sqlite.readings (Sqlite.serve_all format_MealStatus db rs)))
             /\ List.NoDup (Sqlite.users (Sqlite.serve_all format_MealStatus db rs))).
  { induction rs as [|r rs IH]; intros db Hdb; [exact Hdb|].
    cbn [Sqlite.serve_all fold_left]. apply IH.
    now apply sqlite_serve_keeps_keys. }
  apply Hgen. cbn. split; constructor.
Qed.

Lemma sqlite_update_misses (rows : list Sqlite.Row) (reading_id session_id : string) :
  (forall row, In row rows ->
     Sqlite.has_id reading_id row && String.eqb (Sqlite.row_session_id row) session_id
     = false) ->
  map (fun row =>
         if Sqlite.has_id reading_id row
            && String.eqb (Sqlite.row_session_id row) session_id
         then Sqlite.set_confirmed row else row) rows
  = rows.
Proof.
  induction rows as [|row rows IH]; intros Hmiss; [reflexivity|].
  cbn [map]. rewrite (Hmiss row (or_introl eq_refl)). f_equal.
  apply IH. intros r Hin. apply Hmiss. now right.
Qed.

Lemma sqlite_delete_misses (rows : list Sqlite.Row) (reading_id : string) :
  (forall row, In row rows -> Sqlite.has_id reading_id row = false) ->
  List.filter (fun row => negb (Sqlite.has_id reading_id row)) rows = rows.
Proof.
  induction rows as [|row rows IH]; intros Hmiss; [reflexivity|].
  cbn [List.filter]. rewrite (Hmiss row (or_introl eq_refl)). cbn. f_equal.
  apply IH. intros r Hin. apply Hmiss. now right.
Qed.

Lemma sqlite_chat_stores_fresh (format_MealStatus : MealStatus -> string)
    (db : Sqlite.Database) (today : PyDate.date) (uuid4 : string)
    (request : Sqlite.ChatRequest) (result : ConversationResult)
    (extracted : Sqlite.BloodSugarReading) :
  existsb (Sqlite.has_id uuid4) (Sqlite.readings db) = false ->
  Sqlite.glucose_level extracted <> S754_nan ->
  Sqlite.readings
    (fst (Sqlite.chat format_MealStatus db today uuid4 request (Returned result)
            (Returned (inl extracted))))
  = Sqlite.readings db
    ++ [Sqlite.set_glucose_level
          (Sqlite.pending_row uuid4 (Sqlite.session_id request) extracted
             (Sqlite.reading_date_for (Sqlite.date extracted) today))
          match Sqlite.glucose_level extracted with
          | S754_zero _ => S754_zero false
          | _ => Sqlite.glucose_level extracted
          end].
Proof.
  intros Hfresh Hnum.
  now rewrite sqlite_chat_readings, (sqlite_real_column_not_nan _ Hnum), Hfresh.
Qed.

(** X15: a reading of main_working_saving.py goes from the chat message to
    the confirmed history in two requests.  When the generated id is new to
    the table and the extracted level is not a NaN, [chat] adds one
    unconfirmed row for the session, which holds the extracted level (a
    negative zero as 0.0), meal status and notes; confirming under that id
    and session then changes that row alone, and the confirmed history of the
    session is what it was plus this row.  No bound on the level is checked
    on the way. *)
Theorem sqlite_chat_then_confirm (format_MealStatus : MealStatus -> string)
    (db : Sqlite.Database) (today : PyDate.date) (uuid4 : string)
    (request : Sqlite.ChatRequest) (result : ConversationResult)
    (extracted : Sqlite.BloodSugarReading) :
  existsb (Sqlite.has_id uuid4) (Sqlite.readings db) = false ->
  Sqlite.glucose_level extracted <> S754_nan ->
  let session := Sqlite.session_id request in
  let level := match Sqlite.glucose_level extracted with
               | S754_zero _ => S754_zero false
               | _ => Sqlite.glucose_level extracted
               end in
  let row := Sqlite.set_glucose_level
               (Sqlite.pending_row uuid4 session extracted
                  (Sqlite.reading_date_for (Sqlite.date extracted) today))
               level in
  let after_chat := fst (Sqlite.chat format_MealStatus db today uuid4 request
                           (Returned result) (Returned (inl extracted))) in
  let after_confirm :=
    fst (Sqlite.confirm_reading after_chat
           {| Sqlite.confirm_session_id := session; Sqlite.reading_id := uuid4;
              Sqlite.confirm := true |}) in
  Sqlite.readings after_chat = Sqlite.readings db ++ [row]
  /\ Sqlite.confirmed_readings after_chat session = Sqlite.confirmed_readings db session
  /\ Sqlite.readings after_confirm = Sqlite.readings db ++ [Sqlite.set_confirmed row]
  /\ Sqlite.confirmed_readings after_confirm session
     = Sqlite.confirmed_readings db session ++ [Sqlite.set_confirmed row]
  /\ Sqlite.row_glucose_level row = level
  /\ Sqlite.row_meal_status row = MealStatus_value (Sqlite.meal_status extracted)
  /\ Sqlite.row_notes row = Sqlite.notes extracted.
Proof.
  intros Hfresh Hnum session level row after_chat after_confirm.
  assert (Hchat : Sqlite.readings after_chat = Sqlite.readings db ++ [row])
    by (apply sqlite_chat_stores_fresh; assumption).
  assert (Hconfirm : Sqlite.readings after_confirm
                     = Sqlite.readings db ++ [Sqlite.set_confirmed row]).
  { subst after_confirm. cbn [Sqlite.confirm_reading Sqlite.confirm fst
                              Sqlite.update_confirmed Sqlite.readings
                              Sqlite.reading_id Sqlite.confirm_session_id].
    rewrite Hchat, map_app. f_equal.
    - apply sqlite_update_misses. intros r Hin.
      now rewrite (sqlite_fresh_id_rows _ _ Hfresh r Hin).
    - cbn [map]. unfold row at 1 2. unfold Sqlite.has_id.
      cbn [Sqlite.row_id Sqlite.row_session_id Sqlite.set_glucose_level
           Sqlite.pending_row].
      now rewrite !String.eqb_refl. }
  split; [exact Hchat|]. split; [|split; [exact Hconfirm|split]].
  - unfold Sqlite.confirmed_readings. rewrite Hchat, List.filter_app.
    cbn [List.filter]. cbn [Sqlite.row_confirmed row Sqlite.set_glucose_level
                            Sqlite.pending_row].
    rewrite andb_false_r. apply app_nil_r.
  - unfold Sqlite.confirmed_readings. rewrite Hconfirm, List.filter_app.
    cbn [List.filter]. cbn [Sqlite.row_confirmed Sqlite.set_confirmed
                            Sqlite.row_session_id row Sqlite.set_glucose_level
                            Sqlite.pending_row].
    now rewrite String.eqb_refl.
  - now repeat split.
Qed.

(** A level of 5000 mg/dL, which no meter shows, is extracted, stored and
    confirmed. *)
Lemma sqlite_chat_then_confirm_witness :
  let today := PyDate.mk_date 2026 11 4 in
  let extracted :=
    {| Sqlite.id := None; Sqlite.glucose_level := PyFloat.of_int 5000;
       Sqlite.date := today; Sqlite.meal_status := FASTING; Sqlite.notes := None |} in
  let request := {| Sqlite.message := "5000 fasting"; Sqlite.session_id := "alice" |} in
  let result := {| data := "Hm."; all_messages := ["m1"] |} in
  let after_chat := fst (Sqlite.chat MealStatus_value Sqlite.empty_db today "id-1" request
                           (Returned result) (Returned (inl extracted))) in
  let after_confirm :=
    fst (Sqlite.confirm_reading after_chat
           {| Sqlite.confirm_session_id := "alice"; Sqlite.reading_id := "id-1";
              Sqlite.confirm := true |}) in
  Sqlite.glucose_level extracted <> S754_nan
  /\ Sqlite.confirmed_readings after_confirm "alice"
     = [{| Sqlite.row_id := Some "id-1"; Sqlite.row_session_id := "alice";
           Sqlite.row_glucose_level := PyFloat.of_int 5000;
           Sqlite.row_date := "2026-11-04"; Sqlite.row_meal_status := "fasting";
           Sqlite.row_notes := None; Sqlite.row_confirmed := 1 |}].
Proof.
  intros today extracted request result after_chat after_confirm.
  assert (Hnum : Sqlite.glucose_level extracted <> S754_nan)
    by (vm_compute; discriminate).
  split; [exact Hnum|].
  exact (proj1 (proj2 (proj2 (proj2
           (sqlite_chat_then_confirm MealStatus_value Sqlite.empty_db today "id-1"
              request result extracted eq_refl Hnum))))).
Defined.

(** X16: extracting and then rejecting leaves the table of readings exactly
    as it was, when the generated id is new to it. *)
Theorem sqlite_chat_then_reject (format_MealStatus : MealStatus -> string)
    (db : Sqlite.Database) (today : PyDate.date) (uuid4 : string)
    (request : Sqlite.ChatRequest) (result : ConversationResult)
    (extracted : Sqlite.BloodSugarReading) (rejecting_session : string) :
  existsb (Sqlite.has_id uuid4) (Sqlite.readings db) = false ->
  let after_chat := fst (Sqlite.chat format_MealStatus db today uuid4 request
                           (Returned result) (Returned (inl extracted))) in
  let after_reject :=
    Sqlite.confirm_reading after_chat
      {| Sqlite.confirm_session_id := rejecting_session; Sqlite.reading_id := uuid4;
         Sqlite.confirm := false |} in
  Sqlite.readings (fst after_reject) = Sqlite.readings db
  /\ snd after_reject = Ok "No problem, let's try again. What was your reading?".
Proof.
  intros Hfresh after_chat after_reject. split; [|reflexivity].
  subst after_reject. cbn [Sqlite.confirm_reading Sqlite.confirm fst
                           Sqlite.delete_reading Sqlite.readings Sqlite.reading_id].
  subst after_chat. rewrite sqlite_chat_readings, Hfresh.
  pose proof (sqlite_delete_misses _ _ (sqlite_fresh_id_rows _ _ Hfresh)) as Hkept.
  destruct (Sqlite.real_column (Sqlite.glucose_level extracted)) as [level|];
    [|exact Hkept].
  rewrite List.filter_app. cbn [List.filter].
  unfold Sqlite.has_id at 2.
  cbn [Sqlite.row_id Sqlite.set_glucose_level Sqlite.pending_row].
  rewrite String.eqb_refl. cbn [negb]. rewrite app_nil_r. exact Hkept.
Qed.

Lemma sqlite_chat_then_reject_witness :
  let today := PyDate.mk_date 2026 11 4 in
  let extracted :=
    {| Sqlite.id := None; Sqlite.glucose_level := PyFloat.of_int 100;
       Sqlite.date := today; Sqlite.meal_status := FASTING; Sqlite.notes := None |} in
  let request := {| Sqlite.message := "100 fasting"; Sqlite.session_id := "alice" |} in
  let result := {| data := "Good."; all_messages := ["m1"] |} in
  let after_chat := fst (Sqlite.chat MealStatus_value Sqlite.empty_db today "id-1" request
                           (Returned result) (Returned (inl extracted))) in
  Sqlite.readings
    (fst (Sqlite.confirm_reading after_chat
            {| Sqlite.confirm_session_id := "alice"; Sqlite.reading_id := "id-1";
               Sqlite.confirm := false |}))
  = [].
Proof.
  intros today extracted request result after_chat.
  exact (proj1 (sqlite_chat_then_reject MealStatus_value Sqlite.empty_db today "id-1"
                  request result extracted "alice" eq_refl)).
Defined.

(** X17: confirming in main_working_saving.py never fails and never tells
    whether anything was confirmed.  When no row has the id named under the
    session named (an unknown id, or the id of another session's reading), the
    tables are left exactly as they were, and the answer is still
    "Great! I've saved your reading.". *)
Theorem sqlite_confirm_unknown_reading (db : Sqlite.Database)
    (request : Sqlite.ConfirmReadingRequest) :
  Sqlite.confirm request = true ->
  existsb (fun row => Sqlite.has_id (Sqlite.reading_id request) row
                      && String.eqb (Sqlite.row_session_id row)
                                    (Sqlite.confirm_session_id request))
          (Sqlite.readings db) = false ->
  Sqlite.confirm_reading db request = (db, Ok "Great! I've saved your reading.").
Proof.
  intros Hconfirm Hmiss. unfold Sqlite.confirm_reading. rewrite Hconfirm.
  f_equal. unfold Sqlite.update_confirmed. rewrite sqlite_update_misses.
  - now destruct db.
  - intros row Hin. apply not_true_iff_false. intros Hhit.
    apply not_true_iff_false in Hmiss. apply Hmiss.
    apply List.existsb_exists. now exists row.
Qed.

(** Bob names the id of Alice's pending reading: nothing is confirmed, and
    Bob is told that his reading was saved. *)
Lemma sqlite_confirm_unknown_reading_witness :
  let db :=
    {| Sqlite.users := ["alice"; "bob"];
       Sqlite.readings :=
         [{| Sqlite.row_id := Some "id-1"; Sqlite.row_session_id := "alice";
             Sqlite.row_glucose_level := PyFloat.of_int 100;
             Sqlite.row_date := "2026-11-04"; Sqlite.row_meal_status := "fasting";
             Sqlite.row_notes := None; Sqlite.row_confirmed := 0 |}] |} in
  let request :=
    {| Sqlite.confirm_session_id := "bob"; Sqlite.reading_id := "id-1";
       Sqlite.confirm := true |} in
  Sqlite.confirm_reading db request = (db, Ok "Great! I've saved your reading.").
Proof.
  intros db request.
  apply (sqlite_confirm_unknown_reading db request); reflexivity.
Defined.

(** X18: rejecting in main_working_saving.py deletes by id alone.  After a
    rejection no row with the id named is left, whichever session it belonged
    to and whether it was confirmed or not (the session the request names
    plays no part); the rows with other ids are all kept, in their order. *)
Theorem sqlite_reject_deletes_by_id_alone (db : Sqlite.Database)
    (request : Sqlite.ConfirmReadingRequest) :
  Sqlite.confirm request = false ->
  let after := fst (Sqlite.confirm_reading db request) in
  (forall row, In row (Sqlite.readings after) ->
               Sqlite.row_id row <> Some (Sqlite.reading_id request))
  /\ (forall row, Sqlite.row_id row <> Some (Sqlite.reading_id request) ->
                  (In row (Sqlite.readings after) <-> In row (Sqlite.readings db)))
  /\ (forall session,
         Sqlite.confirm_reading db
           {| Sqlite.confirm_session_id := session;
              Sqlite.reading_id := Sqlite.reading_id request;
              Sqlite.confirm := false |}
         = Sqlite.confirm_reading db request)
  /\ Sqlite.users after = Sqlite.users db.
Proof.
  intros Hconfirm after. subst after. unfold Sqlite.confirm_reading.
  rewrite Hconfirm. cbn [fst Sqlite.confirm Sqlite.reading_id Sqlite.delete_reading
                         Sqlite.readings Sqlite.users].
  split; [|split; [|split; reflexivity]].
  - intros row Hin Hid. apply List.filter_In in Hin as [_ Hkeep].
    apply sqlite_has_id_iff in Hid. now rewrite Hid in Hkeep.
  - intros row Hid. rewrite List.filter_In. split; [now intros [Hin _]|].
    intros Hin. split; [exact Hin|].
    destruct (Sqlite.has_id (Sqlite.reading_id request) row) eqn:E; [|reflexivity].
    apply sqlite_has_id_iff in E. contradiction.
Qed.

(** Bob rejects under the id of a reading that Alice has confirmed: Alice's
    confirmed reading is gone. *)
Lemma sqlite_reject_deletes_by_id_alone_witness :
  let db :=
    {| Sqlite.users := ["alice"; "bob"];
       Sqlite.readings :=
         [{| Sqlite.row_id := Some "id-1"; Sqlite.row_session_id := "alice";
             Sqlite.row_glucose_level := PyFloat.of_int 100;
             Sqlite.row_date := "2026-11-04"; Sqlite.row_meal_status := "fasting";
             Sqlite.row_notes := None; Sqlite.row_confirmed := 1 |}] |} in
  let request :=
    {| Sqlite.confirm_session_id := "bob"; Sqlite.reading_id := "id-1";
       Sqlite.confirm := false |} in
  length (Sqlite.confirmed_readings db "alice") = 1%nat
  /\ Sqlite.confirmed_readings (fst (Sqlite.confirm_reading db request)) "alice" = []
  /\ forall row, In row (Sqlite.readings (fst (Sqlite.confirm_reading db request))) ->
                 Sqlite.row_id row <> Some "id-1".
Proof.
  intros db request. split; [reflexivity|]. split; [reflexivity|].
  exact (proj1 (sqlite_reject_deletes_by_id_alone db request eq_refl)).
Defined.

(** X19: in main_working_saving.py pending readings pile up.  Two chat
    messages of one session from which readings are extracted, with no
    confirmation in between, leave two unconfirmed rows for the session, the
    earlier one first (given ids that are new and differ, and levels that are
    not NaN, so that both INSERTs succeed). *)
Theorem sqlite_pending_readings_stack (format_MealStatus : MealStatus -> string)
    (db : Sqlite.Database) (today1 today2 : PyDate.date) (uuid1 uuid2 : string)
    (session : string) (message1 message2 : string)
    (result1 result2 : ConversationResult)
    (extracted1 extracted2 : Sqlite.BloodSugarReading) :
  existsb (Sqlite.has_id uuid1) (Sqlite.readings db) = false ->
  existsb (Sqlite.has_id uuid2) (Sqlite.readings db) = false ->
  uuid1 <> uuid2 ->
  Sqlite.glucose_level extracted1 <> S754_nan ->
  Sqlite.glucose_level extracted2 <> S754_nan ->
  let stored uuid4 extracted today :=
    Sqlite.set_glucose_level
      (Sqlite.pending_row uuid4 session extracted
         (Sqlite.reading_date_for (Sqlite.date extracted) today))
      match Sqlite.glucose_level extracted with
      | S754_zero _ => S754_zero false
      | _ => Sqlite.glucose_level extracted
      end in
  let after1 :=
    fst (Sqlite.chat format_MealStatus db today1 uuid1
           {| Sqlite.message := message1; Sqlite.session_id := session |}
           (Returned result1) (Returned (inl extracted1))) in
  let after2 :=
    fst (Sqlite.chat format_MealStatus after1 today2 uuid2
           {| Sqlite.message := message2; Sqlite.session_id := session |}
           (Returned result2) (Returned (inl extracted2))) in
  Sqlite.pending_rows after2 session
  = Sqlite.pending_rows db session
    ++ [stored uuid1 extracted1 today1; stored uuid2 extracted2 today2].
Proof.
  intros Hfresh1 Hfresh2 Hdiff Hnum1 Hnum2 stored after1 after2.
  assert (H1 : Sqlite.readings after1
               = Sqlite.readings db ++ [stored uuid1 extracted1 today1])
    by (apply (sqlite_chat_stores_fresh format_MealStatus db today1 uuid1
                 {| Sqlite.message := message1; Sqlite.session_id := session |});
        assumption).
  assert (Hfresh2' : existsb (Sqlite.has_id uuid2) (Sqlite.readings after1) = false).
  { rewrite H1, existsb_app, Hfresh2. cbn. unfold Sqlite.has_id.
    cbn [Sqlite.row_id Sqlite.set_glucose_level Sqlite.pending_row].
    rewrite orb_false_r. now apply String.eqb_neq. }
  assert (H2 : Sqlite.readings after2
               = Sqlite.readings after1 ++ [stored uuid2 extracted2 today2])
    by (apply (sqlite_chat_stores_fresh format_MealStatus after1 today2 uuid2
                 {| Sqlite.message := message2; Sqlite.session_id := session |});
        assumption).
  unfold Sqlite.pending_rows. rewrite H2, H1, !List.filter_app.
  cbn [List.filter Sqlite.row_session_id Sqlite.row_confirmed stored
       Sqlite.set_glucose_level Sqlite.pending_row].
  rewrite String.eqb_refl. cbn. now rewrite <- app_assoc.
Qed.

Lemma sqlite_pending_readings_stack_witness :
  let today := PyDate.mk_date 2026 11 4 in
  let extracted glucose :=
    {| Sqlite.id := None; Sqlite.glucose_level := PyFloat.of_int glucose;
       Sqlite.date := today; Sqlite.meal_status := FASTING; Sqlite.notes := None |} in
  let result := {| data := "Good."; all_messages := ["m1"] |} in
  let after1 :=
    fst (Sqlite.chat MealStatus_value Sqlite.empty_db today "id-1"
           {| Sqlite.message := "100 fasting"; Sqlite.session_id := "alice" |}
           (Returned result) (Returned (inl (extracted 100)))) in
  let after2 :=
    fst (Sqlite.chat MealStatus_value after1 today "id-2"
           {| Sqlite.message := "sorry, 140"; Sqlite.session_id := "alice" |}
           (Returned result) (Returned (inl (extracted 140)))) in
  map Sqlite.row_id (Sqlite.pending_rows after2 "alice") = [Some "id-1"; Some "id-2"].
Proof.
  intros today extracted result after1 after2. subst after2 after1.
  assert (Hdiff : "id-1" <> "id-2") by discriminate.
  assert (Hnum1 : Sqlite.glucose_level (extracted 100) <> S754_nan)
    by (vm_compute; discriminate).
  assert (Hnum2 : Sqlite.glucose_level (extracted 140) <> S754_nan)
    by (vm_compute; discriminate).
  rewrite (sqlite_pending_readings_stack MealStatus_value Sqlite.empty_db today today
             "id-1" "id-2" "alice" "100 fasting" "sorry, 140" result result
             (extracted 100) (extracted 140) eq_refl eq_refl Hdiff Hnum1 Hnum2).
  reflexivity.
Defined.

(** ** main_working_saving.py: what [chat] answers *)

(** X20: for dates that exist, the date under which main_working_saving.py
    stores and echoes an extracted reading is the extracted date exactly when
    that date lies from 0 to 90 days before today, both ends included, and
    today's date otherwise; the two tests of the source exclude each other,
    a date after today being a negative number of days before it.  (The row
    is stored when the generated id is new to the table and the level is not
    a NaN.) *)
Theorem sqlite_chat_keeps_dates_of_last_90_days
    (format_MealStatus : MealStatus -> string) (db : Sqlite.Database)
    (today : PyDate.date) (uuid4 : string) (request : Sqlite.ChatRequest)
    (result : ConversationResult) (extracted : Sqlite.BloodSugarReading) :
  PyDate.valid (Sqlite.date extracted) = true ->
  PyDate.valid today = true ->
  let days := PyDate.days_between today (Sqlite.date extracted) in
  let kept := if (0 <=? days) && (days <=? 90) then Sqlite.date extracted else today in
  let after := Sqlite.chat format_MealStatus db today uuid4 request
                 (Returned result) (Returned (inl extracted)) in
  (PyDate.gt (Sqlite.date extracted) today = true <-> days < 0)
  /\ snd after
     = Ok {| Sqlite.response :=
               Sqlite.confirmation_prompt format_MealStatus extracted kept;
             Sqlite.extracted_reading :=
               Some {| Sqlite.id := Some uuid4;
                       Sqlite.glucose_level := Sqlite.glucose_level extracted;
                       Sqlite.date := kept;
                       Sqlite.meal_status := Sqlite.meal_status extracted;
                       Sqlite.notes := Sqlite.notes extracted |};
             Sqlite.needs_confirmation := true |}
  /\ (existsb (Sqlite.has_id uuid4) (Sqlite.readings db) = false ->
      Sqlite.glucose_level extracted <> S754_nan ->
      map Sqlite.row_date (Sqlite.readings (fst after))
      = map Sqlite.row_date (Sqlite.readings db) ++ [PyDate.isoformat kept]).
Proof.
  intros Hdate Htoday days kept after.
  pose proof (sqlite_reading_date_window _ _ Hdate Htoday) as Hwindow.
  fold days in Hwindow. fold kept in Hwindow.
  split; [|split].
  - unfold PyDate.gt, days, PyDate.days_between.
    rewrite (compare_toordinal _ _ Hdate Htoday).
    destruct (PyDate.toordinal (Sqlite.date extracted) ?= PyDate.toordinal today) eqn:E.
    + apply Z.compare_eq in E. split; [discriminate | lia].
    + rewrite Z.compare_lt_iff in E. split; [discriminate | lia].
    + rewrite Z.compare_gt_iff in E. split; [lia | reflexivity].
  - subst after. unfold Sqlite.chat. cbn [snd]. now rewrite Hwindow.
  - intros Hfresh Hnum. subst after.
    rewrite (sqlite_chat_stores_fresh _ _ _ _ _ _ _ Hfresh Hnum), map_app, Hwindow.
    reflexivity.
Qed.

(** On 2026-11-04: 2026-08-06 is 90 days back and is kept, 2026-08-05 is 91
    days back and becomes today. *)
Lemma sqlite_chat_keeps_dates_of_last_90_days_witness :
  let today := PyDate.mk_date 2026 11 4 in
  let extracted date :=
    {| Sqlite.id := None; Sqlite.glucose_level := PyFloat.of_int 100;
       Sqlite.date := date; Sqlite.meal_status := FASTING; Sqlite.notes := None |} in
  let request := {| Sqlite.message := "100 fasting"; Sqlite.session_id := "alice" |} in
  let result := {| data := "Good."; all_messages := ["m1"] |} in
  let stored date :=
    map Sqlite.row_date
      (Sqlite.readings
         (fst (Sqlite.chat MealStatus_value Sqlite.empty_db today "id-1" request
                 (Returned result) (Returned (inl (extracted date)))))) in
  stored (PyDate.mk_date 2026 8 6) = ["2026-08-06"]
  /\ stored (PyDate.mk_date 2026 8 5) = ["2026-11-04"].
Proof.
  intros today extracted request result stored.
  assert (Hnum : forall date, Sqlite.glucose_level (extracted date) <> S754_nan)
    by (intros date; vm_compute; discriminate).
  split.
  - exact (proj2 (proj2 (sqlite_chat_keeps_dates_of_last_90_days MealStatus_value
                           Sqlite.empty_db today "id-1" request result
                           (extracted (PyDate.mk_date 2026 8 6)) eq_refl eq_refl))
             eq_refl (Hnum _)).
  - exact (proj2 (proj2 (sqlite_chat_keeps_dates_of_last_90_days MealStatus_value
                           Sqlite.empty_db today "id-1" request result
                           (extracted (PyDate.mk_date 2026 8 5)) eq_refl eq_refl))
             eq_refl (Hnum _)).
Defined.

(** X21: what can make [chat] of main_working_saving.py fail.  Only the
    conversation agent can: its exception becomes an HTTP 500 carrying the
    exception's text, with no reading stored.  Once it has answered, the
    request succeeds whatever the extraction agent and the INSERT do: a
    failing or empty-handed extraction stores nothing and the conversational
    reply is returned, and confirmation is asked for exactly when a reading
    was extracted.  In every case the session is registered as a user. *)
Theorem sqlite_chat_failures (format_MealStatus : MealStatus -> string)
    (db : Sqlite.Database) (today : PyDate.date) (uuid4 : string)
    (request : Sqlite.ChatRequest) (conversation : AgentRun ConversationResult)
    (extraction : AgentRun (Sqlite.BloodSugarReading + InvalidReading)) :
  let after := Sqlite.chat format_MealStatus db today uuid4 request
                 conversation extraction in
  In (Sqlite.session_id request) (Sqlite.users (fst after))
  /\ (forall exc, conversation = Raised exc ->
        snd after = HTTPException 500 exc
        /\ Sqlite.readings (fst after) = Sqlite.readings db)
  /\ (forall result, conversation = Returned result ->
        exists body,
          snd after = Ok body
          /\ (Sqlite.needs_confirmation body = true
              <-> exists extracted, extraction = Returned (inl extracted))
          /\ ((forall extracted, extraction <> Returned (inl extracted)) ->
              body = {| Sqlite.response := data result;
                        Sqlite.extracted_reading := None;
                        Sqlite.needs_confirmation := false |}
              /\ Sqlite.readings (fst after) = Sqlite.readings db)).
Proof.
  intros after.
  assert (Huser : forall db', In (Sqlite.session_id request)
                    (Sqlite.users (Sqlite.insert_user_or_ignore db'
                                     (Sqlite.session_id request)))).
  { intros db'. unfold Sqlite.insert_user_or_ignore.
    destruct (existsb _ (Sqlite.users db')) eqn:E; cbn.
    - apply List.existsb_exists in E as (s & Hin & Heq).
      apply String.eqb_eq in Heq. now subst s.
    - apply List.in_app_iff. right. now left. }
  subst after. unfold Sqlite.chat.
  destruct conversation as [result|exc].
  - destruct extraction as [[extracted|invalid]|exc]; cbn [fst snd].
    + split.
      * destruct (Sqlite.insert_reading _ _) as [db'|] eqn:Hins; [|apply Huser].
        apply sqlite_insert_reading_rows in Hins as (level & _ & -> & _).
        apply Huser.
      * split; [intros e [=]|]. intros r [= <-]. eexists. split; [reflexivity|].
        cbn. split; [split; [intros _; now exists extracted | reflexivity]|].
        intros Hnone. now elim (Hnone extracted).
    + split; [apply Huser|]. split; [intros e [=]|]. intros r [= <-].
      eexists. split; [reflexivity|]. cbn.
      split; [split; [discriminate | intros (e & [=])]|].
      intros _. split; [reflexivity | apply sqlite_insert_user_rows].
    + split; [apply Huser|]. split; [intros e [=]|]. intros r [= <-].
      eexists. split; [reflexivity|]. cbn.
      split; [split; [discriminate | intros (e & [=])]|].
      intros _. split; [reflexivity | apply sqlite_insert_user_rows].
  - cbn [fst snd]. split; [apply Huser|]. split; [|intros r [=]].
    intros e [= <-]. split; [reflexivity | apply sqlite_insert_user_rows].
Qed.

(** The extraction agent runs out of its budget: the user gets the
    conversational reply. *)
Lemma sqlite_chat_failures_witness :
  let request := {| Sqlite.message := "hello"; Sqlite.session_id := "alice" |} in
  let after := Sqlite.chat MealStatus_value Sqlite.empty_db (PyDate.mk_date 2026 11 4)
                 "id-1" request
                 (Returned {| data := "Hi!"; all_messages := ["m1"] |})
                 (Raised "UsageLimitExceeded") in
  exists body,
    snd after = Ok body
    /\ (Sqlite.needs_confirmation body = true
        <-> exists extracted,
              Raised "UsageLimitExceeded"
              = Returned (inl extracted : Sqlite.BloodSugarReading + InvalidReading)).
Proof.
  intros request after.
  destruct (proj2 (proj2 (sqlite_chat_failures MealStatus_value Sqlite.empty_db
                            (PyDate.mk_date 2026 11 4) "id-1" request
                            (Returned {| data := "Hi!"; all_messages := ["m1"] |})
                            (Raised "UsageLimitExceeded")))
              _ eq_refl) as (body & Hbody & Hneeds & _).
  exists body. split; [exact Hbody | exact Hneeds].
Defined.

(** ** Trend analysis and the exit commands *)

Lemma similar_to_idempotent {R : Type} `{ReadingLike R} (reading : R) (readings : list R) :
  similar_to reading (similar_to reading readings) = similar_to reading readings.
Proof.
  unfold similar_to. induction readings as [|r rs IH]; [reflexivity|].
  cbn [List.filter].
  destruct (MealStatus_eqb (meal_status_of r) (meal_status_of reading)) eqn:E;
    [|exact IH].
  cbn [List.filter]. rewrite E. f_equal. exact IH.
Qed.

(** X22: once the history has a reading of the same meal status as the new
    one, the readings of the other meal status play no part in the trend: the
    answer is the one that the same-status readings alone would give.  (When
    it has none, they decide between "first recorded reading" and "first
    reading of this status".) *)
Theorem trend_ignores_other_meal_status {R : Type} `{ReadingLike R}
    (day1 day2 : PyDate.date) (previous : list R) (new_reading : R) :
  similar_to new_reading previous <> [] ->
  analyze_trend {| today := day1; previous_readings := previous |} new_reading
  = analyze_trend {| today := day2;
                     previous_readings := similar_to new_reading previous |}
      new_reading.
Proof.
  intros Hne.
  rewrite !analyze_trend_similar; cbn [previous_readings];
    rewrite ?similar_to_idempotent; try exact Hne.
  reflexivity.
Qed.

(** A prandial reading of 300 among the fasting ones changes nothing for a
    fasting reading. *)
Lemma trend_ignores_other_meal_status_witness :
  let day := PyDate.mk_date 2026 11 4 in
  let reading glucose status :=
    {| Ws.glucose_level := PyFloat.of_int glucose; Ws.date := day;
       Ws.meal_status := status; Ws.notes := None |} in
  analyze_trend
    {| today := day;
       previous_readings := [reading 90 FASTING; reading 300 PRANDIAL;
                             reading 110 FASTING] |}
    (reading 100 FASTING)
  = analyze_trend
      {| today := day;
         previous_readings := [reading 90 FASTING; reading 110 FASTING] |}
      (reading 100 FASTING).
Proof.
  intros day reading.
  assert (Hne : similar_to (reading 100 FASTING)
                  [reading 90 FASTING; reading 300 PRANDIAL; reading 110 FASTING]
                <> []) by discriminate.
  exact (trend_ignores_other_meal_status day day _ _ Hne).
Defined.

Lemma ascii_lower_idempotent (c : ascii) : ascii_lower (ascii_lower c) = ascii_lower c.
Proof. destruct c as [[] [] [] [] [] [] [] []]; reflexivity. Qed.

Lemma lower_idempotent (s : string) : lower (lower s) = lower s.
Proof.
  induction s as [|c s IH]; [reflexivity|].
  cbn [lower]. now rewrite ascii_lower_idempotent, IH.
Qed.

(** X23: the exit commands of main_complex.py.  A message is an exit command
    in whatever letter case it is written; it is answered with the farewell
    without either agent being run, and it changes nothing on the server: not
    the message history, and not a reading that is waiting for its
    confirmation. *)
Theorem complex_exit_command_changes_nothing (db : Complex.Database)
    (request : Complex.ChatRequest) (conversation : AgentRun ConversationResult)
    (extraction : AgentRun (Complex.BloodSugarReading + InvalidReading)) :
  Complex.is_exit_command (Complex.message request) = true ->
  Complex.chat db request conversation extraction
  = (db, Ok (Complex.plain_response
               "Take care! Remember to check your blood sugar regularly."))
  /\ Complex.is_exit_command (lower (Complex.message request)) = true
  /\ forall message,
       lower message = lower (Complex.message request) ->
       Complex.is_exit_command message = true.
Proof.
  intros Hexit. split; [|split].
  - unfold Complex.chat. now rewrite Hexit.
  - unfold Complex.is_exit_command in *. now rewrite lower_idempotent.
  - intros message Hsame. unfold Complex.is_exit_command in *. now rewrite Hsame.
Qed.

(** "Quit", sent while a reading is pending. *)
Lemma complex_exit_command_changes_nothing_witness :
  let reading :=
    {| Complex.id := "r-1"; Complex.glucose_level := PyFloat.of_int 100;
       Complex.date := PyDate.mk_date 2026 11 4; Complex.meal_status := FASTING;
       Complex.notes := None |} in
  let db := Complex.set_pending_reading Complex.empty_db "alice" reading in
  let request := {| Complex.message := "Quit"; Complex.session_id := "alice" |} in
  Complex.chat db request (Raised "not run") (Raised "not run")
  = (db, Ok (Complex.plain_response
               "Take care! Remember to check your blood sugar regularly."))
  /\ Complex.is_exit_command "QUIT" = true.
Proof.
  intros reading db request.
  destruct (complex_exit_command_changes_nothing db request (Raised "not run")
              (Raised "not run") eq_refl) as (Hchat & _ & Hcase).
  split; [exact Hchat | exact (Hcase "QUIT" eq_refl)].
Defined.
